(** * Skern tag system: generation parameters, detectors and verdicts

    A shallow embedding of [app.py] (tag generation, scan analysis, registry
    and verdict classification) together with the properties stated about it.

    Layout of the development:
    - [Py]      : Python results (a value or a raised exception) and [try]/[except];
    - [PyStr]   : the [str] operations the QR detector uses ([in], [split], indexing);
    - [F64]     : binary64 arithmetic (round to nearest, ties to even) on
                  mantissa/exponent pairs, as [float] computes;
    - the registry ([store_tag_in_db], [verify_tag_in_db]);
    - the four detectors and [analyze_tag_image], over an interface for the
      imaging libraries (numpy, pyzbar, OpenCV);
    - the verdict classification and the downloadable report of the scan tab;
    - the guilloche and border parameter derivations;
    - the theorems. *)

From Stdlib Require Import ZArith NArith Lia Bool List String Ascii.
From Stdlib Require Import Strings.Byte Floats.SpecFloat.
From stdpp Require Import base option strings gmap.
Import ListNotations.

(* ===================================================================== *)
(** ** Python results and exceptions *)
(* ===================================================================== *)

Module Py.

(** Instances of [Exception] that the modelled code or the libraries it calls
    can raise.  [LibError] stands for any library failure ([cv2.error], a
    decoder fault, ...); all of them are subclasses of [Exception]. *)
Inductive exn : Type :=
  | ValueError
  | IndexError
  | ZeroDivisionError
  | UnicodeDecodeError
  | LibError (msg : string).

Inductive result (A : Type) : Type :=
  | Ok (a : A)
  | Raise (e : exn).

Arguments Ok {A} a.
Arguments Raise {A} e.

(** Sequencing: the first exception raised aborts what follows. *)
#[global] Instance result_ret : MRet result := fun A a => Ok a.
#[global] Instance result_bind : MBind result := fun A B k m =>
  match m with
  | Ok a => k a
  | Raise e => Raise e
  end.

(** [try: body except Exception as e: handler]. *)
Definition try_except {A : Type} (body : result A) (handler : exn -> result A) : result A :=
  match body with
  | Ok a => Ok a
  | Raise e => handler e
  end.

Definition is_ok {A : Type} (m : result A) : bool :=
  match m with
  | Ok _ => true
  | Raise _ => false
  end.

(** The value a [try] block protected by [except Exception: return v] gives. *)
Definition recover {A : Type} (body : result A) (v : A) : A :=
  match body with
  | Ok a => a
  | Raise _ => v
  end.

(** [l[k]] on a Python list: negative indices count from the end, and an
    index out of range raises [IndexError]. *)
Definition py_index {A : Type} (l : list A) (k : Z) : result A :=
  let n := Z.of_nat (length l) in
  let k' := (if k <? 0 then n + k else k)%Z in
  if (k' <? 0)%Z then Raise IndexError
  else match nth_error l (Z.to_nat k') with
       | Some a => Ok a
       | None => Raise IndexError
       end.

End Py.

Import Py.

(* ===================================================================== *)
(** ** Python [str] operations *)
(* ===================================================================== *)

Module PyStr.

Local Open Scope string_scope.

(** [s.startswith(pre)]. *)
Fixpoint startswith (s pre : string) {struct pre} : bool :=
  match pre with
  | EmptyString => true
  | String a pre' =>
      match s with
      | EmptyString => false
      | String b s' => Ascii.eqb a b && startswith s' pre'
      end
  end.

(** [sub in s]: [sub] occurs in [s] at some position. *)
Fixpoint contains (sub s : string) : bool :=
  startswith s sub ||
  match s with
  | EmptyString => false
  | String _ s' => contains sub s'
  end.

(** The scan behind [s.split(sep)] for a non-empty [sep]: occurrences are taken
    leftmost first and do not overlap.  [skip] counts the characters of a
    matched separator still to be passed over, [cur] is the piece being
    collected. *)
Fixpoint split_go (sep : string) (skip : nat) (cur s : string) : list string :=
  match s with
  | EmptyString => [cur]
  | String c s' =>
      match skip with
      | S k => split_go sep k cur s'
      | O =>
          if startswith s sep
          then cur :: split_go sep (String.length sep - 1) EmptyString s'
          else split_go sep O (cur ++ String c EmptyString) s'
      end
  end.

(** [s.split(sep)]; an empty separator raises [ValueError]. *)
Definition split (s sep : string) : result (list string) :=
  match sep with
  | EmptyString => Raise ValueError
  | _ => Ok (split_go sep O EmptyString s)
  end.

(** Truth value of a [str]: the empty string is false. *)
Definition truthy (s : string) : bool :=
  match s with
  | EmptyString => false
  | _ => true
  end.

End PyStr.

(* ===================================================================== *)
(** ** binary64 arithmetic *)
(* ===================================================================== *)

Module F64.

Local Open Scope Z_scope.

(** A finite [float] is a pair mantissa/exponent with value [mant * 2 ^ expo].
    Every operation rounds the exact result to 53 significant bits, to nearest
    with ties to even.  The exponent range of the format is not modelled: the
    quantities computed here stay far from overflow and from subnormals. *)
Record float64 : Type := Float { mant : Z; expo : Z }.

(** Number of low bits a non-negative integer loses when cut to 53 bits. *)
Definition shift_of (P : Z) : Z := Z.max 0 (Z.log2 P + 1 - 53).

(** Quotient of [P] by [2 ^ s], rounded to nearest, ties to even. *)
Definition rq (s P : Z) : Z :=
  let q := P / 2 ^ s in
  let r := P mod 2 ^ s in
  if (2 ^ s <? 2 * r) || ((2 * r =? 2 ^ s) && Z.odd q) then q + 1 else q.

(** A non-negative integer rounded to 53 significant bits. *)
Definition R53 (P : Z) : Z := rq (shift_of P) P * 2 ^ shift_of P.

(** Signed version: rounding is symmetric around zero. *)
Definition rnd (P : Z) : Z := Z.sgn P * R53 (Z.abs P).

(** Mantissa of [x] at the (smaller) exponent [e]. *)
Definition align (x : float64) (e : Z) : Z := mant x * 2 ^ (expo x - e).

(** [float(n)] for a Python [int]. *)
Definition fl_of_int (n : Z) : float64 := Float (rnd n) 0.

Definition fl_mul (x y : float64) : float64 :=
  Float (rnd (mant x * mant y)) (expo x + expo y).

Definition fl_add (x y : float64) : float64 :=
  let e := Z.min (expo x) (expo y) in
  Float (rnd (align x e + align y e)) e.

Definition fl_ltb (x y : float64) : bool :=
  let e := Z.min (expo x) (expo y) in align x e <? align y e.

Definition fl_leb (x y : float64) : bool :=
  let e := Z.min (expo x) (expo y) in align x e <=? align y e.

Definition fl_eqb (x y : float64) : bool :=
  let e := Z.min (expo x) (expo y) in align x e =? align y e.

(** The correctly rounded value of [(n / d) * 2 ^ e], [d <> 0].  The quotient
    is computed to at least 55 bits and one sticky bit records a non-zero
    remainder, so that the final rounding sees on which side of a midpoint the
    exact quotient lies. *)
Definition quot_fl (n d e : Z) : float64 :=
  let a := Z.abs n in
  let b := Z.abs d in
  let k := Z.max 0 (55 + Z.log2 b - Z.log2 a) in
  let f := (a * 2 ^ k) / b in
  let sticky := if (a * 2 ^ k) mod b =? 0 then 0 else 1 in
  Float (Z.sgn n * Z.sgn d * R53 (2 * f + sticky)) (e - k - 1).

(** [n / d] on Python [int]s (true division) with a non-zero literal divisor. *)
Definition int_truediv (n d : Z) : float64 := quot_fl n d 0.

(** A decimal literal [n / d], [d] a power of ten: the nearest [float]. *)
Definition literal (n d : Z) : float64 := quot_fl n d 0.

(** [x / d] for a float [x] and a non-zero [int] literal [d]. *)
Definition fl_div_lit (x : float64) (d : Z) : float64 :=
  quot_fl (mant x) d (expo x).

(** [x / y] on floats; a zero divisor raises [ZeroDivisionError]. *)
Definition fl_div (x y : float64) : result float64 :=
  if mant y =? 0 then Raise ZeroDivisionError
  else Ok (quot_fl (mant x) (mant y) (expo x - expo y)).

(** [int(x)]: truncation toward zero. *)
Definition fl_to_int (x : float64) : Z :=
  if 0 <=? expo x then mant x * 2 ^ expo x
  else Z.quot (mant x) (2 ^ (- expo x)).

(** [min(x, y)]: the first argument unless the second is smaller. *)
Definition fl_min (x y : float64) : float64 := if fl_ltb y x then y else x.

Definition zero : float64 := Float 0 0.
Definition one : float64 := Float 1 0.

(** The float literals of [app.py]. *)
Definition c_0_02 : float64 := literal 2 100.
Definition c_0_475 : float64 := literal 475 1000.
Definition c_0_7 : float64 := literal 7 10.
Definition c_0_3 : float64 := literal 3 10.
Definition c_0_1 : float64 := literal 1 10.
Definition c_0_8 : float64 := literal 8 10.
Definition c_0_4 : float64 := literal 4 10.
Definition c_0_04 : float64 := literal 4 100.
(** [math.pi] = 3.141592653589793. *)
Definition math_pi : float64 := literal 3141592653589793 (10 ^ 15).

End F64.

Import F64.

(* ===================================================================== *)
(** ** The simulated registry *)
(* ===================================================================== *)

(** [bytes.hex()]: two lowercase hexadecimal digits per byte. *)
Definition hex_digit (n : N) : ascii :=
  if (n <? 10)%N then ascii_of_N (48 + n) else ascii_of_N (87 + n).

Definition byte_hex (b : byte) : string :=
  let n := Byte.to_N b in
  String (hex_digit (n / 16)) (String (hex_digit (n mod 16)) EmptyString).

Definition bytes_hex (bs : list byte) : string :=
  fold_right (fun b acc => (byte_hex b ++ acc)%string) EmptyString bs.

(** The dict returned by [generate_secret_bundle]. *)
Record SecretBundle : Type := {
  cert_id : string;
  guilloche_id : list byte;
  border_id : list byte;
  serial_number : string
}.

(** The dict stored per tag in [st.session_state.tag_database]. *)
Record RegistryRecord : Type := {
  rec_batch_code : string;
  rec_cert_id : string;
  rec_guilloche_id : string;
  rec_border_id : string;
  rec_serial_number : string;
  rec_created_at : string;
  rec_authentic : bool
}.

(** The record [store_tag_in_db] builds; [now] is the reading of
    [datetime.now().isoformat()]. *)
Definition registry_record (bundle : SecretBundle) (batch_code now : string) : RegistryRecord :=
  {| rec_batch_code := batch_code;
     rec_cert_id := cert_id bundle;
     rec_guilloche_id := bytes_hex (guilloche_id bundle);
     rec_border_id := bytes_hex (border_id bundle);
     rec_serial_number := serial_number bundle;
     rec_created_at := now;
     rec_authentic := true |}.

(** [store_tag_in_db]: a plain dict assignment under the key [cert_id]. *)
Definition store_tag_in_db (bundle : SecretBundle) (batch_code now : string)
    (tag_database : gmap string RegistryRecord) : gmap string RegistryRecord :=
  <[cert_id bundle := registry_record bundle batch_code now]> tag_database.

(** [verify_tag_in_db]: the stored record, or [None]. *)
Definition verify_tag_in_db (cert : string)
    (tag_database : gmap string RegistryRecord) : option RegistryRecord :=
  tag_database !! cert.

(* ===================================================================== *)
(** ** Scan and verification *)
(* ===================================================================== *)

(** What the scan functions use of numpy, pyzbar, OpenCV and [bytes.decode].
    Every call may raise.  The numeric arguments are the ones [app.py] passes. *)
Class Imaging (Image : Type) : Type := {
  ndarray : Type;
  GrayImage : Type;
  EdgeMap : Type;
  LineSegment : Type;
  ResponseMap : Type;
  (** [image.size], as (width, height). *)
  image_size : Image -> Z * Z;
  (** [np.array(image)]. *)
  np_array : Image -> result ndarray;
  (** [decode(img_array)]: the [data] of each decoded object. *)
  pyzbar_decode : ndarray -> result (list (list byte));
  (** [data.decode('utf-8')]. *)
  bytes_decode_utf8 : list byte -> result string;
  (** [cv2.cvtColor(img_array, cv2.COLOR_RGB2HSV)]: the (h, s, v) pixels. *)
  cvtColor_RGB2HSV : ndarray -> result (list (Z * Z * Z));
  (** [cv2.cvtColor(img_array, cv2.COLOR_RGB2GRAY)]. *)
  cvtColor_RGB2GRAY : ndarray -> result GrayImage;
  (** [cv2.Canny(gray, 50, 150, apertureSize=3)]. *)
  cv2_Canny : GrayImage -> Z -> Z -> Z -> result EdgeMap;
  (** [cv2.HoughLinesP(edges, 1, np.pi/180, threshold, minLineLength, maxLineGap)]:
      [None] or the segments found. *)
  cv2_HoughLinesP :
    EdgeMap -> Z -> float64 -> Z -> Z -> Z -> result (option (list LineSegment));
  (** [cv2.cornerHarris(gray, blockSize, ksize, k)]. *)
  cv2_cornerHarris : GrayImage -> Z -> Z -> float64 -> result ResponseMap;
  (** [np.sum(corners > 0.01 * corners.max())]. *)
  strong_corner_count : ResponseMap -> result Z
}.

(** The dict built by [analyze_tag_image]. *)
Record AnalysisResult : Type := {
  qr_detected : bool;
  qr_cert_id : option string;
  guilloche_detected : bool;
  grid_detected : bool;
  corners_detected : bool;
  overall_valid : bool
}.

(** Truth value of a [str]-or-[None]. *)
Definition opt_str_truthy (o : option string) : bool :=
  match o with
  | Some s => PyStr.truthy s
  | None => false
  end.

(** [if 'id=' in qr_data: cert_id = qr_data.split('id=')[1]]: the candidate
    identifier of one decoded payload, [None] when the marker is absent. *)
Definition extract_cert_id (qr_data : string) : result (option string) :=
  if PyStr.contains "id=" qr_data
  then parts ← PyStr.split qr_data "id=";
       cert ← py_index parts 1;
       mret (Some cert)
  else mret None.

(** [cv2.inRange] on one pixel: every channel within its inclusive bounds. *)
Definition in_range (lower upper px : Z * Z * Z) : bool :=
  let '(l0, l1, l2) := lower in
  let '(u0, u1, u2) := upper in
  let '(p0, p1, p2) := px in
  ((l0 <=? p0) && (p0 <=? u0) && (l1 <=? p1) && (p1 <=? u1)
   && (l2 <=? p2) && (p2 <=? u2))%Z.

(** [np.sum(cv2.inRange(hsv, lower, upper) > 0)]. *)
Definition mask_pixels (lower upper : Z * Z * Z) (hsv : list (Z * Z * Z)) : Z :=
  Z.of_nat (length (List.filter (in_range lower upper) hsv)).

Definition cyan_lower : Z * Z * Z := (80, 50, 50)%Z.
Definition cyan_upper : Z * Z * Z := (100, 255, 255)%Z.
Definition magenta_lower : Z * Z * Z := (140, 50, 50)%Z.
Definition magenta_upper : Z * Z * Z := (170, 255, 255)%Z.

(** [threshold = total_pixels * 0.02] and
    [cyan_pixels > threshold or magenta_pixels > threshold]. *)
Definition guilloche_decision (cyan_pixels magenta_pixels total_pixels : Z) : bool :=
  let threshold := fl_mul (fl_of_int total_pixels) c_0_02 in
  fl_ltb threshold (fl_of_int cyan_pixels) || fl_ltb threshold (fl_of_int magenta_pixels).

Section Detectors.

Context {Image : Type} `{Imaging Image}.

(** The [for obj in decoded_objects] loop of [detect_qr_code]: it returns at
    the first payload that carries the marker. *)
Fixpoint scan_decoded (decoded_objects : list (list byte)) : result (option string) :=
  match decoded_objects with
  | [] => mret None
  | obj :: rest =>
      qr_data ← bytes_decode_utf8 obj;
      found ← extract_cert_id qr_data;
      match found with
      | Some cert => mret (Some cert)
      | None => scan_decoded rest
      end
  end.

Definition detect_qr_code_body (image : Image) : result (option string) :=
  img_array ← np_array image;
  decoded_objects ← pyzbar_decode img_array;
  match decoded_objects with
  | [] => mret None
  | _ => scan_decoded decoded_objects
  end.

Definition detect_qr_code (image : Image) : result (option string) :=
  try_except (detect_qr_code_body image) (fun _ => mret None).

Definition detect_guilloche_pattern_body (image : Image) : result bool :=
  img_array ← np_array image;
  hsv ← cvtColor_RGB2HSV img_array;
  let cyan_pixels := mask_pixels cyan_lower cyan_upper hsv in
  let magenta_pixels := mask_pixels magenta_lower magenta_upper hsv in
  let total_pixels := (fst (image_size image) * snd (image_size image))%Z in
  mret (guilloche_decision cyan_pixels magenta_pixels total_pixels).

Definition detect_guilloche_pattern (image : Image) : result bool :=
  try_except (detect_guilloche_pattern_body image) (fun _ => mret false).

Definition detect_grid_pattern_body (image : Image) : result bool :=
  img_array ← np_array image;
  gray ← cvtColor_RGB2GRAY img_array;
  edges ← cv2_Canny gray 50 150 3;
  lines ← cv2_HoughLinesP edges 1 (fl_div_lit math_pi 180) 100 50 10;
  mret (match lines with
        | Some ls => (10 <? Z.of_nat (length ls))%Z
        | None => false
        end).

Definition detect_grid_pattern (image : Image) : result bool :=
  try_except (detect_grid_pattern_body image) (fun _ => mret false).

Definition detect_corner_markers_body (image : Image) : result bool :=
  img_array ← np_array image;
  gray ← cvtColor_RGB2GRAY img_array;
  corners ← cv2_cornerHarris gray 2 3 c_0_04;
  corner_count ← strong_corner_count corners;
  mret (4 <=? corner_count)%Z.

Definition detect_corner_markers (image : Image) : result bool :=
  try_except (detect_corner_markers_body image) (fun _ => mret false).

Definition analyze_tag_image (image : Image) : result AnalysisResult :=
  cert ← detect_qr_code image;
  let qr := opt_str_truthy cert in
  let qr_id := if opt_str_truthy cert then cert else None in
  guilloche ← detect_guilloche_pattern image;
  grid ← detect_grid_pattern image;
  corners ← detect_corner_markers image;
  mret {| qr_detected := qr;
          qr_cert_id := qr_id;
          guilloche_detected := guilloche;
          grid_detected := grid;
          corners_detected := corners;
          overall_valid := qr && guilloche && grid && corners |}.

End Detectors.

(* ===================================================================== *)
(** ** The verdict of the scan tab *)
(* ===================================================================== *)

Inductive Verdict : Type := AUTHENTIC | SUSPICIOUS | COUNTERFEIT | SCAN_FAILED.

(** [tag_data = None; if analysis['qr_cert_id']: tag_data = verify_tag_in_db(...)]. *)
Definition tab2_tag_data (analysis : AnalysisResult)
    (tag_database : gmap string RegistryRecord) : option RegistryRecord :=
  match qr_cert_id analysis with
  | Some cert => if PyStr.truthy cert then verify_tag_in_db cert tag_database else None
  | None => None
  end.

(** Truth value of [tag_data]: a stored record is a non-empty dict. *)
Definition tag_data_truthy (tag_data : option RegistryRecord) : bool :=
  match tag_data with
  | Some _ => true
  | None => false
  end.

(** The [if]/[elif] chain that displays the verification status. *)
Definition tab2_verdict (analysis : AnalysisResult)
    (tag_database : gmap string RegistryRecord) : Verdict :=
  let tag_data := tab2_tag_data analysis tag_database in
  if tag_data_truthy tag_data && overall_valid analysis then AUTHENTIC
  else if tag_data_truthy tag_data && negb (overall_valid analysis) then SUSPICIOUS
  else if opt_str_truthy (qr_cert_id analysis) && negb (tag_data_truthy tag_data)
       then COUNTERFEIT
  else SCAN_FAILED.

(** [report_data]. *)
Record ReportData : Type := {
  rep_scan_time : string;
  rep_cert_id : option string;
  rep_qr_code : bool;
  rep_guilloche : bool;
  rep_grid : bool;
  rep_corners : bool;
  rep_verification_result : string
}.

(** The second [if]/[elif] chain, which names the verdict in the report. *)
Definition verification_result (analysis : AnalysisResult)
    (tag_data : option RegistryRecord) : string :=
  if tag_data_truthy tag_data && overall_valid analysis then "AUTHENTIC"
  else if tag_data_truthy tag_data && negb (overall_valid analysis) then "SUSPICIOUS"
  else if opt_str_truthy (qr_cert_id analysis) && negb (tag_data_truthy tag_data)
       then "COUNTERFEIT"
  else "SCAN_FAILED".

(** The report offered for download: built only under
    [if analysis['qr_cert_id']]. *)
Definition tab2_report (analysis : AnalysisResult)
    (tag_database : gmap string RegistryRecord) (now : string) : option ReportData :=
  let tag_data := tab2_tag_data analysis tag_database in
  if opt_str_truthy (qr_cert_id analysis)
  then Some {| rep_scan_time := now;
               rep_cert_id := qr_cert_id analysis;
               rep_qr_code := qr_detected analysis;
               rep_guilloche := guilloche_detected analysis;
               rep_grid := grid_detected analysis;
               rep_corners := corners_detected analysis;
               rep_verification_result := verification_result analysis tag_data |}
  else None.

(* ===================================================================== *)
(** ** Generation: QR payload, guilloche parameters, border dashes *)
(* ===================================================================== *)

(** [url = f"https://skern.com/verify?id={cert_id}"] in [generate_qr_layer]. *)
Definition qr_url (cert : string) : string :=
  ("https://skern.com/verify?id=" ++ cert)%string.

(** The [int] a byte of a key becomes in [list(secret_bytes)]. *)
Definition byte_value (b : byte) : Z := Z.of_N (Byte.to_N b).

(** [params = list(secret_bytes)]. *)
Definition byte_params (secret_bytes : list byte) : list Z :=
  map byte_value secret_bytes.

Section Guilloche.

Local Open Scope Z_scope.

(** The four parameters of one curve of [generate_guilloche_underlay]. *)
Record CurveParams : Type := {
  amp : float64;
  freq : Z;
  petals : Z;
  phase : float64
}.

(** [max_radius = canvas_size * 0.475]. *)
Definition max_radius (canvas_size : Z) : float64 :=
  fl_mul (fl_of_int canvas_size) c_0_475.

(** [0.7 + (p / 255) * 0.3]. *)
Definition amp_factor (p : Z) : float64 :=
  fl_add c_0_7 (fl_mul (int_truediv p 255) c_0_3).

Definition amp_of (canvas_size p : Z) : float64 :=
  fl_mul (max_radius canvas_size) (amp_factor p).

Definition freq_of (p : Z) : Z := 8 + p / 32.

Definition petals_of (p : Z) : Z := 5 + p / 32.

(** [(p / 255) * 2 * math.pi]. *)
Definition phase_of (p : Z) : float64 :=
  fl_mul (fl_mul (int_truediv p 255) (fl_of_int 2)) math_pi.

(** The parameter derivation in the body of [for i in range(4)]. *)
Definition curve_params (secret_bytes : list byte) (canvas_size i : Z) : result CurveParams :=
  let params := byte_params secret_bytes in
  let base := i * 4 in
  p0 ← py_index params (base mod 16);
  p1 ← py_index params ((base + 1) mod 16);
  p2 ← py_index params ((base + 2) mod 16);
  p3 ← py_index params ((base + 3) mod 16);
  mret {| amp := amp_of canvas_size p0;
          freq := freq_of p1;
          petals := petals_of p2;
          phase := phase_of p3 |}.

(** [2 * math.pi]. *)
Definition two_pi : float64 := fl_mul (fl_of_int 2) math_pi.

End Guilloche.

(** [math.sin] and [math.hypot], as the border walk uses them. *)
Class Libm : Type := {
  math_sin : float64 -> float64;
  math_hypot : float64 -> float64 -> float64
}.

Section Border.

Local Open Scope Z_scope.

Context `{Libm}.

Definition THICKNESS : Z := 8.

(** One [draw.line] of the dash walk. *)
Record Dash : Type := {
  dash_start : float64 * float64;
  dash_end : float64 * float64;
  dash_width : Z
}.

(** The variables the [while] loop updates. *)
Record WalkState : Type := {
  dist : float64;
  segment : Z;
  drawn : list Dash
}.

(** [mod = (params[idx] / 255) * 2 + 1]. *)
Definition dash_mod (p : Z) : float64 :=
  fl_add (fl_mul (int_truediv p 255) (fl_of_int 2)) (fl_of_int 1).

(** [dash_len = 20 * mod * (1 + 0.3 * math.sin(dist * 0.1))]. *)
Definition dash_len_of (p : Z) (d : float64) : float64 :=
  fl_mul (fl_mul (fl_of_int 20) (dash_mod p))
         (fl_add (fl_of_int 1) (fl_mul c_0_3 (math_sin (fl_mul d c_0_1)))).

(** [gap_len = 12 + (params[(idx + 5) % 16] / 255) * 10]. *)
Definition gap_len_of (p : Z) : float64 :=
  fl_add (fl_of_int 12) (fl_mul (int_truediv p 255) (fl_of_int 10)).

(** [thickness = int(THICKNESS * (0.8 + 0.4 * (params[idx] / 255)))]. *)
Definition thickness_of (p : Z) : Z :=
  fl_to_int (fl_mul (fl_of_int THICKNESS) (fl_add c_0_8 (fl_mul c_0_4 (int_truediv p 255)))).

(** The three quantities of a dash as functions of the key, the segment index
    and the distance travelled. *)
Definition dash_len_at (params : list Z) (seg : Z) (d : float64) : result float64 :=
  p ← py_index params (seg mod 16);
  mret (dash_len_of p d).

Definition gap_len_at (params : list Z) (seg : Z) : result float64 :=
  p ← py_index params ((seg mod 16 + 5) mod 16);
  mret (gap_len_of p).

Definition thickness_at (params : list Z) (seg : Z) : result Z :=
  p ← py_index params (seg mod 16);
  mret (thickness_of p).

(** [x1 + (dx * t / length)]. *)
Definition along (x1 dx : Z) (t len : float64) : result float64 :=
  q ← fl_div (fl_mul (fl_of_int dx) t) len;
  mret (fl_add (fl_of_int x1) q).

(** One pass through the body of [while dist < length]. *)
Definition dash_iteration (params : list Z) (side : (Z * Z) * (Z * Z))
    (len : float64) (st : WalkState) : result WalkState :=
  let '((x1, y1), (x2, y2)) := side in
  let dx := x2 - x1 in
  let dy := y2 - y1 in
  dash_len ← dash_len_at params (segment st) (dist st);
  gap_len ← gap_len_at params (segment st);
  thickness ← thickness_at params (segment st);
  let start := dist st in
  let end_ := fl_min (fl_add (dist st) dash_len) len in
  drawn' ← (if fl_ltb start end_
            then sx ← along x1 dx start len;
                 sy ← along y1 dy start len;
                 ex ← along x1 dx end_ len;
                 ey ← along y1 dy end_ len;
                 mret (drawn st ++ [ {| dash_start := (sx, sy);
                                        dash_end := (ex, ey);
                                        dash_width := thickness |} ])
            else mret (drawn st));
  mret {| dist := fl_add (dist st) (fl_add dash_len gap_len);
          segment := segment st + 1;
          drawn := drawn' |}.

(** [n] passes through the loop body, each one entered with [dist < length]:
    [None] when the loop would have stopped earlier. *)
Fixpoint dash_iterations (n : nat) (params : list Z) (side : (Z * Z) * (Z * Z))
    (len : float64) (st : WalkState) : result (option WalkState) :=
  match n with
  | O => mret (Some st)
  | S n' =>
      if fl_ltb (dist st) len
      then st' ← dash_iteration params side len st;
           dash_iterations n' params side len st'
      else mret None
  end.

(** [while dist < length: ...], with a bound on the number of passes; [None]
    when the bound is reached before the loop condition fails. *)
Fixpoint walk_side (fuel : nat) (params : list Z) (side : (Z * Z) * (Z * Z))
    (len : float64) (st : WalkState) : result (option WalkState) :=
  if fl_ltb (dist st) len
  then match fuel with
       | O => mret None
       | S fuel' =>
           st' ← dash_iteration params side len st;
           walk_side fuel' params side len st'
       end
  else mret (Some st).

(** [sides], for [offset = THICKNESS // 2]. *)
Definition border_sides (canvas_size : Z) : list ((Z * Z) * (Z * Z)) :=
  let offset := THICKNESS / 2 in
  [ ((offset, offset), (canvas_size - offset, offset));
    ((canvas_size - offset, offset), (canvas_size - offset, canvas_size - offset));
    ((canvas_size - offset, canvas_size - offset), (offset, canvas_size - offset));
    ((offset, canvas_size - offset), (offset, offset)) ].

(** [length = math.hypot(dx, dy)]. *)
Definition side_length (side : (Z * Z) * (Z * Z)) : float64 :=
  let '((x1, y1), (x2, y2)) := side in
  math_hypot (fl_of_int (x2 - x1)) (fl_of_int (y2 - y1)).

(** [for (x1, y1), (x2, y2) in sides]: every side starts at [dist = 0] and
    with the segment index the previous side left. *)
Fixpoint walk_sides (fuel : nat) (params : list Z) (sides : list ((Z * Z) * (Z * Z)))
    (seg : Z) (lines : list Dash) : result (option (Z * list Dash)) :=
  match sides with
  | [] => mret (Some (seg, lines))
  | side :: rest =>
      r ← walk_side fuel params side (side_length side)
             {| dist := zero; segment := seg; drawn := lines |};
      match r with
      | Some st => walk_sides fuel params rest (segment st) (drawn st)
      | None => mret None
      end
  end.

(** The dash walk of [generate_corner_border_layer]: [segment = 0] before the
    first side. *)
Definition border_dashes (fuel : nat) (secret_bytes : list byte) (canvas_size : Z)
    : result (option (Z * list Dash)) :=
  walk_sides fuel (byte_params secret_bytes) (border_sides canvas_size) 0 [].

(** A run of the [for] loop over the sides: side by side, the number of
    passes through the [while] body, each side entered at [dist = 0] with the
    segment index and the lines the previous side left. *)
Inductive sides_run (params : list Z) :
    list ((Z * Z) * (Z * Z)) -> Z -> list Dash -> list nat -> Z -> list Dash -> Prop :=
  | sides_run_nil (seg : Z) (lines : list Dash) :
      sides_run params [] seg lines [] seg lines
  | sides_run_cons (side : (Z * Z) * (Z * Z)) (rest : list ((Z * Z) * (Z * Z)))
      (seg : Z) (lines : list Dash) (n : nat) (ns : list nat) (st : WalkState)
      (final : Z) (lines' : list Dash) :
      dash_iterations n params side (side_length side)
        {| dist := zero; segment := seg; drawn := lines |} = Ok (Some st) ->
      fl_ltb (dist st) (side_length side) = false ->
      segment st = seg + Z.of_nat n ->
      sides_run params rest (segment st) (drawn st) ns final lines' ->
      sides_run params (side :: rest) seg lines (n :: ns) final lines'.

End Border.

(* ===================================================================== *)
(** ** Statements under test and concrete inputs *)
(* ===================================================================== *)

(** The identifier a scan counts as extracted: the scan tab tests
    [analysis['qr_cert_id']] for truth, so [None] and the empty string both
    count as no identifier. *)
Definition extracted_cert_id (a : AnalysisResult) : option string :=
  match qr_cert_id a with
  | Some c => if PyStr.truthy c then Some c else None
  | None => None
  end.

(** The registry lookup of the extracted identifier, if any. *)
Definition registry_lookup (a : AnalysisResult)
    (tag_database : gmap string RegistryRecord) : option RegistryRecord :=
  match extracted_cert_id a with
  | Some c => tag_database !! c
  | None => None
  end.

(** The decision table as the design states it: registry hit and
    [overall_valid], then whether an identifier was extracted at all. *)
Definition decision_table (hit : option RegistryRecord) (extracted : option string)
    (valid : bool) : Verdict :=
  match hit, extracted with
  | Some _, _ => if valid then AUTHENTIC else SUSPICIOUS
  | None, Some _ => COUNTERFEIT
  | None, None => SCAN_FAILED
  end.

(** The string by which the report names a verdict. *)
Definition verdict_name (v : Verdict) : string :=
  match v with
  | AUTHENTIC => "AUTHENTIC"
  | SUSPICIOUS => "SUSPICIOUS"
  | COUNTERFEIT => "COUNTERFEIT"
  | SCAN_FAILED => "SCAN_FAILED"
  end.

(** Two bundles that share a [cert_id] and differ in everything else. *)
Definition first_bundle : SecretBundle :=
  {| cert_id := "CERT-B26A001-0123456789AB";
     guilloche_id := [x00; x01];
     border_id := [x02; x03];
     serial_number := "SK-AAAAAAAAAAAA" |}.

Definition second_bundle : SecretBundle :=
  {| cert_id := "CERT-B26A001-0123456789AB";
     guilloche_id := [xfe; xff];
     border_id := [xfc; xfd];
     serial_number := "SK-BBBBBBBBBBBB" |}.

(** The claim that a store under an existing [cert_id] leaves the stored
    record in place. *)
Definition store_keeps_existing : Prop :=
  forall (bundle : SecretBundle) (batch_code now : string)
         (db : gmap string RegistryRecord) (r : RegistryRecord),
    db !! cert_id bundle = Some r ->
    store_tag_in_db bundle batch_code now db !! cert_id bundle = Some r.

(** The claim that the line thickness of a dash is derived from a key byte
    other than the one its length is derived from: keys that differ only at
    the dash length's offset [segment % 16] would give the same thickness. *)
Definition thickness_independent_of_dash_byte : Prop :=
  forall (key key' : list byte) (seg : Z),
    length key = 16%nat -> length key' = 16%nat ->
    (forall k : nat, k <> Z.to_nat (seg mod 16) -> nth_error key k = nth_error key' k) ->
    thickness_at (byte_params key) seg = thickness_at (byte_params key') seg.

Definition zero_key : list byte := repeat x00 16.

Definition ff_first_key : list byte := xff :: repeat x00 15.

(** A synthetic image, given by what the libraries report on it: its size,
    the payloads of the QR codes in it and its HSV pixels. *)
Record SampleImage : Type := {
  sample_size : Z * Z;
  sample_payloads : list string;
  sample_hsv : list (Z * Z * Z)
}.

(** Libraries that read a [SampleImage] without ever failing and find neither
    lines nor corners. *)
Definition sample_imaging : Imaging SampleImage :=
  {| ndarray := SampleImage;
     GrayImage := unit;
     EdgeMap := unit;
     LineSegment := unit;
     ResponseMap := unit;
     image_size := sample_size;
     np_array := fun img => Ok img;
     pyzbar_decode := fun img => Ok (map list_byte_of_string (sample_payloads img));
     bytes_decode_utf8 := fun bs => Ok (string_of_list_byte bs);
     cvtColor_RGB2HSV := fun img => Ok (sample_hsv img);
     cvtColor_RGB2GRAY := fun _ => Ok tt;
     cv2_Canny := fun _ _ _ _ => Ok tt;
     cv2_HoughLinesP := fun _ _ _ _ _ _ => Ok None;
     cv2_cornerHarris := fun _ _ _ _ => Ok tt;
     strong_corner_count := fun _ => Ok 0%Z |}.

(** A 10 x 10 image with exactly two cyan pixels: 2.0% of its area. *)
Definition boundary_image : SampleImage :=
  {| sample_size := (10, 10)%Z;
     sample_payloads := [];
     sample_hsv := repeat (90, 200, 200)%Z 2 ++ repeat (0, 0, 0)%Z 98 |}.

(** An image whose QR code reads as a URL with an empty [id=] value. *)
Definition empty_id_image : SampleImage :=
  {| sample_size := (1, 1)%Z;
     sample_payloads := ["https://skern.com/verify?id="];
     sample_hsv := [(0, 0, 0)%Z] |}.

(** A stand-in for the C library, for running the dash walk: a sine that is
    constantly zero, and the length of an axis-aligned vector. *)
Definition flat_libm : Libm :=
  {| math_sin := fun _ => zero;
     math_hypot := fun a b =>
       fl_add (Float (Z.abs (mant a)) (expo a)) (Float (Z.abs (mant b)) (expo b)) |}.

(** A scan that read an identifier but found no other layer. *)
Definition qr_only_analysis : AnalysisResult :=
  {| qr_detected := true;
     qr_cert_id := Some "CERT-B26A001-0123456789AB";
     guilloche_detected := false;
     grid_detected := false;
     corners_detected := false;
     overall_valid := false |}.

(** A scan in which every layer was found. *)
Definition complete_analysis : AnalysisResult :=
  {| qr_detected := true;
     qr_cert_id := Some "CERT-B26A001-0123456789AB";
     guilloche_detected := true;
     grid_detected := true;
     corners_detected := true;
     overall_valid := true |}.

(** A scan without a readable QR code. *)
Definition blank_analysis : AnalysisResult :=
  {| qr_detected := false;
     qr_cert_id := None;
     guilloche_detected := false;
     grid_detected := false;
     corners_detected := false;
     overall_valid := false |}.

(** The same computations on the Standard Library's specification of IEEE 754
    binary64 ([SpecFloat]), to compare the operations of [F64] against. *)
Definition to_spec (x : float64) : spec_float :=
  binary_normalize 53 1024 (mant x) (expo x) false.

Definition spec_of_int (n : Z) : spec_float := binary_normalize 53 1024 n 0 false.

Definition spec_quot (n d : Z) : spec_float :=
  SFdiv 53 1024 (spec_of_int n) (spec_of_int d).

(** Case analysis on the results a sequence of calls can give. *)
Ltac bind_cases H :=
  repeat match type of H with
         | context [mbind _ ?m] =>
             let E := fresh "E" in
             destruct m eqn:E; cbn [mbind result_bind mret result_ret] in H;
             try discriminate H
         | context [if ?c then _ else _] =>
             let E := fresh "E" in
             destruct c eqn:E; cbn [mbind result_bind mret result_ret] in H
         end.

(* ===================================================================== *)
(** ** Issuance, QR placement, grid lines and corner marks *)
(* ===================================================================== *)

(** [secrets.token_bytes] and [hashlib.sha256(...).digest()].  The state of the
    random source is threaded through the calls in the order the code makes
    them. *)
Class Secrets : Type := {
  rng : Type;
  token_bytes : nat -> rng -> list byte * rng;
  sha256_digest : list byte -> list byte
}.

(** [s[:n]]. *)
Fixpoint str_take (n : nat) (s : string) : string :=
  match n, s with
  | S n', String c s' => String c (str_take n' s')
  | _, _ => EmptyString
  end.

(** [c.upper()] for an ASCII character: the letters [a] to [z] move to [A] to
    [Z], everything else stays. *)
Definition ascii_upper (c : ascii) : ascii :=
  let n := N_of_ascii c in
  if ((97 <=? n) && (n <=? 122))%N then ascii_of_N (n - 32) else c.

(** [s.upper()] on ASCII text (it is applied to the output of [hex()] only). *)
Fixpoint str_upper (s : string) : string :=
  match s with
  | EmptyString => EmptyString
  | String c s' => String (ascii_upper c) (str_upper s')
  end.

Section Issuance.

Context `{Secrets}.

(** [generate_secret_bundle]: the bundle, and the random source after the
    four draws. *)
Definition generate_secret_bundle (batch_code : string) (g : rng) : SecretBundle * rng :=
  let '(cert_random, g1) := token_bytes 16 g in
  let cert_hash := sha256_digest cert_random in
  let cert_hex := str_upper (str_take 12 (bytes_hex cert_hash)) in
  let cert := ("CERT-" ++ batch_code ++ "-" ++ cert_hex)%string in
  let '(guilloche_secret, g2) := token_bytes 16 g1 in
  let '(border_secret, g3) := token_bytes 16 g2 in
  let '(serial_random, g4) := token_bytes 6 g3 in
  let serial := ("SK-" ++ str_upper (str_take 12 (bytes_hex serial_random)))%string in
  ({| cert_id := cert;
      guilloche_id := guilloche_secret;
      border_id := border_secret;
      serial_number := serial |}, g4).

(** The first two steps of the [Generate Full Tag] button: draw a bundle and
    store it. *)
Definition tab1_generate (batch_code now : string) (g : rng)
    (tag_database : gmap string RegistryRecord)
    : SecretBundle * rng * gmap string RegistryRecord :=
  let '(bundle, g') := generate_secret_bundle batch_code g in
  (bundle, g', store_tag_in_db bundle batch_code now tag_database).

End Issuance.

(** [tag_count = len(st.session_state.tag_database)]. *)
Definition tag_count (tag_database : gmap string RegistryRecord) : nat :=
  size tag_database.

(** The registries the application can hold: the empty dict of a fresh
    session, grown by [store_tag_in_db]. *)
Inductive issued_registry : gmap string RegistryRecord -> Prop :=
  | issued_empty : issued_registry ∅
  | issued_store (bundle : SecretBundle) (batch_code now : string)
      (db : gmap string RegistryRecord) :
      issued_registry db ->
      issued_registry (store_tag_in_db bundle batch_code now db).

Section Placement.

Local Open Scope Z_scope.

(** [target_size = int(canvas_size * (qr_percentage / 100))] in
    [generate_qr_layer]. *)
Definition target_size (canvas_size qr_percentage : Z) : Z :=
  fl_to_int (fl_mul (fl_of_int canvas_size) (int_truediv qr_percentage 100)).

(** [paste_x = (canvas_size - target_size) // 2] (and [paste_y] alike). *)
Definition paste_x (canvas_size qr_percentage : Z) : Z :=
  (canvas_size - target_size canvas_size qr_percentage) / 2.

(** [range(start, stop, step)] for a positive [step], at most [fuel] items. *)
Fixpoint range_from (fuel : nat) (x stop step : Z) : list Z :=
  match fuel with
  | O => []
  | S fuel' => if x <? stop then x :: range_from fuel' (x + step) stop step else []
  end.

(** [range(0, stop, step)]: with [step >= 1] it has no more than [stop]
    items. *)
Definition py_range0 (stop step : Z) : list Z :=
  range_from (Z.to_nat stop) 0 stop step.

Definition SPACING : Z := 64.

(** The [draw.line] calls of [generate_grid_layer]: the vertical lines, then
    the horizontal ones. *)
Definition grid_lines (canvas_size : Z) : list ((Z * Z) * (Z * Z)) :=
  map (fun x => ((x, 0), (x, canvas_size))) (py_range0 canvas_size SPACING)
  ++ map (fun y => ((0, y), (canvas_size, y))) (py_range0 canvas_size SPACING).




(** A point of the canvas, its far edges included. *)
Definition on_canvas (canvas_size : Z) (pt : Z * Z) : Prop :=
  0 <= fst pt <= canvas_size /\ 0 <= snd pt <= canvas_size.

End Placement.

(** A random source that hands out the bytes of a fixed list, and a digest
    that pads its input to 32 bytes: stand-ins with the library's output
    lengths. *)
Definition sample_secrets : Secrets :=
  {| rng := list byte;
     token_bytes := fun n g => (firstn n (g ++ repeat x00 n), skipn n g);
     sha256_digest := fun bs => firstn 32 (bs ++ repeat xab 32) |}.

(** Libraries that cannot read the image at all. *)
Definition broken_imaging : Imaging unit :=
  {| ndarray := unit;
     GrayImage := unit;
     EdgeMap := unit;
     LineSegment := unit;
     ResponseMap := unit;
     image_size := fun _ => (0, 0)%Z;
     np_array := fun _ => Raise (LibError "cannot identify image file");
     pyzbar_decode := fun _ => Ok [];
     bytes_decode_utf8 := fun bs => Ok (string_of_list_byte bs);
     cvtColor_RGB2HSV := fun _ => Ok [];
     cvtColor_RGB2GRAY := fun _ => Ok tt;
     cv2_Canny := fun _ _ _ _ => Ok tt;
     cv2_HoughLinesP := fun _ _ _ _ _ _ => Ok None;
     cv2_cornerHarris := fun _ _ _ _ => Ok tt;
     strong_corner_count := fun _ => Ok 0%Z |}.

(** Libraries that read a [SampleImage] and find eleven line segments and
    four strong corners in it; a payload that is not ASCII fails to decode. *)
Definition rich_imaging : Imaging SampleImage :=
  {| ndarray := SampleImage;
     GrayImage := unit;
     EdgeMap := unit;
     LineSegment := unit;
     ResponseMap := unit;
     image_size := sample_size;
     np_array := fun img => Ok img;
     pyzbar_decode := fun img => Ok (map list_byte_of_string (sample_payloads img));
     bytes_decode_utf8 := fun bs =>
       if forallb (fun b => (Byte.to_N b <? 128)%N) bs
       then Ok (string_of_list_byte bs)
       else Raise UnicodeDecodeError;
     cvtColor_RGB2HSV := fun img => Ok (sample_hsv img);
     cvtColor_RGB2GRAY := fun _ => Ok tt;
     cv2_Canny := fun _ _ _ _ => Ok tt;
     cv2_HoughLinesP := fun _ _ _ _ _ _ => Ok (Some (repeat tt 11));
     cv2_cornerHarris := fun _ _ _ _ => Ok tt;
     strong_corner_count := fun _ => Ok 4%Z |}.

(** A 10 x 10 image, all cyan, whose QR code carries the URL of
    [first_bundle]. *)
Definition genuine_image : SampleImage :=
  {| sample_size := (10, 10)%Z;
     sample_payloads := [qr_url (cert_id first_bundle)];
     sample_hsv := repeat (90, 200, 200)%Z 100 |}.

(** The value of one hexadecimal digit. *)
Definition hex_value (c : ascii) : option N :=
  let n := N_of_ascii c in
  if ((48 <=? n) && (n <=? 57))%N then Some (n - 48)%N
  else if ((97 <=? n) && (n <=? 102))%N then Some (n - 87)%N
  else None.

(** The byte two hexadecimal digits stand for. *)
Definition unhex_byte (hi lo : ascii) : option byte :=
  match hex_value hi, hex_value lo with
  | Some h, Some l => Byte.of_N (16 * h + l)
  | _, _ => None
  end.

(** An image with two QR codes: one whose bytes are not valid text, then the
    genuine one. *)
Definition garbled_then_genuine_image : SampleImage :=
  {| sample_size := (10, 10)%Z;
     sample_payloads :=
       [String (ascii_of_nat 255) EmptyString; qr_url (cert_id first_bundle)];
     sample_hsv := repeat (90, 200, 200)%Z 100 |}.

(** An image with two QR codes: a foreign one without the marker, then one
    with two [id=] parameters. *)
Definition two_codes_image : SampleImage :=
  {| sample_size := (10, 10)%Z;
     sample_payloads := ["https://example.org/"; "https://skern.com/verify?id=A&id=B"];
     sample_hsv := repeat (90, 200, 200)%Z 100 |}.

(** Every character of [s] satisfies [p]. *)
Fixpoint str_all (p : ascii -> bool) (s : string) : bool :=
  match s with
  | EmptyString => true
  | String c s' => p c && str_all p s'
  end.

(** One of the characters [0] to [9] and [A] to [F]. *)
Definition is_upper_hex (c : ascii) : bool :=
  let n := N_of_ascii c in
  (((48 <=? n) && (n <=? 57)) || ((65 <=? n) && (n <=? 70)))%N.

(** The library contracts the issuance code relies on: [token_bytes(n)]
    returns [n] bytes and a SHA-256 digest has 32 bytes. *)
Definition secrets_contract `{Secrets} : Prop :=
  (forall (n : nat) (g : rng), length (fst (token_bytes n g)) = n)
  /\ (forall bs : list byte, length (sha256_digest bs) = 32%nat).

(** The bytes [sample_secrets] hands out first. *)
Definition sample_rng : list byte := [x01; x23; x45; x67; x89; xab].

(** A 10 x 10 image, all cyan, whose QR code carries the URL of the bundle
    generated for a batch code from [sample_rng]. *)
Definition issued_image (batch_code : string) : SampleImage :=
  {| sample_size := (10, 10)%Z;
     sample_payloads :=
       [qr_url (cert_id (fst (generate_secret_bundle (H := sample_secrets)
                                batch_code sample_rng)))];
     sample_hsv := repeat (90, 200, 200)%Z 100 |}.

(** The values of the two sliders of the generate tab: the tag resolution
    (800 to 1600) and the QR size in percent (70 to 90). *)
Definition slider_resolutions : list Z := map (fun k => (800 + Z.of_nat k)%Z) (seq 0 801).

Definition slider_percentages : list Z := map (fun k => (70 + Z.of_nat k)%Z) (seq 0 21).

(** [target_size] is the exact [canvas_size * qr_percentage // 100] or one
    less. *)
Definition target_size_close (canvas_size qr_percentage : Z) : bool :=
  ((canvas_size * qr_percentage / 100 - 1 <=? target_size canvas_size qr_percentage)
   && (target_size canvas_size qr_percentage <=? canvas_size * qr_percentage / 100))%Z.

(** Both end points of a line are points of the canvas. *)
Definition line_on_canvas (canvas_size : Z) (ln : (Z * Z) * (Z * Z)) : Prop :=
  on_canvas canvas_size (fst ln) /\ on_canvas canvas_size (snd ln).

(** What the dash walk needs of [math.sin]: a value between -1 and 1. *)
Definition sin_bounded `{Libm} : Prop :=
  forall x : float64,
    fl_leb (Float (-1) 0) (math_sin x) = true /\ fl_leb (math_sin x) one = true.

(** [20 * mod], the dash length before the sine sway is applied. *)
Definition dash_base (p : Z) : float64 := fl_mul (fl_of_int 20) (dash_mod p).

(** [1 + 0.3 * s], the sway for a sine value [s]. *)
Definition dash_sway (s : float64) : float64 :=
  fl_add (fl_of_int 1) (fl_mul c_0_3 s).

(* ===================================================================== *)
(** ** Facts about rounding to 53 bits *)
(* ===================================================================== *)

Section Rounding.

Local Open Scope Z_scope.

Lemma shift_of_nonneg P : 0 <= shift_of P.
Proof. unfold shift_of. lia. Qed.

Lemma shift_of_small P : P < 2 ^ 53 -> shift_of P = 0.
Proof.
  intros H. unfold shift_of.
  destruct (Z.le_gt_cases P 0) as [Hn|Hp].
  - rewrite Z.log2_nonpos by lia. lia.
  - assert (Z.log2 P < 53) by (apply Z.log2_lt_pow2; lia). lia.
Qed.

Lemma R53_small P : P < 2 ^ 53 -> R53 P = P.
Proof.
  intros H. unfold R53, rq. rewrite shift_of_small by exact H.
  change (2 ^ 0) with 1. rewrite Z.div_1_r, Z.mod_1_r. simpl. lia.
Qed.

Lemma shift_of_big P : 2 ^ 53 <= P -> shift_of P = Z.log2 P - 52 /\ 0 < shift_of P.
Proof.
  intros H. unfold shift_of.
  assert (53 <= Z.log2 P) by (apply Z.log2_le_pow2; lia). lia.
Qed.

(* bounds on quotient when P >= 2^53 *)
Lemma quot_bounds P : 2 ^ 53 <= P ->
  2 ^ 52 <= P / 2 ^ shift_of P < 2 ^ 53.
Proof.
  intros H. destruct (shift_of_big P H) as [Hs Hpos].
  assert (HP : 0 < P) by lia.
  destruct (Z.log2_spec P HP) as [Hlo Hhi].
  set (s := shift_of P) in *.
  assert (Hl : Z.log2 P = 52 + s) by lia.
  rewrite Hl in Hlo. replace (Z.succ (Z.log2 P)) with (53 + s) in Hhi by lia.
  rewrite Z.pow_add_r in Hlo, Hhi by lia.
  assert (0 < 2 ^ s) by (apply Z.pow_pos_nonneg; lia).
  split.
  - apply Z.div_le_lower_bound; lia.
  - apply Z.div_lt_upper_bound; lia.
Qed.

Lemma R53_rq P : R53 P = rq (shift_of P) P * 2 ^ shift_of P.
Proof. reflexivity. Qed.

Lemma rq_bounds s P : P / 2 ^ s <= rq s P <= P / 2 ^ s + 1.
Proof. unfold rq; cbv zeta. destruct (_ || _); lia. Qed.

Lemma rq_mono s P1 P2 : 0 <= s -> P1 <= P2 -> rq s P1 <= rq s P2.
Proof.
  intros Hs Hle.
  assert (Hpos : 0 < 2 ^ s) by (apply Z.pow_pos_nonneg; lia).
  pose proof (Z.div_le_mono P1 P2 (2 ^ s) Hpos Hle) as Hq.
  destruct (Z.eq_dec (P1 / 2 ^ s) (P2 / 2 ^ s)) as [E|NE].
  - pose proof (Z.div_mod P1 (2 ^ s)) as D1. pose proof (Z.div_mod P2 (2 ^ s)) as D2.
    assert (Hr : P1 mod 2 ^ s <= P2 mod 2 ^ s) by (rewrite E in D1; lia).
    unfold rq; cbv zeta. rewrite E.
    destruct (2 ^ s <? 2 * (P1 mod 2 ^ s)) eqn:A1; cbn [orb andb].
    + apply Z.ltb_lt in A1.
      assert (A2 : (2 ^ s <? 2 * (P2 mod 2 ^ s)) = true) by (apply Z.ltb_lt; lia).
      rewrite A2. cbn [orb andb]. lia.
    + destruct (2 * (P1 mod 2 ^ s) =? 2 ^ s) eqn:B1; cbn [orb andb].
      * apply Z.eqb_eq in B1.
        destruct (Z.odd (P2 / 2 ^ s)) eqn:O; cbn [orb andb].
        -- destruct (2 ^ s <? 2 * (P2 mod 2 ^ s)) eqn:A2; cbn [orb andb]; [lia|].
           apply Z.ltb_ge in A2.
           assert (B2 : (2 * (P2 mod 2 ^ s) =? 2 ^ s) = true) by (apply Z.eqb_eq; lia).
           rewrite B2. cbn [orb andb]. lia.
        -- rewrite andb_false_r, orb_false_r. destruct (2 ^ s <? 2 * (P2 mod 2 ^ s)); lia.
      * match goal with |- _ <= (if ?c then _ else _) => destruct c end; lia.
  - pose proof (rq_bounds s P1). pose proof (rq_bounds s P2). lia.
Qed.

Lemma rq_exact s k : 0 <= s -> rq s (k * 2 ^ s) = k.
Proof.
  intros Hs. assert (Hpos : 0 < 2 ^ s) by (apply Z.pow_pos_nonneg; lia).
  unfold rq; cbv zeta. rewrite Z.div_mul, Z.mod_mul by lia.
  replace (2 ^ s <? 2 * 0) with false by (symmetry; apply Z.ltb_ge; lia).
  replace (2 * 0 =? 2 ^ s) with false by (symmetry; apply Z.eqb_neq; lia).
  reflexivity.
Qed.

Lemma R53_nonneg P : 0 <= P -> 0 <= R53 P.
Proof.
  intros H. rewrite R53_rq.
  assert (0 < 2 ^ shift_of P) by (apply Z.pow_pos_nonneg; [lia | apply shift_of_nonneg]).
  pose proof (rq_bounds (shift_of P) P).
  assert (0 <= P / 2 ^ shift_of P) by (apply Z.div_pos; lia).
  nia.
Qed.

Lemma shift_of_mono P1 P2 : P1 <= P2 -> shift_of P1 <= shift_of P2.
Proof. intros H. unfold shift_of. pose proof (Z.log2_le_mono P1 P2 H). lia. Qed.

Lemma R53_upper P : 0 <= P -> R53 P <= 2 ^ (53 + shift_of P).
Proof.
  intros H. rewrite R53_rq. rewrite Z.pow_add_r by (pose proof (shift_of_nonneg P); lia).
  assert (Hp : 0 < 2 ^ shift_of P) by (apply Z.pow_pos_nonneg; [lia | apply shift_of_nonneg]).
  pose proof (rq_bounds (shift_of P) P) as B.
  assert (P / 2 ^ shift_of P < 2 ^ 53).
  { destruct (Z.lt_ge_cases P (2 ^ 53)) as [Hs|Hb].
    - rewrite shift_of_small by exact Hs. change (2 ^ 0) with 1. rewrite Z.div_1_r. exact Hs.
    - apply quot_bounds; exact Hb. }
  nia.
Qed.

Lemma R53_lower P : 2 ^ 53 <= P -> 2 ^ (52 + shift_of P) <= R53 P.
Proof.
  intros H. rewrite R53_rq. rewrite Z.pow_add_r by (pose proof (shift_of_nonneg P); lia).
  assert (Hp : 0 < 2 ^ shift_of P) by (apply Z.pow_pos_nonneg; [lia | apply shift_of_nonneg]).
  pose proof (rq_bounds (shift_of P) P) as B.
  pose proof (quot_bounds P H).
  nia.
Qed.

Lemma R53_mono P1 P2 : 0 <= P1 -> P1 <= P2 -> R53 P1 <= R53 P2.
Proof.
  intros H0 Hle.
  pose proof (shift_of_mono P1 P2 Hle) as Hs.
  destruct (Z.eq_dec (shift_of P1) (shift_of P2)) as [E|NE].
  - rewrite !R53_rq, E.
    apply Z.mul_le_mono_nonneg_r.
    + apply Z.pow_nonneg; lia.
    + apply rq_mono; [apply shift_of_nonneg | exact Hle].
  - assert (Hlt : shift_of P1 < shift_of P2) by lia.
    assert (Hb : 2 ^ 53 <= P2).
    { destruct (Z.lt_ge_cases P2 (2 ^ 53)) as [Hsm|]; [|assumption].
      rewrite (shift_of_small P2 Hsm) in Hlt. pose proof (shift_of_nonneg P1). lia. }
    pose proof (R53_upper P1 H0) as U. pose proof (R53_lower P2 Hb) as L.
    assert (2 ^ (53 + shift_of P1) <= 2 ^ (52 + shift_of P2))
      by (apply Z.pow_le_mono_r; pose proof (shift_of_nonneg P1); lia).
    lia.
Qed.

Lemma rq_scale s k P : 0 <= s -> 0 <= k -> rq (s + k) (P * 2 ^ k) = rq s P.
Proof.
  intros Hs Hk.
  assert (Hps : 0 < 2 ^ s) by (apply Z.pow_pos_nonneg; lia).
  assert (Hpk : 0 < 2 ^ k) by (apply Z.pow_pos_nonneg; lia).
  unfold rq; cbv zeta.
  rewrite Z.pow_add_r by lia.
  rewrite Z.div_mul_cancel_r by lia.
  rewrite Z.mul_mod_distr_r by lia.
  replace (2 ^ s * 2 ^ k <? 2 * (P mod 2 ^ s * 2 ^ k)) with (2 ^ s <? 2 * (P mod 2 ^ s)).
  2:{ destruct (2 ^ s <? 2 * (P mod 2 ^ s)) eqn:A; symmetry.
      - apply Z.ltb_lt in A. apply Z.ltb_lt. nia.
      - apply Z.ltb_ge in A. apply Z.ltb_ge. nia. }
  replace (2 * (P mod 2 ^ s * 2 ^ k) =? 2 ^ s * 2 ^ k) with (2 * (P mod 2 ^ s) =? 2 ^ s).
  2:{ destruct (2 * (P mod 2 ^ s) =? 2 ^ s) eqn:A; symmetry.
      - apply Z.eqb_eq in A. apply Z.eqb_eq. nia.
      - apply Z.eqb_neq in A. apply Z.eqb_neq. nia. }
  reflexivity.
Qed.

Lemma R53_exact_lt m k : 0 <= m < 2 ^ 53 -> 0 <= k -> R53 (m * 2 ^ k) = m * 2 ^ k.
Proof.
  intros Hm Hk. rewrite R53_rq.
  set (s := shift_of (m * 2 ^ k)).
  assert (Hs : 0 <= s) by apply shift_of_nonneg.
  assert (Hsk : s <= k).
  { destruct (Z.eq_dec m 0) as [->|Hne].
    - subst s. rewrite Z.mul_0_l. rewrite shift_of_small; lia.
    - subst s. unfold shift_of. rewrite Z.log2_mul_pow2 by lia.
      assert (Z.log2 m < 53) by (apply Z.log2_lt_pow2; lia). lia. }
  replace (m * 2 ^ k) with ((m * 2 ^ (k - s)) * 2 ^ s).
  2:{ rewrite <- Z.mul_assoc, <- Z.pow_add_r by lia. f_equal. f_equal. lia. }
  rewrite rq_exact by lia. reflexivity.
Qed.

Lemma R53_exact m k : 0 <= m <= 2 ^ 53 -> 0 <= k -> R53 (m * 2 ^ k) = m * 2 ^ k.
Proof.
  intros Hm Hk.
  destruct (Z.eq_dec m (2 ^ 53)) as [->|Hne].
  - replace (2 ^ 53 * 2 ^ k) with (2 ^ 52 * 2 ^ (k + 1)).
    + apply R53_exact_lt; lia.
    + rewrite (Z.pow_add_r 2 k 1) by lia. lia.
  - apply R53_exact_lt; lia.
Qed.

Lemma R53_scale P k : 0 <= P -> 0 <= k -> R53 (P * 2 ^ k) = R53 P * 2 ^ k.
Proof.
  intros HP Hk.
  destruct (Z.lt_ge_cases P (2 ^ 53)) as [Hs|Hb].
  - rewrite (R53_small P Hs). apply R53_exact; lia.
  - destruct (shift_of_big P Hb) as [E Hpos].
    assert (Hpk : 0 < 2 ^ k) by (apply Z.pow_pos_nonneg; lia).
    assert (E' : shift_of (P * 2 ^ k) = shift_of P + k).
    { unfold shift_of. rewrite Z.log2_mul_pow2 by lia.
      assert (53 <= Z.log2 P) by (apply Z.log2_le_pow2; lia). lia. }
    rewrite (R53_rq (P * 2 ^ k)), E', rq_scale by lia.
    rewrite R53_rq, Z.pow_add_r by lia. ring.
Qed.

Lemma R53_idem P : 0 <= P -> R53 (R53 P) = R53 P.
Proof.
  intros HP.
  destruct (Z.lt_ge_cases P (2 ^ 53)) as [Hs|Hb].
  - rewrite (R53_small P Hs). apply R53_small; exact Hs.
  - rewrite (R53_rq P). apply R53_exact; [|apply shift_of_nonneg].
    pose proof (rq_bounds (shift_of P) P). pose proof (quot_bounds P Hb). lia.
Qed.

End Rounding.

(* ===================================================================== *)
(** ** Facts about the float operations *)
(* ===================================================================== *)

Section FloatFacts.

Local Open Scope Z_scope.

Lemma rnd_nonneg P : 0 <= P -> rnd P = R53 P.
Proof.
  intros HP. unfold rnd.
  destruct (Z.eq_dec P 0) as [->|Hne]; [reflexivity|].
  rewrite Z.sgn_pos, Z.abs_eq by lia. lia.
Qed.

Lemma rnd_exact n : 0 <= n < 2 ^ 53 -> rnd n = n.
Proof. intros Hn. rewrite rnd_nonneg by lia. apply R53_small; lia. Qed.

Lemma rnd_ge0 P : 0 <= P -> 0 <= rnd P.
Proof. intros HP. rewrite rnd_nonneg by exact HP. apply R53_nonneg; exact HP. Qed.

Lemma rnd_idem P : 0 <= P -> R53 (rnd P) = rnd P.
Proof. intros HP. rewrite rnd_nonneg by exact HP. apply R53_idem; exact HP. Qed.

(** Multiplying by a fixed non-negative float is monotone. *)
Lemma fl_mul_le_mono (x y z : float64) :
  0 <= mant x -> 0 <= mant y ->
  fl_leb y z = true -> fl_leb (fl_mul x y) (fl_mul x z) = true.
Proof.
  destruct x as [mx ex], y as [my ey], z as [mz ez].
  unfold fl_leb, fl_mul, align; cbn [mant expo].
  intros Hx Hy Hle. apply Z.leb_le in Hle. apply Z.leb_le.
  set (e0 := Z.min ey ez) in *.
  replace (Z.min (ex + ey) (ex + ez)) with (ex + e0) by (subst e0; lia).
  replace (ex + ey - (ex + e0)) with (ey - e0) by lia.
  replace (ex + ez - (ex + e0)) with (ez - e0) by lia.
  assert (Hy0 : 0 <= ey - e0) by (subst e0; lia).
  assert (Hz0 : 0 <= ez - e0) by (subst e0; lia).
  assert (Hpy : 0 < 2 ^ (ey - e0)) by (apply Z.pow_pos_nonneg; lia).
  assert (Hpz : 0 < 2 ^ (ez - e0)) by (apply Z.pow_pos_nonneg; lia).
  assert (Hz : 0 <= mz) by nia.
  rewrite !rnd_nonneg by nia.
  rewrite <- !R53_scale by nia.
  apply R53_mono; nia.
Qed.

(** Multiplying a non-negative float by a factor of at most one does not
    increase it. *)
Lemma fl_mul_le_one (x f : float64) :
  0 <= mant x -> R53 (mant x) = mant x -> 0 <= mant f ->
  fl_leb f one = true -> fl_leb (fl_mul x f) x = true.
Proof.
  destruct x as [mx ex], f as [mf ef].
  unfold fl_leb, fl_mul, align, one; cbn [mant expo].
  intros Hx Hrep Hf Hle. apply Z.leb_le in Hle. apply Z.leb_le.
  rewrite rnd_nonneg by nia.
  destruct (Z.le_gt_cases ef 0) as [Hneg|Hpos].
  - rewrite Z.min_l in Hle by lia. rewrite Z.sub_diag in Hle.
    change (2 ^ 0) with 1 in Hle. rewrite Z.mul_1_r, Z.mul_1_l in Hle.
    replace (0 - ef) with (- ef) in Hle by lia.
    rewrite Z.min_l by lia.
    rewrite Z.sub_diag. change (2 ^ 0) with 1. rewrite Z.mul_1_r.
    replace (ex - (ex + ef)) with (- ef) by lia.
    rewrite <- Hrep at 2. rewrite <- R53_scale by lia.
    assert (0 < 2 ^ (- ef)) by (apply Z.pow_pos_nonneg; lia).
    apply R53_mono; nia.
  - rewrite Z.min_r in Hle by lia. rewrite Z.sub_diag in Hle.
    replace (ef - 0) with ef in Hle by lia.
    change (2 ^ 0) with 1 in Hle.
    assert (2 <= 2 ^ ef).
    { change 2 with (2 ^ 1) at 1. apply Z.pow_le_mono_r; lia. }
    assert (mf = 0) by nia. subst mf.
    rewrite Z.mul_0_r. rewrite (R53_small 0) by lia.
    rewrite Z.mul_0_l.
    assert (0 < 2 ^ (ex - Z.min (ex + ef) ex)) by (apply Z.pow_pos_nonneg; lia).
    nia.
Qed.

Lemma c_0_02_eq : c_0_02 = Float 46116860184273880 (-61).
Proof. vm_compute. reflexivity. Qed.

(** The comparison of a pixel count against [total_pixels * 0.02] decides
    exactly whether fifty times the count exceeds the total. *)
Lemma threshold_lt_iff (total count : Z) :
  0 <= total < 2 ^ 53 -> 0 <= count < 2 ^ 47 ->
  fl_ltb (fl_mul (fl_of_int total) c_0_02) (fl_of_int count) = (total <? 50 * count).
Proof.
  intros HT Hc. rewrite c_0_02_eq.
  unfold fl_ltb, fl_mul, fl_of_int, align; cbn [mant expo].
  rewrite (rnd_exact total) by lia. rewrite (rnd_exact count) by lia.
  rewrite rnd_nonneg by lia.
  replace (Z.min (0 + -61) 0) with (-61) by lia.
  replace (0 + -61 - -61) with 0 by lia.
  replace (0 - -61) with 61 by lia.
  change (2 ^ 0) with 1. rewrite Z.mul_1_r.
  destruct (total <? 50 * count) eqn:E.
  - apply Z.ltb_lt in E. apply Z.ltb_lt.
    assert (Hc1 : 1 <= count) by lia.
    assert (Hy : R53 ((64 * count - 1) * 2 ^ 55) = (64 * count - 1) * 2 ^ 55).
    { apply R53_exact; lia. }
    assert (Hm : R53 (total * 46116860184273880) <= R53 ((64 * count - 1) * 2 ^ 55)).
    { apply R53_mono; lia. }
    lia.
  - apply Z.ltb_ge in E. apply Z.ltb_ge.
    assert (Hy : R53 (count * 2 ^ 61) = count * 2 ^ 61) by (apply R53_exact; lia).
    assert (Hm : R53 (count * 2 ^ 61) <= R53 (total * 46116860184273880)).
    { apply R53_mono; lia. }
    lia.
Qed.

End FloatFacts.

(* ===================================================================== *)
(** ** The decision table and the report *)
(* ===================================================================== *)

Section Decision.

Implicit Types (a : AnalysisResult) (db : gmap string RegistryRecord).

Lemma tab2_tag_data_lookup a db : tab2_tag_data a db = registry_lookup a db.
Proof.
  unfold tab2_tag_data, registry_lookup, extracted_cert_id, verify_tag_in_db.
  destruct (qr_cert_id a) as [c|]; [|reflexivity].
  destruct (PyStr.truthy c); reflexivity.
Qed.

Lemma opt_str_truthy_extracted a :
  opt_str_truthy (qr_cert_id a) = bool_decide (is_Some (extracted_cert_id a)).
Proof.
  unfold opt_str_truthy, extracted_cert_id.
  destruct (qr_cert_id a) as [c|]; [destruct (PyStr.truthy c)|]; reflexivity.
Qed.

Lemma registry_lookup_extracted a db r :
  registry_lookup a db = Some r -> is_Some (extracted_cert_id a).
Proof.
  unfold registry_lookup. destruct (extracted_cert_id a); [eauto | discriminate].
Qed.

Lemma tab2_verdict_table a db :
  tab2_verdict a db
  = decision_table (registry_lookup a db) (extracted_cert_id a) (overall_valid a).
Proof.
  unfold tab2_verdict. rewrite tab2_tag_data_lookup, opt_str_truthy_extracted.
  destruct (registry_lookup a db) as [r|] eqn:Hhit; cbn.
  - destruct (overall_valid a); reflexivity.
  - destruct (extracted_cert_id a); reflexivity.
Qed.

Lemma verification_result_verdict a db :
  verification_result a (tab2_tag_data a db) = verdict_name (tab2_verdict a db).
Proof.
  unfold verification_result, tab2_verdict.
  destruct (tag_data_truthy (tab2_tag_data a db)), (overall_valid a),
    (opt_str_truthy (qr_cert_id a)); reflexivity.
Qed.

(** C1. The verdict displayed by the scan tab depends only on the analysis
    result and on the registry lookup of the extracted identifier, and follows
    the decision table: a hit with [overall_valid] is AUTHENTIC, a hit without
    it is SUSPICIOUS, an extracted identifier without a hit is COUNTERFEIT, no
    extracted identifier is SCAN_FAILED.  Each verdict is produced in exactly
    its own case, so the four cases are exhaustive and mutually exclusive.
    The verdict a report names is the one displayed. *)
Theorem tab2_verdict_decision_table a db :
  tab2_verdict a db
  = decision_table (registry_lookup a db) (extracted_cert_id a) (overall_valid a)
  /\ (tab2_verdict a db = AUTHENTIC
      <-> is_Some (registry_lookup a db) /\ overall_valid a = true)
  /\ (tab2_verdict a db = SUSPICIOUS
      <-> is_Some (registry_lookup a db) /\ overall_valid a = false)
  /\ (tab2_verdict a db = COUNTERFEIT
      <-> is_Some (extracted_cert_id a) /\ registry_lookup a db = None)
  /\ (tab2_verdict a db = SCAN_FAILED <-> extracted_cert_id a = None)
  /\ (forall db', registry_lookup a db' = registry_lookup a db ->
                  tab2_verdict a db' = tab2_verdict a db)
  /\ (forall (now : string) (r : ReportData),
        tab2_report a db now = Some r ->
        rep_verification_result r = verdict_name (tab2_verdict a db)).
Proof.
  split; [apply tab2_verdict_table|].
  assert (Hrep : forall (now : string) (r : ReportData),
             tab2_report a db now = Some r ->
             rep_verification_result r = verdict_name (tab2_verdict a db)).
  { intros now r. unfold tab2_report.
    destruct (opt_str_truthy (qr_cert_id a)); [|discriminate].
    intros [= <-]. apply verification_result_verdict. }
  revert Hrep. rewrite tab2_verdict_table.
  pose proof (registry_lookup_extracted a db) as Hex.
  destruct (registry_lookup a db) as [r|] eqn:Hhit;
    destruct (extracted_cert_id a) as [c|] eqn:Hc;
    destruct (overall_valid a) eqn:Hv; cbn; intros Hrep;
    try (destruct (Hex r eq_refl) as [? ?]; discriminate);
    repeat split;
    try exact Hrep;
    try (intros; discriminate);
    try (intros [[? ?] ?]; discriminate);
    try (intros [? ?]; discriminate);
    try (intros db' Hdb'; rewrite tab2_verdict_table, Hdb', Hc, Hv; reflexivity);
    eauto.
Qed.

(** C9. A report is offered exactly when an identifier was extracted, and the
    verdict it names is then AUTHENTIC, SUSPICIOUS or COUNTERFEIT: the branch
    that would name SCAN_FAILED is never taken. *)
Theorem tab2_report_never_scan_failed a db (now : string) (r : ReportData) :
  tab2_report a db now = Some r ->
  is_Some (extracted_cert_id a)
  /\ rep_cert_id r = extracted_cert_id a
  /\ (rep_verification_result r = "AUTHENTIC"
      \/ rep_verification_result r = "SUSPICIOUS"
      \/ rep_verification_result r = "COUNTERFEIT")
  /\ rep_verification_result r <> "SCAN_FAILED".
Proof.
  unfold tab2_report. rewrite opt_str_truthy_extracted.
  destruct (extracted_cert_id a) as [c|] eqn:Hc.
  2:{ rewrite bool_decide_eq_false_2; [discriminate | intros [? ?]; discriminate]. }
  rewrite bool_decide_eq_true_2 by eauto.
  intros [= <-]. cbn [rep_cert_id rep_verification_result].
  assert (Hid : qr_cert_id a = Some c).
  { unfold extracted_cert_id in Hc. destruct (qr_cert_id a) as [c'|]; [|discriminate].
    destruct (PyStr.truthy c'); congruence. }
  split; [eauto|]. split; [congruence|].
  unfold verification_result. rewrite opt_str_truthy_extracted, Hc.
  rewrite bool_decide_eq_true_2 by eauto.
  destruct (tag_data_truthy (tab2_tag_data a db)), (overall_valid a); cbn;
    split; try discriminate; auto.
Qed.

(** Without an extracted identifier no report is built. *)
Lemma tab2_report_none a db (now : string) :
  extracted_cert_id a = None -> tab2_report a db now = None.
Proof.
  intros Hc. unfold tab2_report. rewrite opt_str_truthy_extracted, Hc.
  rewrite bool_decide_eq_false_2; [reflexivity | intros [? ?]; discriminate].
Qed.

End Decision.

(* ===================================================================== *)
(** ** The registry *)
(* ===================================================================== *)

Section Registry.

Implicit Types (db : gmap string RegistryRecord) (bundle : SecretBundle).

Lemma store_tag_in_db_lookup bundle (batch_code now : string) db :
  store_tag_in_db bundle batch_code now db !! cert_id bundle
  = Some (registry_record bundle batch_code now).
Proof. unfold store_tag_in_db. apply lookup_insert_eq. Qed.

(** C2, as stated, fails: storing [second_bundle] over the record of
    [first_bundle] replaces it. *)
Lemma store_tag_in_db_overwrites : ~ store_keeps_existing.
Proof.
  intros Hkeep.
  pose (db := store_tag_in_db first_bundle "B26A001" "2026-01-01T00:00:00" ∅).
  specialize (Hkeep second_bundle "B26A001"%string "2026-01-02T00:00:00"%string db
                    (registry_record first_bundle "B26A001" "2026-01-01T00:00:00")).
  rewrite store_tag_in_db_lookup in Hkeep.
  assert (Hdb : db !! cert_id second_bundle
                = Some (registry_record first_bundle "B26A001" "2026-01-01T00:00:00")).
  { subst db. change (cert_id second_bundle) with (cert_id first_bundle).
    apply store_tag_in_db_lookup. }
  specialize (Hkeep Hdb). discriminate Hkeep.
Qed.

(** C2, amended. A store never fails and never checks for an existing key:
    afterwards the registry maps the bundle's [cert_id] to the record just
    built from the bundle, whatever was stored there before, and every other
    key is left as it was. *)
Theorem store_tag_in_db_replaces bundle (batch_code now : string) db :
  verify_tag_in_db (cert_id bundle) (store_tag_in_db bundle batch_code now db)
  = Some (registry_record bundle batch_code now)
  /\ (forall r, db !! cert_id bundle = Some r ->
        r <> registry_record bundle batch_code now ->
        verify_tag_in_db (cert_id bundle) (store_tag_in_db bundle batch_code now db)
        <> Some r)
  /\ (forall other : string, other <> cert_id bundle ->
        verify_tag_in_db other (store_tag_in_db bundle batch_code now db)
        = verify_tag_in_db other db).
Proof.
  unfold verify_tag_in_db. rewrite store_tag_in_db_lookup.
  split; [reflexivity|]. split.
  - intros r _ Hne [= Heq]. apply Hne. symmetry. exact Heq.
  - intros other Hne. unfold store_tag_in_db.
    apply lookup_insert_ne. congruence.
Qed.

End Registry.

(* ===================================================================== *)
(** ** The QR payload *)
(* ===================================================================== *)

Section Payload.

Local Open Scope string_scope.

Lemma append_cons (c : ascii) (s t : string) : String c s ++ t = String c (s ++ t).
Proof. reflexivity. Qed.

Lemma append_empty_r (s : string) : s ++ "" = s.
Proof.
  induction s as [|c s IH]; [reflexivity|].
  rewrite append_cons, IH. reflexivity.
Qed.

Lemma append_snoc (cur : string) (c : ascii) (s : string) :
  (cur ++ String c "") ++ s = cur ++ String c s.
Proof.
  induction cur as [|d cur IH]; [reflexivity|].
  rewrite !append_cons, IH. reflexivity.
Qed.

Lemma startswith_refl (s : string) : PyStr.startswith s s = true.
Proof.
  induction s as [|c s IH]; [reflexivity|].
  cbn [PyStr.startswith]. rewrite Ascii.eqb_refl, IH. reflexivity.
Qed.

Lemma contains_cons (sub : string) (c : ascii) (s : string) :
  PyStr.contains sub (String c s)
  = PyStr.startswith (String c s) sub || PyStr.contains sub s.
Proof. reflexivity. Qed.

Lemma contains_self (sub : string) : PyStr.contains sub sub = true.
Proof.
  destruct sub as [|c sub]; [reflexivity|].
  rewrite contains_cons, startswith_refl. reflexivity.
Qed.

Lemma contains_app_r (sub p : string) : PyStr.contains sub (p ++ sub) = true.
Proof.
  induction p as [|c p IH].
  - apply contains_self.
  - rewrite append_cons, contains_cons, IH. apply orb_true_r.
Qed.

(** Without an occurrence of the separator the scan returns the whole text. *)
Lemma split_go_no_sep (sep cur s : string) :
  PyStr.contains sep s = false -> PyStr.split_go sep 0 cur s = [cur ++ s].
Proof.
  revert cur. induction s as [|c s IH]; intros cur Hno.
  - cbn [PyStr.split_go]. rewrite append_empty_r. reflexivity.
  - rewrite contains_cons in Hno. apply orb_false_iff in Hno as [Hst Hrest].
    cbn [PyStr.split_go]. rewrite Hst, IH by exact Hrest.
    rewrite append_snoc. reflexivity.
Qed.

(** A text that does not contain the marker cannot make an occurrence start
    inside it and end inside a marker appended to it. *)
Lemma startswith_marker_straddle (c : ascii) (p : string) :
  PyStr.startswith (String c p) "id=" = false ->
  PyStr.startswith (String c (p ++ "id=")) "id=" = false.
Proof.
  destruct p as [|c2 [|c3 p3]]; intros Hst.
  - change (Ascii.eqb "i" c && false = false).
    apply andb_false_r.
  - change (Ascii.eqb "i" c && (Ascii.eqb "d" c2 && false) = false).
    rewrite andb_false_r. apply andb_false_r.
  - change (Ascii.eqb "i" c && (Ascii.eqb "d" c2 && (Ascii.eqb "=" c3 && true)) = false).
    exact Hst.
Qed.

(** A marker at the very end splits off an empty identifier. *)
Lemma split_go_marker_at_end (cur p : string) :
  PyStr.contains "id=" p = false ->
  PyStr.split_go "id=" 0 cur (p ++ "id=") = [cur ++ p; ""].
Proof.
  revert cur. induction p as [|c p IH]; intros cur Hno.
  - rewrite append_empty_r. reflexivity.
  - rewrite contains_cons in Hno. apply orb_false_iff in Hno as [Hst Hrest].
    rewrite append_cons. cbn [PyStr.split_go].
    rewrite (startswith_marker_straddle c p Hst), IH by exact Hrest.
    rewrite append_snoc. reflexivity.
Qed.

(** The payload of [generate_qr_layer] carries the marker, and its first
    occurrence is the one the URL ends its fixed part with. *)
Lemma qr_url_contains_marker (cert : string) :
  PyStr.contains "id=" (qr_url cert) = true.
Proof. reflexivity. Qed.

Lemma qr_url_split (cert : string) :
  PyStr.split_go "id=" 0 "" (qr_url cert)
  = "https://skern.com/verify?" :: PyStr.split_go "id=" 0 "" cert.
Proof. reflexivity. Qed.

(** C4. For an identifier that does not itself contain [id=], the text after
    the first [id=] of the payload [generate_qr_layer] encodes is the
    identifier: embedding in the URL and extraction round-trip. *)
Theorem qr_url_extract_roundtrip (cert : string) :
  PyStr.contains "id=" cert = false ->
  extract_cert_id (qr_url cert) = Ok (Some cert).
Proof.
  intros Hno. unfold extract_cert_id.
  rewrite qr_url_contains_marker. unfold PyStr.split.
  rewrite qr_url_split, (split_go_no_sep "id=" "" cert Hno).
  reflexivity.
Qed.

(** An [id=] with nothing after it yields the empty identifier. *)
Lemma extract_cert_id_empty_value (p : string) :
  PyStr.contains "id=" p = false ->
  extract_cert_id (p ++ "id=") = Ok (Some "").
Proof.
  intros Hno. unfold extract_cert_id.
  rewrite contains_app_r. unfold PyStr.split.
  rewrite (split_go_marker_at_end "" p Hno). reflexivity.
Qed.

(** A payload without the marker yields no identifier. *)
Lemma extract_cert_id_no_marker (s : string) :
  PyStr.contains "id=" s = false -> extract_cert_id s = Ok None.
Proof. intros Hno. unfold extract_cert_id. rewrite Hno. reflexivity. Qed.

End Payload.

(* ===================================================================== *)
(** ** The detectors and the analyzer *)
(* ===================================================================== *)

Section Analyzer.

Context {Image : Type} `{Imaging Image}.

Lemma try_except_recover {A : Type} (body : result A) (v : A) :
  try_except body (fun _ => mret v) = Ok (recover body v).
Proof. destruct body; reflexivity. Qed.

Lemma try_except_raise {A : Type} (body : result A) (v : A) (e : exn) :
  body = Raise e -> try_except body (fun _ => mret v) = Ok v.
Proof. intros ->. reflexivity. Qed.

Lemma detect_qr_code_ok (image : Image) :
  detect_qr_code image = Ok (recover (detect_qr_code_body image) None).
Proof. apply try_except_recover. Qed.

Lemma detect_guilloche_pattern_ok (image : Image) :
  detect_guilloche_pattern image = Ok (recover (detect_guilloche_pattern_body image) false).
Proof. apply try_except_recover. Qed.

Lemma detect_grid_pattern_ok (image : Image) :
  detect_grid_pattern image = Ok (recover (detect_grid_pattern_body image) false).
Proof. apply try_except_recover. Qed.

Lemma detect_corner_markers_ok (image : Image) :
  detect_corner_markers image = Ok (recover (detect_corner_markers_body image) false).
Proof. apply try_except_recover. Qed.

(** When [np.array(image)] fails, every [try] block fails with it. *)
Lemma bodies_fail_with_np_array (image : Image) (e : exn) :
  np_array image = Raise e ->
  detect_qr_code_body image = Raise e
  /\ detect_guilloche_pattern_body image = Raise e
  /\ detect_grid_pattern_body image = Raise e
  /\ detect_corner_markers_body image = Raise e.
Proof.
  intros He.
  unfold detect_qr_code_body, detect_guilloche_pattern_body,
    detect_grid_pattern_body, detect_corner_markers_body.
  rewrite He. repeat split; reflexivity.
Qed.

(** C6. None of the four detectors raises: each returns a value for every
    image, and whenever something fails inside its [try] block the value is
    the one for not detected ([None] for the QR detector, [False] for the
    others).  In particular a failing [np.array(image)] makes all four report
    not detected. *)
Theorem detectors_never_raise (image : Image) :
  ((exists r, detect_qr_code image = Ok r)
   /\ (exists b, detect_guilloche_pattern image = Ok b)
   /\ (exists b, detect_grid_pattern image = Ok b)
   /\ (exists b, detect_corner_markers image = Ok b))
  /\ ((forall e, detect_qr_code_body image = Raise e ->
                 detect_qr_code image = Ok None)
      /\ (forall e, detect_guilloche_pattern_body image = Raise e ->
                    detect_guilloche_pattern image = Ok false)
      /\ (forall e, detect_grid_pattern_body image = Raise e ->
                    detect_grid_pattern image = Ok false)
      /\ (forall e, detect_corner_markers_body image = Raise e ->
                    detect_corner_markers image = Ok false))
  /\ (forall e, np_array image = Raise e ->
        detect_qr_code image = Ok None
        /\ detect_guilloche_pattern image = Ok false
        /\ detect_grid_pattern image = Ok false
        /\ detect_corner_markers image = Ok false).
Proof.
  split; [|split].
  - rewrite detect_qr_code_ok, detect_guilloche_pattern_ok,
      detect_grid_pattern_ok, detect_corner_markers_ok.
    repeat split; eexists; reflexivity.
  - repeat split; intros e He;
      unfold detect_qr_code, detect_guilloche_pattern,
        detect_grid_pattern, detect_corner_markers;
      apply (try_except_raise _ _ e He).
  - intros e He.
    destruct (bodies_fail_with_np_array image e He) as (Hq & Hg & Hl & Hc).
    unfold detect_qr_code, detect_guilloche_pattern,
      detect_grid_pattern, detect_corner_markers.
    rewrite Hq, Hg, Hl, Hc. repeat split; reflexivity.
Qed.

(** The analysis result, spelled out from what the detectors return. *)
Lemma analyze_tag_image_ok (image : Image) :
  analyze_tag_image image
  = let cert := recover (detect_qr_code_body image) None in
    let guilloche := recover (detect_guilloche_pattern_body image) false in
    let grid := recover (detect_grid_pattern_body image) false in
    let corners := recover (detect_corner_markers_body image) false in
    Ok {| qr_detected := opt_str_truthy cert;
          qr_cert_id := if opt_str_truthy cert then cert else None;
          guilloche_detected := guilloche;
          grid_detected := grid;
          corners_detected := corners;
          overall_valid := opt_str_truthy cert && guilloche && grid && corners |}.
Proof.
  unfold analyze_tag_image.
  rewrite detect_qr_code_ok, detect_guilloche_pattern_ok,
    detect_grid_pattern_ok, detect_corner_markers_ok.
  reflexivity.
Qed.

(** On analyzer output the presence test of the scan tab is exact: a stored
    identifier is never the empty string. *)
Lemma analyze_tag_image_extracted (image : Image) (a : AnalysisResult) :
  analyze_tag_image image = Ok a -> extracted_cert_id a = qr_cert_id a.
Proof.
  rewrite analyze_tag_image_ok. cbv zeta. intros [= <-].
  unfold extracted_cert_id; cbn [qr_cert_id].
  destruct (recover (detect_qr_code_body image) None) as [c|]; cbn; [|reflexivity].
  destruct (PyStr.truthy c) eqn:Hc; [rewrite Hc|]; reflexivity.
Qed.

(** C3. For every image the analyzer returns a result in which
    [overall_valid] is the conjunction of the four detection flags, and in
    which an identifier is present only if [qr_detected] is true (and then it
    is not the empty string). *)
Theorem analyze_tag_image_overall_valid (image : Image) :
  exists a : AnalysisResult,
    analyze_tag_image image = Ok a
    /\ overall_valid a
       = qr_detected a && guilloche_detected a && grid_detected a && corners_detected a
    /\ (is_Some (qr_cert_id a) -> qr_detected a = true)
    /\ (qr_detected a = true -> exists c, qr_cert_id a = Some c /\ c <> EmptyString).
Proof.
  rewrite analyze_tag_image_ok. cbv zeta. eexists. split; [reflexivity|].
  cbn [overall_valid qr_detected guilloche_detected grid_detected corners_detected
       qr_cert_id].
  split; [reflexivity|].
  destruct (recover (detect_qr_code_body image) None) as [c|]; cbn [opt_str_truthy].
  - destruct c as [|ch c]; cbn [PyStr.truthy].
    + split; [intros [? ?]; discriminate | discriminate].
    + split; [reflexivity|]. intros _. eexists. split; [reflexivity | discriminate].
  - split; [intros [? ?]; discriminate | discriminate].
Qed.

(** The decoded objects before the first one that carries the marker are
    passed over. *)
Lemma scan_decoded_skip (before tail : list (list byte)) :
  Forall (fun o => exists s, bytes_decode_utf8 o = Ok s
                             /\ PyStr.contains "id=" s = false) before ->
  scan_decoded (before ++ tail) = scan_decoded tail.
Proof.
  induction 1 as [|o before (s & Hdec & Hno) _ IH]; [reflexivity|].
  cbn [app scan_decoded]. rewrite Hdec. cbn.
  rewrite (extract_cert_id_no_marker s Hno). cbn. exact IH.
Qed.

(** C10. When the first decoded payload that carries [id=] has nothing after
    its first [id=], the QR detector returns the empty string, the analyzer
    reports [qr_detected = False] and [qr_cert_id = None], and the scan is
    classified SCAN_FAILED whatever the registry holds: the empty identifier
    is not looked up. *)
Theorem empty_id_value_is_scan_failed (image : Image) (img_array : ndarray)
    (before : list (list byte)) (obj : list byte) (rest : list (list byte))
    (p : string) :
  np_array image = Ok img_array ->
  pyzbar_decode img_array = Ok (before ++ obj :: rest) ->
  Forall (fun o => exists s, bytes_decode_utf8 o = Ok s
                             /\ PyStr.contains "id=" s = false) before ->
  bytes_decode_utf8 obj = Ok (p ++ "id=")%string ->
  PyStr.contains "id=" p = false ->
  detect_qr_code image = Ok (Some EmptyString)
  /\ exists a : AnalysisResult,
       analyze_tag_image image = Ok a
       /\ qr_detected a = false
       /\ qr_cert_id a = None
       /\ forall db : gmap string RegistryRecord,
            tab2_tag_data a db = None /\ tab2_verdict a db = SCAN_FAILED.
Proof.
  intros Harr Hdec Hbefore Hobj Hno.
  assert (Hbody : detect_qr_code_body image = Ok (Some EmptyString)).
  { unfold detect_qr_code_body. rewrite Harr. cbn. rewrite Hdec. cbn.
    assert (Hscan : scan_decoded (before ++ obj :: rest) = Ok (Some EmptyString)).
    { rewrite (scan_decoded_skip before (obj :: rest) Hbefore).
      cbn [scan_decoded]. rewrite Hobj. cbn.
      rewrite (extract_cert_id_empty_value p Hno). reflexivity. }
    rewrite Hscan. destruct (before ++ obj :: rest) eqn:Hl; [|reflexivity].
    destruct before; discriminate. }
  split.
  - rewrite detect_qr_code_ok, Hbody. reflexivity.
  - rewrite analyze_tag_image_ok, Hbody. cbv zeta. eexists. split; [reflexivity|].
    cbn. repeat split.
Qed.

End Analyzer.

(* ===================================================================== *)
(** ** The guilloche detector's threshold *)
(* ===================================================================== *)

Section GuillocheThreshold.

Local Open Scope Z_scope.

Context {Image : Type} `{Imaging Image}.

Lemma mask_pixels_bounds (lower upper : Z * Z * Z) (hsv : list (Z * Z * Z)) :
  0 <= mask_pixels lower upper hsv <= Z.of_nat (length hsv).
Proof.
  unfold mask_pixels. split; [lia|].
  apply Nat2Z.inj_le.
  induction hsv as [|px hsv IH]; cbn [List.filter length]; [lia|].
  destruct (in_range lower upper px); cbn [length]; lia.
Qed.

(** The decision on the two counts, in integers. *)
Lemma guilloche_decision_spec (cyan magenta total : Z) :
  0 <= total < 2 ^ 53 -> 0 <= cyan < 2 ^ 47 -> 0 <= magenta < 2 ^ 47 ->
  guilloche_decision cyan magenta total
  = (total <? 50 * cyan) || (total <? 50 * magenta).
Proof.
  intros HT Hc Hm. unfold guilloche_decision.
  rewrite !threshold_lt_iff by assumption. reflexivity.
Qed.

(** C5. The detector counts the cyan-band and the magenta-band pixels
    separately and reports detected exactly when one of the two counts is
    strictly more than 2% of the pixel area (fifty times the count exceeds
    the area).  A count of exactly 2% does not trigger detection: with one
    band at exactly 2% and the other at no more than 2% the result is not
    detected.  The image has fewer than 2^47 pixels and the HSV array has one
    entry per pixel. *)
Theorem guilloche_detected_iff_above_two_percent (image : Image)
    (img_array : ndarray) (hsv : list (Z * Z * Z)) :
  np_array image = Ok img_array ->
  cvtColor_RGB2HSV img_array = Ok hsv ->
  Z.of_nat (length hsv) = fst (image_size image) * snd (image_size image) ->
  fst (image_size image) * snd (image_size image) < 2 ^ 47 ->
  let total_pixels := fst (image_size image) * snd (image_size image) in
  let cyan_pixels := mask_pixels cyan_lower cyan_upper hsv in
  let magenta_pixels := mask_pixels magenta_lower magenta_upper hsv in
  detect_guilloche_pattern image
  = Ok ((total_pixels <? 50 * cyan_pixels) || (total_pixels <? 50 * magenta_pixels))
  /\ (detect_guilloche_pattern image = Ok true
      <-> total_pixels < 50 * cyan_pixels \/ total_pixels < 50 * magenta_pixels)
  /\ (50 * cyan_pixels = total_pixels -> 50 * magenta_pixels <= total_pixels ->
      detect_guilloche_pattern image = Ok false)
  /\ (50 * magenta_pixels = total_pixels -> 50 * cyan_pixels <= total_pixels ->
      detect_guilloche_pattern image = Ok false).
Proof.
  intros Harr Hhsv Hlen Hsmall total_pixels cyan_pixels magenta_pixels.
  pose proof (mask_pixels_bounds cyan_lower cyan_upper hsv) as Hc.
  pose proof (mask_pixels_bounds magenta_lower magenta_upper hsv) as Hm.
  fold cyan_pixels in Hc. fold magenta_pixels in Hm.
  fold total_pixels in Hlen, Hsmall.
  assert (Hdet : detect_guilloche_pattern image
                 = Ok ((total_pixels <? 50 * cyan_pixels)
                       || (total_pixels <? 50 * magenta_pixels))).
  { rewrite detect_guilloche_pattern_ok. unfold detect_guilloche_pattern_body.
    rewrite Harr. cbn. rewrite Hhsv. cbn.
    fold cyan_pixels magenta_pixels total_pixels.
    rewrite guilloche_decision_spec by lia. reflexivity. }
  split; [exact Hdet|]. rewrite Hdet. split; [|split].
  - split.
    + intros [= Hor]. apply orb_true_iff in Hor as [Hlt|Hlt];
        apply Z.ltb_lt in Hlt; [left | right]; exact Hlt.
    + intros [Hlt|Hlt]; f_equal; apply orb_true_iff; [left | right];
        apply Z.ltb_lt; exact Hlt.
  - intros Heq Hle. f_equal. apply orb_false_iff.
    split; apply Z.ltb_ge; lia.
  - intros Heq Hle. f_equal. apply orb_false_iff.
    split; apply Z.ltb_ge; lia.
Qed.

End GuillocheThreshold.

(* ===================================================================== *)
(** ** Guilloche parameters *)
(* ===================================================================== *)

Section GuillocheRanges.

Local Open Scope Z_scope.

Lemma byte_value_range (b : byte) : 0 <= byte_value b < 256.
Proof.
  unfold byte_value. pose proof (Byte.to_N_bounded b) as Hb. lia.
Qed.

(** Reading a key of 16 bytes at an offset below 16 succeeds. *)
Lemma key_byte (key : list byte) (k : Z) :
  length key = 16%nat -> 0 <= k < 16 ->
  exists b : byte,
    nth_error key (Z.to_nat k) = Some b
    /\ py_index (byte_params key) k = Ok (byte_value b).
Proof.
  intros Hlen Hk.
  destruct (nth_error key (Z.to_nat k)) as [b|] eqn:Hb.
  - exists b. split; [reflexivity|].
    unfold py_index, byte_params.
    replace (k <? 0) with false by (symmetry; apply Z.ltb_ge; lia).
    replace (k <? 0) with false by (symmetry; apply Z.ltb_ge; lia).
    rewrite nth_error_map, Hb. reflexivity.
  - apply nth_error_None in Hb. lia.
Qed.

(** The amplitude factor [0.7 + (p / 255) * 0.3] lies between [0.7] and [1.0]
    for each of the 256 byte values. *)
Lemma amp_factor_range (b : byte) :
  fl_leb c_0_7 (amp_factor (byte_value b))
  && fl_leb (amp_factor (byte_value b)) one
  && (0 <=? mant (amp_factor (byte_value b))) = true.
Proof. destruct b; vm_compute; reflexivity. Qed.

(** The phase [(p / 255) * 2 * math.pi] lies between [0] and [2 * math.pi]
    for each of the 256 byte values. *)
Lemma phase_range (b : byte) :
  fl_leb zero (phase_of (byte_value b))
  && fl_leb (phase_of (byte_value b)) two_pi = true.
Proof. destruct b; vm_compute; reflexivity. Qed.

Lemma c_0_475_mant_pos : 0 < mant c_0_475.
Proof. vm_compute. reflexivity. Qed.

Lemma c_0_7_mant_pos : 0 < mant c_0_7.
Proof. vm_compute. reflexivity. Qed.

Lemma max_radius_mant (canvas_size : Z) :
  0 <= canvas_size ->
  0 <= mant (max_radius canvas_size)
  /\ R53 (mant (max_radius canvas_size)) = mant (max_radius canvas_size).
Proof.
  intros Hc. unfold max_radius, fl_mul, fl_of_int; cbn [mant expo].
  pose proof (rnd_ge0 canvas_size Hc) as H0.
  pose proof c_0_475_mant_pos as Hp.
  assert (0 <= rnd canvas_size * mant c_0_475) by nia.
  split; [apply rnd_ge0 | apply rnd_idem]; assumption.
Qed.

(** Both ends of the amplitude factor are reached: [0.7] at byte 0 and [1.0]
    at byte 255; so are both ends of the phase. *)
Lemma amp_factor_ends :
  fl_eqb (amp_factor 0) c_0_7 = true
  /\ fl_eqb (amp_factor 255) one = true
  /\ fl_eqb (phase_of 0) zero = true
  /\ fl_eqb (phase_of 255) two_pi = true.
Proof. vm_compute. repeat split. Qed.

(** The amplitude lies between [max_radius * 0.7] and [max_radius]. *)
Lemma amp_of_range (canvas_size : Z) (b : byte) :
  0 <= canvas_size ->
  fl_leb (fl_mul (max_radius canvas_size) c_0_7) (amp_of canvas_size (byte_value b)) = true
  /\ fl_leb (amp_of canvas_size (byte_value b)) (max_radius canvas_size) = true.
Proof.
  intros Hc. destruct (max_radius_mant canvas_size Hc) as [Hm Hrep].
  pose proof (amp_factor_range b) as Hf.
  apply andb_true_iff in Hf as [Hf Hpos]. apply andb_true_iff in Hf as [Hlo Hhi].
  apply Z.leb_le in Hpos. unfold amp_of. split.
  - apply fl_mul_le_mono; [exact Hm | pose proof c_0_7_mant_pos; lia | exact Hlo].
  - apply fl_mul_le_one; assumption.
Qed.

(** C7. For a 16-byte key, every canvas size and each curve [i] of the four,
    the parameters are derived from the key bytes at offsets [4 i] to
    [4 i + 3] and lie in fixed ranges: the amplitude between 70% and 100% of
    the maximum radius [canvas_size * 0.475], the frequency an integer in
    [8, 15], the petal count an integer in [5, 12], the phase in
    [0, 2 * math.pi].  Float bounds are those of the arithmetic the code
    performs. *)
Theorem guilloche_curve_params_in_range (secret_bytes : list byte)
    (canvas_size i : Z) :
  length secret_bytes = 16%nat ->
  0 <= canvas_size < 2 ^ 31 ->
  0 <= i < 4 ->
  exists (b0 b1 b2 b3 : byte) (cp : CurveParams),
    nth_error secret_bytes (Z.to_nat (4 * i)) = Some b0
    /\ nth_error secret_bytes (Z.to_nat (4 * i + 1)) = Some b1
    /\ nth_error secret_bytes (Z.to_nat (4 * i + 2)) = Some b2
    /\ nth_error secret_bytes (Z.to_nat (4 * i + 3)) = Some b3
    /\ curve_params secret_bytes canvas_size i = Ok cp
    /\ amp cp = amp_of canvas_size (byte_value b0)
    /\ freq cp = freq_of (byte_value b1)
    /\ petals cp = petals_of (byte_value b2)
    /\ phase cp = phase_of (byte_value b3)
    /\ max_radius canvas_size = fl_mul (fl_of_int canvas_size) c_0_475
    /\ fl_leb (fl_mul (max_radius canvas_size) c_0_7) (amp cp) = true
    /\ fl_leb (amp cp) (max_radius canvas_size) = true
    /\ 8 <= freq cp <= 15
    /\ 5 <= petals cp <= 12
    /\ fl_leb zero (phase cp) = true
    /\ fl_leb (phase cp) two_pi = true.
Proof.
  intros Hlen Hc Hi.
  destruct (key_byte secret_bytes (4 * i) Hlen) as (b0 & Hn0 & Hp0); [lia|].
  destruct (key_byte secret_bytes (4 * i + 1) Hlen) as (b1 & Hn1 & Hp1); [lia|].
  destruct (key_byte secret_bytes (4 * i + 2) Hlen) as (b2 & Hn2 & Hp2); [lia|].
  destruct (key_byte secret_bytes (4 * i + 3) Hlen) as (b3 & Hn3 & Hp3); [lia|].
  exists b0, b1, b2, b3.
  eexists. repeat (split; [eassumption|]).
  assert (Hrun : curve_params secret_bytes canvas_size i
                 = Ok {| amp := amp_of canvas_size (byte_value b0);
                         freq := freq_of (byte_value b1);
                         petals := petals_of (byte_value b2);
                         phase := phase_of (byte_value b3) |}).
  { unfold curve_params.
    rewrite (Z.mod_small (i * 4)), (Z.mod_small (i * 4 + 1)),
      (Z.mod_small (i * 4 + 2)), (Z.mod_small (i * 4 + 3)) by lia.
    replace (i * 4) with (4 * i) by lia.
    rewrite Hp0. cbn. rewrite Hp1. cbn. rewrite Hp2. cbn. rewrite Hp3. reflexivity. }
  split; [exact Hrun|]. cbn [amp freq petals phase].
  destruct (amp_of_range canvas_size b0) as [Hlo Hhi]; [lia|].
  pose proof (phase_range b3) as Hph. apply andb_true_iff in Hph as [Hph0 Hph1].
  pose proof (byte_value_range b1) as Hb1. pose proof (byte_value_range b2) as Hb2.
  destruct (max_radius_mant canvas_size) as [Hm Hrep]; [lia|].
  repeat split; try assumption; try reflexivity.
  - unfold freq_of. Z.div_mod_to_equations. lia.
  - unfold freq_of. Z.div_mod_to_equations. lia.
  - unfold petals_of. Z.div_mod_to_equations. lia.
  - unfold petals_of. Z.div_mod_to_equations. lia.
Qed.

End GuillocheRanges.

(* ===================================================================== *)
(** ** The border dash walk *)
(* ===================================================================== *)

(** C8, as stated, fails: the thickness is computed from [params[idx]], the
    very byte the dash length uses.  Two keys that differ only in byte 0 give
    thickness 6 and 9 for segment 0. *)
Lemma border_thickness_depends_on_dash_byte : ~ thickness_independent_of_dash_byte.
Proof.
  intros Hindep.
  specialize (Hindep zero_key ff_first_key 0%Z eq_refl eq_refl).
  assert (Hsame : forall k : nat, k <> Z.to_nat (0 mod 16) ->
                    nth_error zero_key k = nth_error ff_first_key k).
  { intros k Hk. destruct k as [|k]; [contradiction Hk; reflexivity | reflexivity]. }
  specialize (Hindep Hsame).
  assert (H6 : thickness_at (byte_params zero_key) 0 = Ok 6%Z) by (vm_compute; reflexivity).
  assert (H9 : thickness_at (byte_params ff_first_key) 0 = Ok 9%Z) by (vm_compute; reflexivity).
  rewrite H6, H9 in Hindep. discriminate Hindep.
Qed.

Section BorderWalk.

Local Open Scope Z_scope.

Context `{Libm}.

(** Every pass through the loop body advances the segment index by one. *)
Lemma dash_iteration_segment (params : list Z) (side : (Z * Z) * (Z * Z))
    (len : float64) (st st' : WalkState) :
  dash_iteration params side len st = Ok st' -> segment st' = segment st + 1.
Proof.
  destruct side as [[x1 y1] [x2 y2]]. unfold dash_iteration. intros Hrun.
  bind_cases Hrun; injection Hrun as <-; reflexivity.
Qed.

Lemma dash_iterations_segment (n : nat) (params : list Z)
    (side : (Z * Z) * (Z * Z)) (len : float64) (st st' : WalkState) :
  dash_iterations n params side len st = Ok (Some st') ->
  segment st' = segment st + Z.of_nat n.
Proof.
  revert st. induction n as [|n IH]; intros st Hrun.
  - cbn in Hrun. injection Hrun as <-. lia.
  - cbn [dash_iterations] in Hrun.
    destruct (fl_ltb (dist st) len); [|discriminate Hrun].
    destruct (dash_iteration params side len st) as [st1|e] eqn:Hst; [|discriminate Hrun].
    cbn in Hrun. apply IH in Hrun.
    apply dash_iteration_segment in Hst. lia.
Qed.

(** A finished [while] loop has made some number of passes and left the loop
    condition false. *)
Lemma walk_side_iterations (fuel : nat) (params : list Z)
    (side : (Z * Z) * (Z * Z)) (len : float64) (st st' : WalkState) :
  walk_side fuel params side len st = Ok (Some st') ->
  exists n : nat,
    dash_iterations n params side len st = Ok (Some st')
    /\ fl_ltb (dist st') len = false.
Proof.
  revert st. induction fuel as [|fuel IH]; intros st Hrun.
  - cbn [walk_side] in Hrun. destruct (fl_ltb (dist st) len) eqn:Hc; [discriminate Hrun|].
    injection Hrun as <-. exists 0%nat. split; [reflexivity | exact Hc].
  - cbn [walk_side] in Hrun. destruct (fl_ltb (dist st) len) eqn:Hc.
    + destruct (dash_iteration params side len st) as [st1|e] eqn:Hst; [|discriminate Hrun].
      cbn in Hrun. destruct (IH st1 Hrun) as (n & Hn & Hstop).
      exists (S n). split; [|exact Hstop].
      cbn [dash_iterations]. rewrite Hc, Hst. exact Hn.
    + injection Hrun as <-. exists 0%nat. split; [reflexivity | exact Hc].
Qed.

Lemma walk_sides_run (fuel : nat) (params : list Z)
    (sides : list ((Z * Z) * (Z * Z))) (seg : Z) (lines : list Dash)
    (final : Z) (lines' : list Dash) :
  walk_sides fuel params sides seg lines = Ok (Some (final, lines')) ->
  exists ns : list nat,
    sides_run params sides seg lines ns final lines'
    /\ length ns = length sides
    /\ final = seg + Z.of_nat (list_sum ns).
Proof.
  revert seg lines. induction sides as [|side rest IH]; intros seg lines Hrun.
  - cbn in Hrun. injection Hrun as <- <-. exists []. split; [constructor|].
    split; [reflexivity | cbn; lia].
  - cbn [walk_sides] in Hrun.
    destruct (walk_side fuel params side (side_length side)
                {| dist := zero; segment := seg; drawn := lines |})
      as [[st|]|e] eqn:Hside; cbn in Hrun; try discriminate Hrun.
    destruct (walk_side_iterations _ _ _ _ _ _ Hside) as (n & Hn & Hstop).
    pose proof (dash_iterations_segment _ _ _ _ _ _ Hn) as Hseg. cbn [segment] in Hseg.
    destruct (IH _ _ Hrun) as (ns & Hns & Hlen & Hfinal).
    exists (n :: ns). split; [|split].
    + econstructor; eassumption.
    + cbn. rewrite Hlen. reflexivity.
    + change (list_sum (n :: ns)) with (n + list_sum ns)%nat. lia.
Qed.

(** C8, amended. For a 16-byte key and any segment index, the dash length and
    the line thickness are both derived from the key byte at offset
    [segment % 16], and the gap length from the byte at offset
    [(segment % 16 + 5) % 16], which is never the same offset.  Every pass
    through the loop body advances the segment index by one, and the index is
    carried from side to side: a finished walk of the four sides ends with the
    segment index equal to the total number of passes, each side having
    started with the index the previous side left. *)
Theorem border_dash_parameters (key : list byte) (seg : Z) :
  length key = 16%nat ->
  let params := byte_params key in
  let idx := seg mod 16 in
  let gap_idx := (idx + 5) mod 16 in
  (0 <= idx < 16 /\ 0 <= gap_idx < 16 /\ gap_idx <> idx)
  /\ (exists b bg : byte,
        nth_error key (Z.to_nat idx) = Some b
        /\ nth_error key (Z.to_nat gap_idx) = Some bg
        /\ (forall d : float64,
              dash_len_at params seg d = Ok (dash_len_of (byte_value b) d))
        /\ gap_len_at params seg = Ok (gap_len_of (byte_value bg))
        /\ thickness_at params seg = Ok (thickness_of (byte_value b)))
  /\ (forall side len st st',
        dash_iteration params side len st = Ok st' -> segment st' = segment st + 1)
  /\ (forall (fuel : nat) (canvas_size final : Z) (lines : list Dash),
        border_dashes fuel key canvas_size = Ok (Some (final, lines)) ->
        exists ns : list nat,
          sides_run params (border_sides canvas_size) 0 [] ns final lines
          /\ length ns = 4%nat
          /\ final = Z.of_nat (list_sum ns)).
Proof.
  intros Hlen params idx gap_idx.
  assert (Hidx : 0 <= idx < 16) by (apply Z.mod_pos_bound; lia).
  assert (Hgap : 0 <= gap_idx < 16) by (apply Z.mod_pos_bound; lia).
  assert (Hne : gap_idx <> idx).
  { subst gap_idx. intros Heq.
    destruct (Z_lt_le_dec (idx + 5) 16) as [Hlt|Hge].
    - rewrite Z.mod_small in Heq by lia. lia.
    - replace (idx + 5) with (idx + 5 - 16 + 1 * 16) in Heq by lia.
      rewrite Z.mod_add, Z.mod_small in Heq by lia. lia. }
  split; [repeat split; first [apply Hidx | apply Hgap | exact Hne]|].
  subst params idx gap_idx.
  destruct (key_byte key _ Hlen Hidx) as (b & Hb & Hpb).
  destruct (key_byte key _ Hlen Hgap) as (bg & Hbg & Hpbg).
  split; [|split].
  - exists b, bg. repeat split; try assumption.
    + intros d. unfold dash_len_at. rewrite Hpb. reflexivity.
    + unfold gap_len_at. rewrite Hpbg. reflexivity.
    + unfold thickness_at. rewrite Hpb. reflexivity.
  - intros side len st st'. apply dash_iteration_segment.
  - intros fuel canvas_size final lines Hrun. unfold border_dashes in Hrun.
    destruct (walk_sides_run _ _ _ _ _ _ _ Hrun) as (ns & Hns & Hl & Hfinal).
    exists ns. split; [exact Hns|]. split; [exact Hl | lia].
Qed.

End BorderWalk.

(* ===================================================================== *)
(** ** Agreement of [F64] with the IEEE 754 specification *)
(* ===================================================================== *)

Section Agreement.

Local Open Scope Z_scope.

(** The float literals are the correctly rounded quotients. *)
Lemma literals_agree :
  to_spec c_0_02 = spec_quot 2 100
  /\ to_spec c_0_475 = spec_quot 475 1000
  /\ to_spec c_0_7 = spec_quot 7 10
  /\ to_spec c_0_3 = spec_quot 3 10
  /\ to_spec c_0_1 = spec_quot 1 10
  /\ to_spec c_0_8 = spec_quot 8 10
  /\ to_spec c_0_4 = spec_quot 4 10
  /\ to_spec math_pi = S754_finite false 7074237752028440 (-51).
Proof. vm_compute. repeat split. Qed.

(** The byte-indexed quantities agree for each of the 256 byte values. *)
Lemma amp_factor_agrees (b : byte) :
  to_spec (amp_factor (byte_value b))
  = SFadd 53 1024 (spec_quot 7 10)
      (SFmul 53 1024 (spec_quot (byte_value b) 255) (spec_quot 3 10)).
Proof. destruct b; vm_compute; reflexivity. Qed.

Lemma phase_of_agrees (b : byte) :
  to_spec (phase_of (byte_value b))
  = SFmul 53 1024
      (SFmul 53 1024 (spec_quot (byte_value b) 255) (spec_of_int 2))
      (to_spec math_pi).
Proof. destruct b; vm_compute; reflexivity. Qed.

Lemma gap_len_of_agrees (b : byte) :
  to_spec (gap_len_of (byte_value b))
  = SFadd 53 1024 (spec_of_int 12)
      (SFmul 53 1024 (spec_quot (byte_value b) 255) (spec_of_int 10)).
Proof. destruct b; vm_compute; reflexivity. Qed.

(** The thresholds of some image sizes, and amplitudes at some canvas sizes. *)
Lemma threshold_agrees :
  Forall (fun total =>
            to_spec (fl_mul (fl_of_int total) c_0_02)
            = SFmul 53 1024 (spec_of_int total) (spec_quot 2 100))
         [1; 50; 99; 100; 307200; 921600; 1440000; 2073600; 12192768; 2 ^ 46 + 12345].
Proof. repeat constructor. Qed.

Lemma max_radius_agrees :
  Forall (fun canvas_size =>
            to_spec (max_radius canvas_size)
            = SFmul 53 1024 (spec_of_int canvas_size) (spec_quot 475 1000))
         [0; 1; 3; 800; 999; 1200; 1337; 1600; 2 ^ 31 - 1].
Proof. repeat constructor. Qed.

End Agreement.

(* ===================================================================== *)
(** ** The theorems at concrete inputs *)
(* ===================================================================== *)

Section Instances.

Local Open Scope Z_scope.

(** Each of the four verdicts is reached by some analysis result and
    registry. *)
Example tab2_verdict_all_reached :
  let db := store_tag_in_db first_bundle "B26A001" "2026-01-01T00:00:00" ∅ in
  tab2_verdict complete_analysis db = AUTHENTIC
  /\ tab2_verdict qr_only_analysis db = SUSPICIOUS
  /\ tab2_verdict qr_only_analysis ∅ = COUNTERFEIT
  /\ tab2_verdict complete_analysis ∅ = COUNTERFEIT
  /\ tab2_verdict blank_analysis db = SCAN_FAILED.
Proof.
  cbv zeta.
  assert (Hhit : forall a, qr_cert_id a = Some (cert_id first_bundle) ->
            tab2_tag_data a (store_tag_in_db first_bundle "B26A001" "2026-01-01T00:00:00" ∅)
            = Some (registry_record first_bundle "B26A001" "2026-01-01T00:00:00")).
  { intros a Ha. unfold tab2_tag_data, verify_tag_in_db. rewrite Ha.
    cbn [PyStr.truthy cert_id first_bundle]. apply store_tag_in_db_lookup. }
  unfold tab2_verdict.
  rewrite (Hhit complete_analysis eq_refl), (Hhit qr_only_analysis eq_refl).
  repeat split.
Qed.

(** The round trip on an identifier of the issued format. *)
Lemma qr_url_extract_roundtrip_sample :
  extract_cert_id (qr_url "CERT-B26A001-0123456789AB")
  = Ok (Some "CERT-B26A001-0123456789AB"%string).
Proof. apply qr_url_extract_roundtrip. reflexivity. Defined.

(** Exactly 2.0% of cyan pixels: not detected. *)
Lemma guilloche_boundary_sample :
  detect_guilloche_pattern (H := sample_imaging) boundary_image = Ok false.
Proof.
  destruct (guilloche_detected_iff_above_two_percent (H := sample_imaging)
              boundary_image boundary_image (sample_hsv boundary_image))
    as (_ & _ & Hboundary & _).
  - reflexivity.
  - reflexivity.
  - reflexivity.
  - vm_compute. reflexivity.
  - apply Hboundary.
    + vm_compute. reflexivity.
    + vm_compute. discriminate.
Defined.

(** The third curve of the all-zero key on a 1200 pixel canvas. *)
Lemma guilloche_curve_params_sample :
  exists cp : CurveParams,
    curve_params zero_key 1200 2 = Ok cp
    /\ freq cp = 8 /\ petals cp = 5
    /\ fl_leb (fl_mul (max_radius 1200) c_0_7) (amp cp) = true
    /\ fl_leb (amp cp) (max_radius 1200) = true.
Proof.
  destruct (guilloche_curve_params_in_range zero_key 1200 2)
    as (b0 & b1 & b2 & b3 & cp & Hn0 & Hn1 & Hn2 & Hn3 & Hrun & _ & Hf & Hp & _
        & _ & Hlo & Hhi & _).
  - reflexivity.
  - lia.
  - lia.
  - exists cp. split; [exact Hrun|].
    injection Hn1 as <-. injection Hn2 as <-.
    split; [exact Hf|]. split; [exact Hp|]. split; [exact Hlo | exact Hhi].
Defined.

(** The dash walk of the all-zero key on a 200 pixel canvas, with
    [flat_libm]: six dashes a side, the index running from 0 to 24. *)
Lemma border_dash_parameters_sample :
  (21 mod 16 + 5) mod 16 <> 21 mod 16
  /\ exists (lines : list Dash) (ns : list nat),
       border_dashes (H := flat_libm) 10 zero_key 200 = Ok (Some (24, lines))
       /\ sides_run (H := flat_libm) (byte_params zero_key) (border_sides 200)
            0 [] ns 24 lines
       /\ length ns = 4%nat.
Proof.
  destruct (border_dash_parameters (H := flat_libm) zero_key 21 eq_refl)
    as ((_ & _ & Hne) & _ & _ & Hwalk).
  split; [exact Hne|].
  assert (Hrun : exists lines, border_dashes (H := flat_libm) 10 zero_key 200
                               = Ok (Some (24, lines))).
  { eexists. vm_compute. reflexivity. }
  destruct Hrun as (lines & Hrun).
  destruct (Hwalk 10%nat 200 24 lines Hrun) as (ns & Hns & Hlen & _).
  exists lines, ns. split; [exact Hrun|]. split; [exact Hns | exact Hlen].
Defined.

(** The report of a scan that read an unregistered identifier. *)
Lemma tab2_report_sample :
  exists r : ReportData,
    tab2_report qr_only_analysis ∅ "2026-01-01T00:00:00" = Some r
    /\ rep_verification_result r = "COUNTERFEIT"%string
    /\ rep_verification_result r <> "SCAN_FAILED"%string.
Proof.
  eexists. split; [reflexivity|]. split; [reflexivity|].
  apply (tab2_report_never_scan_failed qr_only_analysis ∅ "2026-01-01T00:00:00" _ eq_refl).
Defined.

(** A QR code that reads [https://skern.com/verify?id=]. *)
Lemma empty_id_value_sample :
  detect_qr_code (H := sample_imaging) empty_id_image = Ok (Some EmptyString)
  /\ exists a : AnalysisResult,
       analyze_tag_image (H := sample_imaging) empty_id_image = Ok a
       /\ qr_detected a = false
       /\ qr_cert_id a = None
       /\ forall db : gmap string RegistryRecord,
            tab2_tag_data a db = None /\ tab2_verdict a db = SCAN_FAILED.
Proof.
  apply (empty_id_value_is_scan_failed (H := sample_imaging) empty_id_image
           empty_id_image [] (list_byte_of_string "https://skern.com/verify?id=") []
           "https://skern.com/verify?").
  - reflexivity.
  - reflexivity.
  - constructor.
  - reflexivity.
  - reflexivity.
Defined.

End Instances.

(* ===================================================================== *)
(** ** More on the registry *)
(* ===================================================================== *)

Section RegistryGrowth.

Implicit Types (db : gmap string RegistryRecord) (bundle : SecretBundle).

(** X1. The tag count shown by the scan tab grows by one when the stored
    [cert_id] is new and stays the same when a record already exists under
    it: a colliding store is not counted. *)
Theorem store_tag_in_db_tag_count bundle (batch_code now : string) db :
  tag_count (store_tag_in_db bundle batch_code now db)
  = match verify_tag_in_db (cert_id bundle) db with
    | Some _ => tag_count db
    | None => S (tag_count db)
    end.
Proof.
  unfold tag_count, store_tag_in_db, verify_tag_in_db.
  destruct (db !! cert_id bundle) as [r|] eqn:Hl.
  - apply map_size_insert_Some. rewrite Hl. eauto.
  - apply map_size_insert_None. exact Hl.
Qed.

(** X2. In every registry built from the empty one by [store_tag_in_db], the
    record found under a key carries that key as its [cert_id], is flagged
    authentic, and is the record built from some bundle. *)
Theorem issued_registry_records db (k : string) (r : RegistryRecord) :
  issued_registry db ->
  verify_tag_in_db k db = Some r ->
  rec_cert_id r = k
  /\ rec_authentic r = true
  /\ exists bundle (batch_code now : string),
       cert_id bundle = k /\ r = registry_record bundle batch_code now.
Proof.
  unfold verify_tag_in_db. intros Hdb. revert k r.
  induction Hdb as [|bundle batch_code now db Hdb IH]; intros k r Hl.
  - rewrite lookup_empty in Hl. discriminate.
  - unfold store_tag_in_db in Hl.
    destruct (decide (cert_id bundle = k)) as [<-|Hne].
    + rewrite lookup_insert_eq in Hl. injection Hl as <-.
      split; [reflexivity|]. split; [reflexivity|].
      exists bundle, batch_code, now. split; reflexivity.
    + rewrite lookup_insert_ne in Hl by exact Hne. apply IH. exact Hl.
Qed.

Lemma hex_digit_value (n : N) : (n < 16)%N -> hex_value (hex_digit n) = Some n.
Proof.
  intros Hn.
  assert (Hcases : In n (map N.of_nat (seq 0 16))).
  { apply in_map_iff. exists (N.to_nat n). split; [lia|]. apply in_seq. lia. }
  cbn in Hcases.
  repeat (destruct Hcases as [<-|Hcases]; [reflexivity|]). destruct Hcases.
Qed.

Lemma unhex_byte_hex (b : byte) :
  byte_hex b = String (hex_digit (Byte.to_N b / 16))
                 (String (hex_digit (Byte.to_N b mod 16)) EmptyString)
  /\ unhex_byte (hex_digit (Byte.to_N b / 16)) (hex_digit (Byte.to_N b mod 16)) = Some b.
Proof. split; [reflexivity|]. destruct b; reflexivity. Qed.

Lemma bytes_hex_cons (b : byte) (bs : list byte) :
  bytes_hex (b :: bs)
  = String (hex_digit (Byte.to_N b / 16))
      (String (hex_digit (Byte.to_N b mod 16)) (bytes_hex bs)).
Proof. reflexivity. Qed.

(** [hex()] loses nothing: different byte strings have different digits. *)
Lemma bytes_hex_inj (a b : list byte) : bytes_hex a = bytes_hex b -> a = b.
Proof.
  revert b. induction a as [|x a IH]; intros [|y b] Heq.
  - reflexivity.
  - rewrite bytes_hex_cons in Heq. discriminate Heq.
  - rewrite bytes_hex_cons in Heq. discriminate Heq.
  - rewrite !bytes_hex_cons in Heq. injection Heq as Hh Hl Ht.
    f_equal; [|apply IH; exact Ht].
    destruct (unhex_byte_hex x) as [_ Hx]. destruct (unhex_byte_hex y) as [_ Hy].
    rewrite Hh, Hl in Hx. rewrite Hx in Hy. injection Hy as ->. reflexivity.
Qed.

Lemma bytes_hex_length (bs : list byte) :
  String.length (bytes_hex bs) = (2 * length bs)%nat.
Proof.
  induction bs as [|b bs IH]; [reflexivity|].
  rewrite bytes_hex_cons. cbn [String.length length]. rewrite IH. lia.
Qed.

(** X3. A stored record determines the bundle, the batch code and the time
    it was built from: the hexadecimal form of the two keys loses nothing. *)
Theorem registry_record_determines_bundle bundle bundle'
    (batch_code now batch_code' now' : string) :
  registry_record bundle batch_code now = registry_record bundle' batch_code' now' ->
  bundle = bundle' /\ batch_code = batch_code' /\ now = now'.
Proof.
  unfold registry_record. intros Heq.
  injection Heq as Hb Hc Hg Hbd Hs Hn.
  apply bytes_hex_inj in Hg. apply bytes_hex_inj in Hbd.
  destruct bundle as [c g bd sn], bundle' as [c' g' bd' sn']; cbn in *.
  subst. repeat split.
Qed.

End RegistryGrowth.

(* ===================================================================== *)
(** ** More on the verdict *)
(* ===================================================================== *)

Section VerdictStability.

Implicit Types (a : AnalysisResult) (db : gmap string RegistryRecord)
  (bundle : SecretBundle).

Lemma registry_lookup_store a db bundle (batch_code now : string) :
  registry_lookup a (store_tag_in_db bundle batch_code now db)
  = match extracted_cert_id a with
    | Some c => if decide (cert_id bundle = c)
                then Some (registry_record bundle batch_code now)
                else db !! c
    | None => None
    end.
Proof.
  unfold registry_lookup, store_tag_in_db.
  destruct (extracted_cert_id a) as [c|]; [|reflexivity].
  destruct (decide (cert_id bundle = c)) as [<-|Hne].
  - apply lookup_insert_eq.
  - apply lookup_insert_ne. exact Hne.
Qed.

(** X4. Issuing further tags never takes a verdict away from a scan: a scan
    judged AUTHENTIC, SUSPICIOUS or SCAN_FAILED is judged the same after any
    store, and so is every scan whose identifier is not the one stored.  A
    scan of the stored identifier is AUTHENTIC when all layers were found and
    SUSPICIOUS otherwise. *)
Theorem store_tag_in_db_verdicts a db bundle (batch_code now : string) :
  (tab2_verdict a db <> COUNTERFEIT ->
   tab2_verdict a (store_tag_in_db bundle batch_code now db) = tab2_verdict a db)
  /\ (extracted_cert_id a <> Some (cert_id bundle) ->
      tab2_verdict a (store_tag_in_db bundle batch_code now db) = tab2_verdict a db)
  /\ (extracted_cert_id a = Some (cert_id bundle) ->
      tab2_verdict a (store_tag_in_db bundle batch_code now db)
      = if overall_valid a then AUTHENTIC else SUSPICIOUS).
Proof.
  rewrite !tab2_verdict_table, registry_lookup_store.
  unfold registry_lookup.
  destruct (extracted_cert_id a) as [c|] eqn:Hc; cbn.
  - destruct (decide (cert_id bundle = c)) as [<-|Hne]; cbn.
    + split; [|split].
      * destruct (db !! cert_id bundle); cbn; [reflexivity | congruence].
      * congruence.
      * reflexivity.
    + split; [reflexivity|]. split; [reflexivity|]. congruence.
  - split; [reflexivity|]. split; [reflexivity | discriminate].
Qed.

End VerdictStability.

(* ===================================================================== *)
(** ** More on the QR detector and the analyzer *)
(* ===================================================================== *)

Section Scanning.

Local Open Scope string_scope.

Lemma split_go_not_nil (sep : string) (skip : nat) (cur s : string) :
  PyStr.split_go sep skip cur s <> [].
Proof.
  revert skip cur. induction s as [|c s IH]; intros skip cur; [discriminate|].
  cbn [PyStr.split_go]. destruct skip as [|k]; [|apply IH].
  destruct (PyStr.startswith (String c s) sep); [discriminate | apply IH].
Qed.

(** When the separator occurs, the first piece stops before it: it is
    strictly shorter than the text, and at least one more piece follows. *)
Lemma split_go_first_piece (a : ascii) (sep' cur s : string) :
  PyStr.contains (String a sep') s = true ->
  exists (x : string) (y : string) (tl : list string),
    PyStr.split_go (String a sep') 0 cur s = (cur ++ x) :: y :: tl
    /\ (String.length x < String.length s)%nat.
Proof.
  revert cur. induction s as [|c s IH]; intros cur Hin.
  - discriminate Hin.
  - rewrite contains_cons in Hin. cbn [PyStr.split_go].
    destruct (PyStr.startswith (String c s) (String a sep')) eqn:Hst.
    + destruct (PyStr.split_go (String a sep') (String.length (String a sep') - 1)
                  EmptyString s) as [|y tl] eqn:Hrest.
      * exfalso. exact (split_go_not_nil _ _ _ _ Hrest).
      * exists EmptyString, y, tl. rewrite append_empty_r.
        split; [reflexivity | cbn; lia].
    + cbn [orb] in Hin.
      destruct (IH (cur ++ String c EmptyString) Hin) as (x & y & tl & Heq & Hlen).
      exists (String c x), y, tl. rewrite Heq, append_snoc.
      split; [reflexivity | cbn; lia].
Qed.

(** With two pieces or more, indexing at 1 gives the second one. *)
Lemma second_piece (p x : string) (tl : list string) :
  (parts ← Ok (p :: x :: tl); cert ← py_index parts 1; mret (Some cert))
  = Ok (Some x).
Proof. reflexivity. Qed.

(** A payload that carries the marker always yields an identifier. *)
Lemma extract_cert_id_marker (s : string) :
  PyStr.contains "id=" s = true ->
  exists x : string, extract_cert_id s = Ok (Some x).
Proof.
  intros Hin. unfold extract_cert_id. rewrite Hin. unfold PyStr.split.
  destruct (split_go_first_piece "i" "d=" EmptyString s Hin) as (x & y & tl & Heq & _).
  rewrite Heq. exists y. reflexivity.
Qed.

(** X5. Embedding an identifier in the QR URL and extracting it again gives
    the identifier back exactly when the identifier does not contain [id=];
    otherwise a strictly shorter text is extracted. *)
Theorem qr_url_roundtrip_iff (cert : string) :
  (extract_cert_id (qr_url cert) = Ok (Some cert)
   <-> PyStr.contains "id=" cert = false)
  /\ exists x : string,
       extract_cert_id (qr_url cert) = Ok (Some x)
       /\ (String.length x <= String.length cert)%nat
       /\ (PyStr.contains "id=" cert = true ->
           (String.length x < String.length cert)%nat).
Proof.
  unfold extract_cert_id. rewrite qr_url_contains_marker.
  unfold PyStr.split. rewrite qr_url_split.
  destruct (PyStr.contains "id=" cert) eqn:Hin.
  - destruct (split_go_first_piece "i" "d=" EmptyString cert Hin)
      as (x & y & tl & Heq & Hlen).
    rewrite Heq. change (EmptyString ++ x) with x. rewrite second_piece.
    split.
    + split; [|discriminate]. intros Hx.
      assert (x = cert) by congruence. subst x. lia.
    + exists x. split; [reflexivity|]. split; [lia | intros _; exact Hlen].
  - rewrite (split_go_no_sep "id=" EmptyString cert Hin).
    change (EmptyString ++ cert) with cert. rewrite second_piece.
    split; [split; reflexivity|].
    exists cert. split; [reflexivity|]. split; [lia | discriminate].
Qed.

Context {Image : Type} `{Imaging Image}.

Lemma detect_qr_code_body_scan (image : Image) (img_array : ndarray)
    (objs : list (list byte)) :
  np_array image = Ok img_array ->
  pyzbar_decode img_array = Ok objs ->
  detect_qr_code_body image = scan_decoded objs.
Proof.
  intros Harr Hdec. unfold detect_qr_code_body. rewrite Harr. cbn.
  rewrite Hdec. cbn. destruct objs; reflexivity.
Qed.

(** X6. The QR detector returns the identifier of the first decoded object
    whose payload carries [id=]: objects before it without the marker are
    passed over, and objects after it are never looked at. *)
Theorem detect_qr_code_first_marker (image : Image) (img_array : ndarray)
    (before : list (list byte)) (obj : list byte) (rest : list (list byte))
    (s : string) :
  np_array image = Ok img_array ->
  pyzbar_decode img_array = Ok (before ++ obj :: rest)%list ->
  Forall (fun o => exists t, bytes_decode_utf8 o = Ok t
                             /\ PyStr.contains "id=" t = false) before ->
  bytes_decode_utf8 obj = Ok s ->
  PyStr.contains "id=" s = true ->
  exists x : string,
    extract_cert_id s = Ok (Some x)
    /\ detect_qr_code image = Ok (Some x).
Proof.
  intros Harr Hdec Hbefore Hobj Hin.
  destruct (extract_cert_id_marker s Hin) as (x & Hx).
  exists x. split; [exact Hx|].
  rewrite detect_qr_code_ok,
    (detect_qr_code_body_scan image img_array _ Harr Hdec),
    (scan_decoded_skip before (obj :: rest) Hbefore).
  cbn [scan_decoded]. rewrite Hobj. cbn. rewrite Hx. reflexivity.
Qed.

(** X7. A decoded object whose bytes are not valid UTF-8 ends the scan: when
    it comes before every payload that carries the marker, the detector
    returns [None] whatever follows, the analyzer reports no QR code, and the
    scan is classified SCAN_FAILED. *)
Theorem detect_qr_code_decode_failure (image : Image) (img_array : ndarray)
    (before : list (list byte)) (bad : list byte) (rest : list (list byte))
    (e : exn) :
  np_array image = Ok img_array ->
  pyzbar_decode img_array = Ok (before ++ bad :: rest)%list ->
  Forall (fun o => exists t, bytes_decode_utf8 o = Ok t
                             /\ PyStr.contains "id=" t = false) before ->
  bytes_decode_utf8 bad = Raise e ->
  detect_qr_code image = Ok None
  /\ exists a : AnalysisResult,
       analyze_tag_image image = Ok a
       /\ qr_detected a = false
       /\ overall_valid a = false
       /\ forall db : gmap string RegistryRecord, tab2_verdict a db = SCAN_FAILED.
Proof.
  intros Harr Hdec Hbefore Hbad.
  assert (Hbody : detect_qr_code_body image = Raise e).
  { rewrite (detect_qr_code_body_scan image img_array _ Harr Hdec),
      (scan_decoded_skip before (bad :: rest) Hbefore).
    cbn [scan_decoded]. rewrite Hbad. reflexivity. }
  split.
  - rewrite detect_qr_code_ok, Hbody. reflexivity.
  - rewrite analyze_tag_image_ok, Hbody. cbv zeta. eexists. split; [reflexivity|].
    cbn. repeat split.
Qed.

(** X8. An image that [np.array] cannot read gives the all-false analysis
    result; the scan is classified SCAN_FAILED for every registry and no
    report is offered. *)
Theorem unreadable_image_scan_failed (image : Image) (e : exn) :
  np_array image = Raise e ->
  analyze_tag_image image = Ok blank_analysis
  /\ forall (db : gmap string RegistryRecord) (now : string),
       tab2_verdict blank_analysis db = SCAN_FAILED
       /\ tab2_report blank_analysis db now = None.
Proof.
  intros He.
  destruct (bodies_fail_with_np_array image e He) as (Hq & Hg & Hl & Hc).
  split.
  - rewrite analyze_tag_image_ok, Hq, Hg, Hl, Hc. reflexivity.
  - intros db now. split; reflexivity.
Qed.

(** X9. A scan is classified AUTHENTIC only if all four detectors reported
    their layer on the image and the identifier the QR detector returned is a
    non-empty key of the registry. *)
Theorem authentic_needs_every_layer (image : Image) (a : AnalysisResult)
    (db : gmap string RegistryRecord) :
  analyze_tag_image image = Ok a ->
  tab2_verdict a db = AUTHENTIC ->
  (exists (c : string) (r : RegistryRecord),
     detect_qr_code image = Ok (Some c)
     /\ c <> EmptyString
     /\ verify_tag_in_db c db = Some r)
  /\ detect_guilloche_pattern image = Ok true
  /\ detect_grid_pattern image = Ok true
  /\ detect_corner_markers image = Ok true.
Proof.
  rewrite analyze_tag_image_ok, detect_qr_code_ok, detect_guilloche_pattern_ok,
    detect_grid_pattern_ok, detect_corner_markers_ok. cbv zeta.
  intros [= <-]. unfold tab2_verdict, tab2_tag_data, verify_tag_in_db.
  cbn [qr_cert_id overall_valid].
  destruct (recover (detect_qr_code_body image) None) as [c|]; cbn [opt_str_truthy].
  2:{ cbn. discriminate. }
  destruct c as [|ch c]; cbn [PyStr.truthy].
  { cbn. discriminate. }
  cbn [PyStr.truthy].
  destruct (db !! String ch c) as [r|] eqn:Hl; cbn [tag_data_truthy andb negb].
  2:{ discriminate. }
  destruct (recover (detect_guilloche_pattern_body image) false),
    (recover (detect_grid_pattern_body image) false),
    (recover (detect_corner_markers_body image) false); cbn; try discriminate.
  intros _. split; [|repeat split].
  exists (String ch c), r. split; [reflexivity|]. split; [discriminate | exact Hl].
Qed.

End Scanning.

(* ===================================================================== *)
(** ** Issuance *)
(* ===================================================================== *)

Section IssuanceFacts.

Local Open Scope string_scope.

Lemma str_all_app (p : ascii -> bool) (s t : string) :
  str_all p (s ++ t) = str_all p s && str_all p t.
Proof.
  induction s as [|c s IH]; [reflexivity|].
  rewrite append_cons. cbn [str_all]. rewrite IH. apply andb_assoc.
Qed.

Lemma str_all_impl (p q : ascii -> bool) (s : string) :
  (forall c, p c = true -> q c = true) -> str_all p s = true -> str_all q s = true.
Proof.
  intros Hpq. induction s as [|c s IH]; [reflexivity|].
  cbn [str_all]. intros Hs. apply andb_true_iff in Hs as [Hc Hs].
  rewrite (Hpq c Hc), (IH Hs). reflexivity.
Qed.

Lemma upper_hex_digit (n : N) :
  (n < 16)%N -> is_upper_hex (ascii_upper (hex_digit n)) = true.
Proof.
  intros Hn.
  assert (Hcases : In n (map N.of_nat (seq 0 16))).
  { apply in_map_iff. exists (N.to_nat n). split; [lia|]. apply in_seq. lia. }
  cbn in Hcases.
  repeat (destruct Hcases as [<-|Hcases]; [reflexivity|]). destruct Hcases.
Qed.

Lemma byte_digits_bound (b : byte) :
  (Byte.to_N b / 16 < 16)%N /\ (Byte.to_N b mod 16 < 16)%N.
Proof.
  pose proof (Byte.to_N_bounded b) as Hb. split.
  - apply N.Div0.div_lt_upper_bound. lia.
  - apply N.mod_lt. lia.
Qed.

(** The uppercased digits of [hex()], cut at any length, are upper-case
    hexadecimal digits. *)
Lemma upper_hex_prefix (k : nat) (bs : list byte) :
  str_all is_upper_hex (str_upper (str_take k (bytes_hex bs))) = true.
Proof.
  revert k. induction bs as [|b bs IH]; intros k.
  - destruct k; reflexivity.
  - rewrite bytes_hex_cons. destruct (byte_digits_bound b) as [Hh Hl].
    destruct k as [|[|k]]; cbn [str_take str_upper str_all]; [reflexivity| |].
    + rewrite (upper_hex_digit _ Hh). reflexivity.
    + rewrite (upper_hex_digit _ Hh), (upper_hex_digit _ Hl), IH. reflexivity.
Qed.

Lemma str_take_length (n : nat) (s : string) :
  String.length (str_take n s) = Nat.min n (String.length s).
Proof.
  revert s. induction n as [|n IH]; intros [|c s]; cbn [str_take String.length];
    try reflexivity.
  rewrite IH. reflexivity.
Qed.

Lemma str_length_app (s t : string) :
  String.length (s ++ t) = (String.length s + String.length t)%nat.
Proof.
  induction s as [|c s IH]; [reflexivity|].
  rewrite append_cons. cbn [String.length]. rewrite IH. reflexivity.
Qed.

Lemma str_upper_length (s : string) : String.length (str_upper s) = String.length s.
Proof. induction s as [|c s IH]; [reflexivity|]. cbn. rewrite IH. reflexivity. Qed.

Lemma upper_hex_prefix_length (bs : list byte) :
  (6 <= length bs)%nat ->
  String.length (str_upper (str_take 12 (bytes_hex bs))) = 12%nat.
Proof.
  intros Hlen. rewrite str_upper_length, str_take_length, bytes_hex_length. lia.
Qed.

(** A text without [=] holds no marker. *)
Lemma contains_marker_needs_equals (s : string) :
  str_all (fun c => negb (Ascii.eqb "=" c)) s = true ->
  PyStr.contains "id=" s = false.
Proof.
  induction s as [|c s IH]; [reflexivity|].
  cbn [str_all]. intros Hs. apply andb_true_iff in Hs as [_ Hs].
  rewrite contains_cons, (IH Hs), orb_false_r.
  destruct s as [|c2 [|c3 t]].
  - change (Ascii.eqb "i" c && false = false). apply andb_false_r.
  - change (Ascii.eqb "i" c && (Ascii.eqb "d" c2 && false) = false).
    rewrite andb_false_r. apply andb_false_r.
  - cbn [str_all] in Hs. apply andb_true_iff in Hs as [_ Hs].
    apply andb_true_iff in Hs as [H3 _]. apply negb_true_iff in H3.
    change (Ascii.eqb "i" c && (Ascii.eqb "d" c2 && (Ascii.eqb "=" c3 && true)) = false).
    rewrite H3. cbn [andb]. rewrite andb_false_r. apply andb_false_r.
Qed.

(** A prefix without [i] adds no occurrence of the marker. *)
Lemma contains_marker_prefix (pre s : string) :
  str_all (fun c => negb (Ascii.eqb "i" c)) pre = true ->
  PyStr.contains "id=" (pre ++ s) = PyStr.contains "id=" s.
Proof.
  induction pre as [|c pre IH]; [reflexivity|].
  cbn [str_all]. intros Hp. apply andb_true_iff in Hp as [Hc Hp].
  apply negb_true_iff in Hc.
  rewrite append_cons, contains_cons, (IH Hp).
  change (PyStr.startswith (String c (pre ++ s)) "id=")
    with (Ascii.eqb "i" c && PyStr.startswith (pre ++ s) "d=").
  rewrite Hc. reflexivity.
Qed.

(** A suffix without [=] adds no occurrence of the marker. *)
Lemma contains_marker_suffix (s suf : string) :
  str_all (fun c => negb (Ascii.eqb "=" c)) suf = true ->
  PyStr.contains "id=" (s ++ suf) = PyStr.contains "id=" s.
Proof.
  intros Hsuf. induction s as [|c s IH].
  - change (EmptyString ++ suf) with suf.
    rewrite (contains_marker_needs_equals suf Hsuf). reflexivity.
  - rewrite append_cons, !contains_cons, IH. f_equal.
    destruct s as [|c2 [|c3 t]].
    + change (EmptyString ++ suf) with suf.
      change (PyStr.startswith (String c EmptyString) "id=")
        with (Ascii.eqb "i" c && false).
      rewrite andb_false_r.
      destruct suf as [|d1 [|d2 suf]].
      * change (Ascii.eqb "i" c && false = false). apply andb_false_r.
      * change (Ascii.eqb "i" c && (Ascii.eqb "d" d1 && false) = false).
        rewrite andb_false_r. apply andb_false_r.
      * cbn [str_all] in Hsuf. apply andb_true_iff in Hsuf as [_ Hsuf].
        apply andb_true_iff in Hsuf as [H2 _]. apply negb_true_iff in H2.
        change (Ascii.eqb "i" c && (Ascii.eqb "d" d1 && (Ascii.eqb "=" d2 && true))
                = false).
        rewrite H2. cbn [andb]. rewrite andb_false_r. apply andb_false_r.
    + rewrite append_cons. change (EmptyString ++ suf) with suf.
      change (PyStr.startswith (String c (String c2 EmptyString)) "id=")
        with (Ascii.eqb "i" c && (Ascii.eqb "d" c2 && false)).
      rewrite !andb_false_r.
      destruct suf as [|d1 suf].
      * change (Ascii.eqb "i" c && (Ascii.eqb "d" c2 && false) = false).
        rewrite andb_false_r. apply andb_false_r.
      * cbn [str_all] in Hsuf. apply andb_true_iff in Hsuf as [H1 _].
        apply negb_true_iff in H1.
        change (Ascii.eqb "i" c && (Ascii.eqb "d" c2 && (Ascii.eqb "=" d1 && true))
                = false).
        rewrite H1. cbn [andb]. rewrite andb_false_r. apply andb_false_r.
    + rewrite !append_cons. reflexivity.
Qed.

Lemma upper_hex_no_equals (s : string) :
  str_all is_upper_hex s = true ->
  str_all (fun c => negb (Ascii.eqb "=" c)) s = true.
Proof.
  apply str_all_impl. intros c Hc.
  destruct (Ascii.eqb_spec "=" c) as [<-|_]; [discriminate Hc | reflexivity].
Qed.

(** An identifier of the issued form contains the marker exactly when its
    batch code does. *)
Lemma cert_id_marker (batch_code cert_hex : string) :
  str_all is_upper_hex cert_hex = true ->
  PyStr.contains "id=" ("CERT-" ++ batch_code ++ "-" ++ cert_hex)
  = PyStr.contains "id=" batch_code.
Proof.
  intros Hhex.
  rewrite (contains_marker_prefix "CERT-") by reflexivity.
  apply contains_marker_suffix.
  change ("-" ++ cert_hex) with (String "-" cert_hex).
  cbn [str_all]. rewrite (upper_hex_no_equals cert_hex Hhex). reflexivity.
Qed.

(** An identifier of the issued form reads back from its QR URL when the
    batch code holds no marker. *)
Lemma issued_form_roundtrip (batch_code cert_hex : string) :
  str_all is_upper_hex cert_hex = true ->
  PyStr.contains "id=" batch_code = false ->
  extract_cert_id (qr_url ("CERT-" ++ batch_code ++ "-" ++ cert_hex))
  = Ok (Some ("CERT-" ++ batch_code ++ "-" ++ cert_hex)).
Proof.
  intros Hhex Hin.
  pose proof (cert_id_marker batch_code cert_hex Hhex) as Hmark. rewrite Hin in Hmark.
  unfold extract_cert_id. rewrite qr_url_contains_marker.
  unfold PyStr.split. rewrite qr_url_split, (split_go_no_sep "id=" EmptyString _ Hmark).
  reflexivity.
Qed.

(** With a marker in the batch code, what is read back is a strictly shorter
    text that still starts with [C]. *)
Lemma issued_form_truncated (batch_code cert_hex : string) :
  str_all is_upper_hex cert_hex = true ->
  PyStr.contains "id=" batch_code = true ->
  exists x : string,
    extract_cert_id (qr_url ("CERT-" ++ batch_code ++ "-" ++ cert_hex))
    = Ok (Some (String "C" x))
    /\ (String.length (String "C" x)
        < String.length ("CERT-" ++ batch_code ++ "-" ++ cert_hex))%nat.
Proof.
  intros Hhex Hin.
  pose proof (cert_id_marker batch_code cert_hex Hhex) as Hmark. rewrite Hin in Hmark.
  set (tail := "ERT-" ++ batch_code ++ "-" ++ cert_hex).
  assert (Hcert : "CERT-" ++ batch_code ++ "-" ++ cert_hex = String "C" tail)
    by reflexivity.
  rewrite Hcert in *.
  assert (Hrest : PyStr.contains "id=" tail = true).
  { rewrite contains_cons in Hmark.
    change (PyStr.startswith (String "C" tail) "id=") with false in Hmark.
    exact Hmark. }
  destruct (split_go_first_piece "i" "d=" "C" tail Hrest) as (x & y & tl & Heq & Hlen).
  exists x. split; [|cbn [String.length]; lia].
  unfold extract_cert_id. rewrite qr_url_contains_marker.
  unfold PyStr.split. rewrite qr_url_split.
  change (PyStr.split_go "id=" 0 EmptyString (String "C" tail))
    with (PyStr.split_go "id=" 0 "C" tail).
  rewrite Heq, second_piece. reflexivity.
Qed.

Context `{Secrets}.

(** X10. Under the library contracts, a generated bundle has an identifier
    [CERT-<batch>-] followed by twelve upper-case hexadecimal digits, a serial
    number [SK-] followed by twelve such digits, and two keys of 16 bytes; the
    identifier is 18 characters longer than the batch code. *)
Theorem generate_secret_bundle_format (batch_code : string) (g : rng) :
  secrets_contract ->
  exists cert_hex serial_hex : string,
    cert_id (fst (generate_secret_bundle batch_code g))
    = "CERT-" ++ batch_code ++ "-" ++ cert_hex
    /\ String.length cert_hex = 12%nat
    /\ str_all is_upper_hex cert_hex = true
    /\ serial_number (fst (generate_secret_bundle batch_code g)) = "SK-" ++ serial_hex
    /\ String.length serial_hex = 12%nat
    /\ str_all is_upper_hex serial_hex = true
    /\ length (guilloche_id (fst (generate_secret_bundle batch_code g))) = 16%nat
    /\ length (border_id (fst (generate_secret_bundle batch_code g))) = 16%nat
    /\ String.length (cert_id (fst (generate_secret_bundle batch_code g)))
       = (String.length batch_code + 18)%nat.
Proof.
  intros [Htok Hsha]. unfold generate_secret_bundle.
  pose proof (Htok 16%nat g) as H1.
  destruct (token_bytes 16 g) as [cert_random g1]; cbn [fst] in H1.
  pose proof (Htok 16%nat g1) as H2.
  destruct (token_bytes 16 g1) as [guilloche_secret g2]; cbn [fst] in H2.
  pose proof (Htok 16%nat g2) as H3.
  destruct (token_bytes 16 g2) as [border_secret g3]; cbn [fst] in H3.
  pose proof (Htok 6%nat g3) as H4.
  destruct (token_bytes 6 g3) as [serial_random g4]; cbn [fst] in H4.
  cbn [fst cert_id serial_number guilloche_id border_id].
  eexists. eexists. split; [reflexivity|].
  assert (Hc12 : String.length (str_upper (str_take 12 (bytes_hex (sha256_digest cert_random))))
                 = 12%nat).
  { apply upper_hex_prefix_length. rewrite Hsha. lia. }
  split; [exact Hc12|].
  split; [apply upper_hex_prefix|]. split; [reflexivity|].
  split; [apply upper_hex_prefix_length; lia|].
  split; [apply upper_hex_prefix|]. split; [exact H2|]. split; [exact H3|].
  rewrite !str_length_app, Hc12. cbn [String.length]. lia.
Qed.

(** The identifier of a generated bundle, whatever the libraries return. *)
Lemma generated_cert_id_form (batch_code : string) (g : rng) :
  exists cert_hex : string,
    cert_id (fst (generate_secret_bundle batch_code g))
    = "CERT-" ++ batch_code ++ "-" ++ cert_hex
    /\ str_all is_upper_hex cert_hex = true.
Proof.
  unfold generate_secret_bundle.
  destruct (token_bytes 16 g) as [cert_random g1].
  destruct (token_bytes 16 g1) as [guilloche_secret g2].
  destruct (token_bytes 16 g2) as [border_secret g3].
  destruct (token_bytes 6 g3) as [serial_random g4].
  cbn [fst cert_id]. eexists. split; [reflexivity | apply upper_hex_prefix].
Qed.

(** X11. The QR code of a generated bundle reads back as the bundle's
    identifier exactly when the batch code does not contain [id=]; with a
    batch code that contains it, a strictly shorter, non-empty text is read. *)
Theorem generated_cert_id_roundtrip (batch_code : string) (g : rng) :
  let cert := cert_id (fst (generate_secret_bundle batch_code g)) in
  (extract_cert_id (qr_url cert) = Ok (Some cert)
   <-> PyStr.contains "id=" batch_code = false)
  /\ (PyStr.contains "id=" batch_code = true ->
      exists x : string,
        extract_cert_id (qr_url cert) = Ok (Some x)
        /\ x <> EmptyString
        /\ (String.length x < String.length cert)%nat).
Proof.
  cbv zeta.
  destruct (generated_cert_id_form batch_code g) as (cert_hex & -> & Hhex).
  destruct (PyStr.contains "id=" batch_code) eqn:Hin.
  - destruct (issued_form_truncated batch_code cert_hex Hhex Hin)
      as (x & Hx & Hlen).
    split.
    + split; [|discriminate]. rewrite Hx. intros Heq.
      assert (Hsame : String "C" x = "CERT-" ++ batch_code ++ "-" ++ cert_hex)
        by congruence.
      rewrite Hsame in Hlen. lia.
    + intros _. exists (String "C" x). split; [exact Hx|].
      split; [discriminate | exact Hlen].
  - rewrite (issued_form_roundtrip batch_code cert_hex Hhex Hin).
    split; [split; reflexivity | discriminate].
Qed.

End IssuanceFacts.

(* ===================================================================== *)
(** ** From issuance to scan *)
(* ===================================================================== *)

Section IssueThenScan.

Context `{Secrets} {Image : Type} `{Imaging Image}.

(** What the analyzer reports when the QR detector's [try] block returned a
    non-empty identifier. *)
Lemma analyze_tag_image_cert (image : Image) (ch : ascii) (c : string) :
  detect_qr_code_body image = Ok (Some (String ch c)) ->
  exists a : AnalysisResult,
    analyze_tag_image image = Ok a
    /\ qr_detected a = true
    /\ qr_cert_id a = Some (String ch c)
    /\ extracted_cert_id a = Some (String ch c).
Proof.
  intros Hbody. rewrite analyze_tag_image_ok, Hbody. cbv zeta.
  eexists. split; [reflexivity|]. repeat split.
Qed.

Lemma scan_first_marker (image : Image) (img_array : ndarray)
    (before : list (list byte)) (obj : list byte) (rest : list (list byte))
    (s x : string) :
  np_array image = Ok img_array ->
  pyzbar_decode img_array = Ok (before ++ obj :: rest) ->
  Forall (fun o => exists t, bytes_decode_utf8 o = Ok t
                             /\ PyStr.contains "id=" t = false) before ->
  bytes_decode_utf8 obj = Ok s ->
  extract_cert_id s = Ok (Some x) ->
  detect_qr_code_body image = Ok (Some x).
Proof.
  intros Harr Hdec Hbefore Hobj Hx.
  rewrite (detect_qr_code_body_scan image img_array _ Harr Hdec),
    (scan_decoded_skip before (obj :: rest) Hbefore).
  cbn [scan_decoded]. rewrite Hobj. cbn. rewrite Hx. reflexivity.
Qed.

(** X12. A tag issued with a batch code that does not contain [id=], stored
    by the generate button, and scanned from an image whose first
    marker-bearing QR payload is the tag's URL, is never judged COUNTERFEIT
    or SCAN_FAILED: the analyzer reports the tag's identifier, the registry
    holds its record, and the verdict is AUTHENTIC when all layers were found
    and SUSPICIOUS otherwise. *)
Theorem issued_tag_is_recognised (batch_code now : string) (g g' : rng)
    (db db' : gmap string RegistryRecord) (bundle : SecretBundle)
    (image : Image) (img_array : ndarray)
    (before : list (list byte)) (obj : list byte) (rest : list (list byte)) :
  tab1_generate batch_code now g db = (bundle, g', db') ->
  PyStr.contains "id=" batch_code = false ->
  np_array image = Ok img_array ->
  pyzbar_decode img_array = Ok (before ++ obj :: rest) ->
  Forall (fun o => exists t, bytes_decode_utf8 o = Ok t
                             /\ PyStr.contains "id=" t = false) before ->
  bytes_decode_utf8 obj = Ok (qr_url (cert_id bundle)) ->
  exists a : AnalysisResult,
    analyze_tag_image image = Ok a
    /\ qr_cert_id a = Some (cert_id bundle)
    /\ verify_tag_in_db (cert_id bundle) db' = Some (registry_record bundle batch_code now)
    /\ tab2_verdict a db' = (if overall_valid a then AUTHENTIC else SUSPICIOUS).
Proof.
  intros Hgen Hin Harr Hdec Hbefore Hobj.
  unfold tab1_generate in Hgen.
  destruct (generated_cert_id_form batch_code g) as (cert_hex & Hform & Hhex).
  destruct (generate_secret_bundle batch_code g) as [b g1]. cbn [fst] in Hform.
  injection Hgen as -> -> <-.
  pose proof (issued_form_roundtrip batch_code cert_hex Hhex Hin) as Hx.
  rewrite <- Hform in Hx.
  assert (Hne : exists ch c, cert_id bundle = String ch c).
  { rewrite Hform. eexists. eexists. reflexivity. }
  destruct Hne as (ch & c & Hcert).
  pose proof (scan_first_marker image img_array before obj rest _ _
                Harr Hdec Hbefore Hobj Hx) as Hbody.
  rewrite Hcert in Hbody.
  destruct (analyze_tag_image_cert image ch c Hbody) as (a & Ha & _ & Hid & Hext).
  exists a. rewrite Hcert. split; [exact Ha|]. split; [exact Hid|].
  rewrite <- Hcert.
  split; [apply store_tag_in_db_lookup|].
  rewrite tab2_verdict_table, registry_lookup_store, Hext, Hcert.
  rewrite decide_True by reflexivity. reflexivity.
Qed.

(** X13. A tag issued in a fresh session with a batch code that contains
    [id=] is judged COUNTERFEIT when its own QR code is scanned: the
    identifier read back is cut at the marker and is not the key the record
    was stored under. *)
Theorem marker_in_batch_code_is_counterfeit (batch_code now : string) (g g' : rng)
    (db' : gmap string RegistryRecord) (bundle : SecretBundle)
    (image : Image) (img_array : ndarray)
    (before : list (list byte)) (obj : list byte) (rest : list (list byte)) :
  tab1_generate batch_code now g ∅ = (bundle, g', db') ->
  PyStr.contains "id=" batch_code = true ->
  np_array image = Ok img_array ->
  pyzbar_decode img_array = Ok (before ++ obj :: rest) ->
  Forall (fun o => exists t, bytes_decode_utf8 o = Ok t
                             /\ PyStr.contains "id=" t = false) before ->
  bytes_decode_utf8 obj = Ok (qr_url (cert_id bundle)) ->
  verify_tag_in_db (cert_id bundle) db' = Some (registry_record bundle batch_code now)
  /\ exists (a : AnalysisResult) (x : string),
       analyze_tag_image image = Ok a
       /\ qr_cert_id a = Some x
       /\ x <> cert_id bundle
       /\ tab2_verdict a db' = COUNTERFEIT.
Proof.
  intros Hgen Hin Harr Hdec Hbefore Hobj.
  unfold tab1_generate in Hgen.
  destruct (generated_cert_id_form batch_code g) as (cert_hex & Hform & Hhex).
  destruct (generate_secret_bundle batch_code g) as [b g1]. cbn [fst] in Hform.
  injection Hgen as -> -> <-.
  split; [apply store_tag_in_db_lookup|].
  destruct (issued_form_truncated batch_code cert_hex Hhex Hin) as (x & Hx & Hlen).
  rewrite <- Hform in Hx, Hlen.
  pose proof (scan_first_marker image img_array before obj rest _ _
                Harr Hdec Hbefore Hobj Hx) as Hbody.
  destruct (analyze_tag_image_cert image _ x Hbody) as (a & Ha & _ & Hid & Hext).
  assert (Hne : String "C" x <> cert_id bundle).
  { intros Heq. rewrite Heq in Hlen. lia. }
  exists a, (String "C" x). split; [exact Ha|]. split; [exact Hid|].
  split; [exact Hne|].
  rewrite tab2_verdict_table, registry_lookup_store, Hext.
  rewrite decide_False by (intros Heq; apply Hne; symmetry; exact Heq).
  rewrite lookup_empty. reflexivity.
Qed.

End IssueThenScan.

(* ===================================================================== *)
(** ** Placement of the QR code, the grid and the corner marks *)
(* ===================================================================== *)

Section PlacementFacts.

Local Open Scope Z_scope.

(** Truncating a non-negative float that is at most [n] gives an integer
    between 0 and [n]. *)
Lemma fl_to_int_bounds (x : float64) (n : Z) :
  0 <= mant x -> fl_leb x (Float n 0) = true -> 0 <= fl_to_int x <= n.
Proof.
  destruct x as [m e]. unfold fl_leb, fl_to_int, align; cbn [mant expo].
  intros Hm Hle. apply Z.leb_le in Hle.
  destruct (0 <=? e) eqn:He.
  - apply Z.leb_le in He. rewrite Z.min_r in Hle by lia.
    rewrite !Z.sub_0_r in Hle. change (2 ^ 0) with 1 in Hle.
    assert (0 < 2 ^ e) by (apply Z.pow_pos_nonneg; lia). nia.
  - apply Z.leb_gt in He. rewrite Z.min_l in Hle by lia.
    rewrite Z.sub_diag in Hle. change (2 ^ 0) with 1 in Hle.
    replace (0 - e) with (- e) in Hle by lia.
    assert (Hp : 0 < 2 ^ (- e)) by (apply Z.pow_pos_nonneg; lia).
    rewrite Z.quot_div_nonneg by lia. split.
    + apply Z.div_pos; lia.
    + apply Z.div_le_upper_bound; lia.
Qed.

(** [qr_percentage / 100] is a float between 0 and 1 for every percentage
    from 0 to 100. *)
Lemma percent_fraction (qr_percentage : Z) :
  0 <= qr_percentage <= 100 ->
  fl_leb (int_truediv qr_percentage 100) one = true
  /\ 0 <= mant (int_truediv qr_percentage 100).
Proof.
  intros Hp.
  assert (Hall : forallb (fun p => fl_leb (int_truediv p 100) one
                                   && (0 <=? mant (int_truediv p 100)))
                         (map Z.of_nat (seq 0 101)) = true)
    by (vm_compute; reflexivity).
  rewrite forallb_forall in Hall.
  specialize (Hall qr_percentage).
  destruct (andb_prop _ _ (Hall ltac:(apply in_map_iff; exists (Z.to_nat qr_percentage);
                                      split; [lia | apply in_seq; lia]))) as [H1 H2].
  split; [exact H1 | apply Z.leb_le; exact H2].
Qed.

(** X14. For a percentage from 0 to 100 the QR image fits the canvas and is
    centred: its size is between 0 and the canvas size, the paste offset is
    not negative, the pasted image ends within the canvas, and the margin
    after it exceeds the margin before it by at most one pixel. *)
Theorem qr_layer_placement (canvas_size qr_percentage : Z) :
  0 <= canvas_size < 2 ^ 31 ->
  0 <= qr_percentage <= 100 ->
  0 <= target_size canvas_size qr_percentage <= canvas_size
  /\ 0 <= paste_x canvas_size qr_percentage
  /\ paste_x canvas_size qr_percentage + target_size canvas_size qr_percentage
     <= canvas_size
  /\ 0 <= (canvas_size - target_size canvas_size qr_percentage
           - paste_x canvas_size qr_percentage)
          - paste_x canvas_size qr_percentage <= 1.
Proof.
  intros Hc Hp. destruct (percent_fraction qr_percentage Hp) as [Hle Hpos].
  assert (Ht : 0 <= target_size canvas_size qr_percentage <= canvas_size).
  { unfold target_size. apply fl_to_int_bounds.
    - unfold fl_mul, fl_of_int; cbn [mant expo].
      rewrite (rnd_exact canvas_size) by lia. apply rnd_ge0. nia.
    - assert (Hx : fl_of_int canvas_size = Float canvas_size 0).
      { unfold fl_of_int. rewrite rnd_exact by lia. reflexivity. }
      rewrite Hx. apply fl_mul_le_one; cbn [mant]; try assumption; try lia.
      apply R53_small. lia. }
  unfold paste_x. split; [exact Ht|].
  Z.div_mod_to_equations. lia.
Qed.

(** The check of [target_size_close] over all slider positions. *)
Lemma target_size_close_sliders :
  forallb (fun c => forallb (target_size_close c) slider_percentages)
          slider_resolutions = true.
Proof. vm_compute. reflexivity. Qed.

(** X15. For every position of the two sliders (resolution 800 to 1600, QR
    size 70 to 90 percent) the QR size is the exact
    [canvas_size * qr_percentage // 100] or one pixel less, never more; the
    loss of a pixel does occur, for instance at 1200 pixels and 82 percent. *)
Theorem target_size_on_sliders (canvas_size qr_percentage : Z) :
  800 <= canvas_size <= 1600 ->
  70 <= qr_percentage <= 90 ->
  canvas_size * qr_percentage / 100 - 1 <= target_size canvas_size qr_percentage
    <= canvas_size * qr_percentage / 100
  /\ target_size 1200 82 = 1200 * 82 / 100 - 1
  /\ target_size 1200 75 = 1200 * 75 / 100.
Proof.
  intros Hc Hp.
  pose proof target_size_close_sliders as Hall.
  rewrite forallb_forall in Hall.
  assert (Hcin : In canvas_size slider_resolutions).
  { apply in_map_iff. exists (Z.to_nat (canvas_size - 800)).
    split; [lia | apply in_seq; lia]. }
  assert (Hpin : In qr_percentage slider_percentages).
  { apply in_map_iff. exists (Z.to_nat (qr_percentage - 70)).
    split; [lia | apply in_seq; lia]. }
  specialize (Hall canvas_size Hcin). rewrite forallb_forall in Hall.
  specialize (Hall qr_percentage Hpin). unfold target_size_close in Hall.
  apply andb_true_iff in Hall as [Hlo Hhi].
  apply Z.leb_le in Hlo, Hhi.
  split; [lia|]. split; vm_compute; reflexivity.
Qed.

(** The items of a range: the multiples of the step, from the start up to
    but not including the stop. *)
Lemma range_from_In (fuel : nat) (x stop step y : Z) :
  0 < step ->
  stop - x <= Z.of_nat fuel * step ->
  In y (range_from fuel x stop step) <-> (x <= y < stop /\ (y - x) mod step = 0).
Proof.
  intros Hstep. revert x. induction fuel as [|fuel IH]; intros x Hfuel.
  - cbn [range_from In]. split; [contradiction | lia].
  - cbn [range_from]. destruct (x <? stop) eqn:Hlt.
    + apply Z.ltb_lt in Hlt. cbn [In]. rewrite IH by lia. split.
      * intros [<-|[Hy Hmod]].
        -- split; [lia|]. rewrite Z.sub_diag. apply Z.mod_0_l. lia.
        -- split; [lia|].
           replace (y - x) with (y - (x + step) + 1 * step) by lia.
           rewrite Z.mod_add by lia. exact Hmod.
      * intros [Hy Hmod].
        destruct (Z.eq_dec x y) as [Heq|Hne]; [left; exact Heq | right].
        apply Z.mod_divide in Hmod; [|lia]. destruct Hmod as [k Hk].
        assert (1 <= k) by nia.
        split; [nia|].
        replace (y - (x + step)) with ((k - 1) * step) by lia.
        apply Z.mod_mul. lia.
    + apply Z.ltb_ge in Hlt. cbn [In]. split; [contradiction | lia].
Qed.

Lemma range_from_length (fuel : nat) (x stop step : Z) :
  0 < step ->
  stop - x <= Z.of_nat fuel * step ->
  length (range_from fuel x stop step) = Z.to_nat ((stop - x + step - 1) / step).
Proof.
  intros Hstep. revert x. induction fuel as [|fuel IH]; intros x Hfuel.
  - cbn [range_from length].
    assert ((stop - x + step - 1) / step <= 0).
    { apply Z.lt_succ_r. apply Z.div_lt_upper_bound; lia. }
    lia.
  - cbn [range_from]. destruct (x <? stop) eqn:Hlt.
    + apply Z.ltb_lt in Hlt. cbn [length]. rewrite IH by lia.
      replace (stop - x + step - 1) with (stop - (x + step) + step - 1 + 1 * step) by lia.
      rewrite Z.div_add by lia.
      assert (0 <= (stop - (x + step) + step - 1) / step) by (apply Z.div_pos; lia).
      lia.
    + apply Z.ltb_ge in Hlt. cbn [length].
      assert ((stop - x + step - 1) / step <= 0).
      { apply Z.lt_succ_r. apply Z.div_lt_upper_bound; lia. }
      lia.
Qed.

Lemma py_range0_In (stop y : Z) :
  In y (py_range0 stop SPACING) <-> (0 <= y < stop /\ y mod SPACING = 0).
Proof.
  unfold py_range0, SPACING.
  destruct (Z_lt_le_dec stop 0) as [Hneg|Hpos].
  - replace (Z.to_nat stop) with 0%nat by lia. cbn [range_from In].
    split; [contradiction | lia].
  - rewrite range_from_In by lia. rewrite Z.sub_0_r. reflexivity.
Qed.

Lemma py_range0_length (stop : Z) :
  length (py_range0 stop SPACING) = Z.to_nat ((stop + 63) / 64).
Proof.
  unfold py_range0, SPACING.
  destruct (Z_lt_le_dec stop 0) as [Hneg|Hpos].
  - replace (Z.to_nat stop) with 0%nat by lia. cbn [range_from length].
    assert ((stop + 63) / 64 <= 0).
    { apply Z.lt_succ_r. apply Z.div_lt_upper_bound; lia. }
    lia.
  - rewrite range_from_length by lia. f_equal. f_equal. lia.
Qed.

(** X16. The grid layer draws a vertical and a horizontal line at every
    multiple of 64 below the canvas size and nowhere else, each across the
    whole canvas: [(canvas_size + 63) // 64] lines per direction, all with
    both end points on the canvas. *)
Theorem grid_layer_lines (canvas_size : Z) :
  (forall ln : (Z * Z) * (Z * Z),
     In ln (grid_lines canvas_size)
     <-> exists t : Z,
           0 <= t < canvas_size /\ t mod 64 = 0
           /\ (ln = ((t, 0), (t, canvas_size)) \/ ln = ((0, t), (canvas_size, t))))
  /\ length (grid_lines canvas_size) = (2 * Z.to_nat ((canvas_size + 63) / 64))%nat
  /\ Forall (line_on_canvas canvas_size) (grid_lines canvas_size).
Proof.
  assert (Hin : forall ln : (Z * Z) * (Z * Z),
     In ln (grid_lines canvas_size)
     <-> exists t : Z,
           0 <= t < canvas_size /\ t mod 64 = 0
           /\ (ln = ((t, 0), (t, canvas_size)) \/ ln = ((0, t), (canvas_size, t)))).
  { intros ln. unfold grid_lines. rewrite in_app_iff, !in_map_iff. split.
    - intros [(t & <- & Ht)|(t & <- & Ht)]; apply py_range0_In in Ht;
        exists t; (split; [apply Ht|]); (split; [apply Ht|]); [left | right]; reflexivity.
    - intros (t & Ht & Hmod & [->| ->]); [left | right];
        exists t; (split; [reflexivity|]); apply py_range0_In; split; assumption. }
  split; [exact Hin|]. split.
  - unfold grid_lines. rewrite length_app, !length_map, py_range0_length. lia.
  - apply List.Forall_forall. intros ln Hln. apply Hin in Hln.
    destruct Hln as (t & Ht & _ & [->| ->]);
      unfold line_on_canvas, on_canvas; cbn [fst snd]; lia.
Qed.


End PlacementFacts.

(* ===================================================================== *)
(** ** Order and rounding on signed floats *)
(* ===================================================================== *)

Section FloatOrder.

Local Open Scope Z_scope.

Lemma rnd_mono (P1 P2 : Z) : P1 <= P2 -> rnd P1 <= rnd P2.
Proof.
  intros Hle. unfold rnd.
  destruct (Z_lt_le_dec P1 0) as [H1|H1], (Z_lt_le_dec P2 0) as [H2|H2].
  - rewrite !Z.sgn_neg, !Z.abs_neq by lia.
    pose proof (R53_mono (- P2) (- P1)). lia.
  - rewrite (Z.sgn_neg P1), (Z.abs_neq P1) by lia.
    pose proof (R53_nonneg (- P1)). pose proof (rnd_ge0 P2 H2) as Hr.
    unfold rnd in Hr. lia.
  - lia.
  - pose proof (rnd_nonneg P1 H1) as E1. pose proof (rnd_nonneg P2 H2) as E2.
    unfold rnd in E1, E2. rewrite E1, E2. apply R53_mono; lia.
Qed.

Lemma rnd_scale (P k : Z) : 0 <= k -> rnd (P * 2 ^ k) = rnd P * 2 ^ k.
Proof.
  intros Hk. unfold rnd.
  assert (Hp : 0 < 2 ^ k) by (apply Z.pow_pos_nonneg; lia).
  rewrite Z.sgn_mul, (Z.sgn_pos (2 ^ k)), Z.mul_1_r by lia.
  rewrite Z.abs_mul, (Z.abs_eq (2 ^ k)) by lia.
  rewrite R53_scale by lia. ring.
Qed.

Lemma rnd_small (P : Z) : - 2 ^ 53 < P < 2 ^ 53 -> rnd P = P.
Proof.
  intros HP. unfold rnd. rewrite R53_small by lia.
  destruct (Z_lt_le_dec P 0).
  - rewrite Z.sgn_neg, Z.abs_neq by lia. lia.
  - destruct (Z.eq_dec P 0) as [->|]; [reflexivity|].
    rewrite Z.sgn_pos, Z.abs_eq by lia. lia.
Qed.

Lemma leb_scale (a b c : Z) : 0 < c -> (a * c <=? b * c) = (a <=? b).
Proof.
  intros Hc. destruct (Z.leb_spec a b), (Z.leb_spec (a * c) (b * c));
    try reflexivity; nia.
Qed.

Lemma ltb_scale (a b c : Z) : 0 < c -> (a * c <? b * c) = (a <? b).
Proof.
  intros Hc. destruct (Z.ltb_spec a b), (Z.ltb_spec (a * c) (b * c));
    try reflexivity; nia.
Qed.

(** The mantissa at a smaller exponent. *)
Lemma align_change (x : float64) (e e' : Z) :
  e' <= e -> e <= expo x -> align x e' = align x e * 2 ^ (e - e').
Proof.
  intros H1 H2. unfold align.
  rewrite <- Z.mul_assoc, <- Z.pow_add_r by lia. do 2 f_equal. lia.
Qed.

(** Comparisons may be made at any common exponent. *)
Lemma fl_leb_at (x y : float64) (e : Z) :
  e <= expo x -> e <= expo y -> fl_leb x y = (align x e <=? align y e).
Proof.
  intros Hx Hy. unfold fl_leb.
  rewrite (align_change x (Z.min (expo x) (expo y)) e),
    (align_change y (Z.min (expo x) (expo y)) e) by lia.
  symmetry. apply leb_scale. apply Z.pow_pos_nonneg; lia.
Qed.

Lemma fl_ltb_at (x y : float64) (e : Z) :
  e <= expo x -> e <= expo y -> fl_ltb x y = (align x e <? align y e).
Proof.
  intros Hx Hy. unfold fl_ltb.
  rewrite (align_change x (Z.min (expo x) (expo y)) e),
    (align_change y (Z.min (expo x) (expo y)) e) by lia.
  symmetry. apply ltb_scale. apply Z.pow_pos_nonneg; lia.
Qed.

Lemma align_fl_add (x y : float64) (e : Z) :
  e <= expo x -> e <= expo y ->
  align (fl_add x y) e = rnd (align x e + align y e).
Proof.
  intros Hx Hy. unfold fl_add.
  set (e0 := Z.min (expo x) (expo y)).
  unfold align at 1; cbn [mant expo].
  rewrite <- rnd_scale by lia. f_equal.
  rewrite (align_change x e0 e), (align_change y e0 e) by lia. ring.
Qed.

Lemma align_fl_mul (x y : float64) (e : Z) :
  e <= expo x + expo y ->
  align (fl_mul x y) e = rnd (mant x * mant y * 2 ^ (expo x + expo y - e)).
Proof.
  intros He. unfold fl_mul, align; cbn [mant expo].
  rewrite <- rnd_scale by lia. reflexivity.
Qed.

Lemma fl_leb_refl (x : float64) : fl_leb x x = true.
Proof. unfold fl_leb. apply Z.leb_le. lia. Qed.

Lemma fl_leb_trans (x y z : float64) :
  fl_leb x y = true -> fl_leb y z = true -> fl_leb x z = true.
Proof.
  set (e := Z.min (expo x) (Z.min (expo y) (expo z))).
  rewrite (fl_leb_at x y e), (fl_leb_at y z e), (fl_leb_at x z e) by lia.
  rewrite !Z.leb_le. lia.
Qed.

Lemma fl_add_mono (x x' y y' : float64) :
  fl_leb x x' = true -> fl_leb y y' = true ->
  fl_leb (fl_add x y) (fl_add x' y') = true.
Proof.
  set (e := Z.min (Z.min (expo x) (expo x')) (Z.min (expo y) (expo y'))).
  rewrite (fl_leb_at x x' e), (fl_leb_at y y' e) by lia.
  rewrite (fl_leb_at (fl_add x y) (fl_add x' y') e) by (cbn [fl_add expo]; lia).
  rewrite !align_fl_add by lia. rewrite !Z.leb_le. intros H1 H2.
  apply rnd_mono. lia.
Qed.

Lemma fl_mul_mono_l (c x y : float64) :
  0 <= mant c -> fl_leb x y = true -> fl_leb (fl_mul c x) (fl_mul c y) = true.
Proof.
  intros Hc. set (e0 := Z.min (expo x) (expo y)).
  rewrite (fl_leb_at x y e0) by lia.
  rewrite (fl_leb_at (fl_mul c x) (fl_mul c y) (expo c + e0)) by (cbn [fl_mul expo]; lia).
  rewrite !align_fl_mul by lia. unfold align. rewrite !Z.leb_le. intros Hle.
  apply rnd_mono.
  replace (expo c + expo x - (expo c + e0)) with (expo x - e0) by lia.
  replace (expo c + expo y - (expo c + e0)) with (expo y - e0) by lia.
  nia.
Qed.

(** Integers between which a float and a larger float lie are ordered. *)
Lemma fl_between_ints (n L : Z) (d len : float64) :
  fl_leb (Float n 0) d = true -> fl_ltb d len = true ->
  fl_leb len (Float L 0) = true -> n < L.
Proof.
  set (e := Z.min 0 (Z.min (expo d) (expo len))).
  rewrite (fl_leb_at (Float n 0) d e), (fl_ltb_at d len e),
    (fl_leb_at len (Float L 0) e) by (cbn [expo]; lia).
  unfold align at 1 6; cbn [mant expo].
  rewrite !Z.leb_le, Z.ltb_lt. intros H1 H2 H3.
  assert (0 < 2 ^ (0 - e)) by (apply Z.pow_pos_nonneg; lia). nia.
Qed.

(** A float above a non-negative one is not zero. *)
Lemma fl_above_nonneg (d len : float64) :
  fl_leb zero d = true -> fl_ltb d len = true -> mant len <> 0.
Proof.
  set (e := Z.min 0 (Z.min (expo d) (expo len))).
  rewrite (fl_leb_at zero d e), (fl_ltb_at d len e) by (cbn [expo zero]; lia).
  unfold align at 1 4; cbn [mant expo zero].
  rewrite Z.leb_le, Z.ltb_lt. intros H1 H2 Hz. rewrite Hz in H2. lia.
Qed.

Lemma fl_add_ints (n m : Z) :
  - 2 ^ 53 < n + m < 2 ^ 53 -> fl_add (Float n 0) (Float m 0) = Float (n + m) 0.
Proof.
  intros Hb. unfold fl_add, align; cbn [mant expo].
  change (Z.min 0 0) with 0. change (2 ^ (0 - 0)) with 1.
  rewrite !Z.mul_1_r, rnd_small by lia. reflexivity.
Qed.

End FloatOrder.

(* ===================================================================== *)
(** ** The dash walk ends *)
(* ===================================================================== *)

Section BorderTermination.

Local Open Scope Z_scope.

Context `{Libm}.

(** The base length and the extreme sways, for each of the 256 byte values. *)
Lemma dash_base_range (b : byte) :
  (0 <=? mant (dash_base (byte_value b)))
  && fl_leb (Float 14 0) (fl_mul (dash_base (byte_value b)) (dash_sway (Float (-1) 0)))
  && fl_leb (fl_mul (dash_base (byte_value b)) (dash_sway one)) (Float 78 0) = true.
Proof. destruct b; vm_compute; reflexivity. Qed.

Lemma gap_len_of_range (b : byte) :
  fl_leb (Float 12 0) (gap_len_of (byte_value b))
  && fl_leb (gap_len_of (byte_value b)) (Float 22 0) = true.
Proof. destruct b; vm_compute; reflexivity. Qed.

Lemma thickness_of_range (b : byte) :
  (6 <=? thickness_of (byte_value b)) && (thickness_of (byte_value b) <=? 9) = true.
Proof. destruct b; vm_compute; reflexivity. Qed.

Lemma c_0_3_mant_pos : 0 <= mant c_0_3.
Proof. vm_compute. discriminate. Qed.

Lemma dash_sway_mono (s t : float64) :
  fl_leb s t = true -> fl_leb (dash_sway s) (dash_sway t) = true.
Proof.
  intros Hst. unfold dash_sway. apply fl_add_mono; [apply fl_leb_refl|].
  apply fl_mul_mono_l; [apply c_0_3_mant_pos | exact Hst].
Qed.

Lemma dash_len_of_range (b : byte) (d : float64) :
  sin_bounded ->
  fl_leb (Float 14 0) (dash_len_of (byte_value b) d) = true
  /\ fl_leb (dash_len_of (byte_value b) d) (Float 78 0) = true.
Proof.
  intros Hsin. destruct (Hsin (fl_mul d c_0_1)) as [Hlo Hhi].
  pose proof (dash_base_range b) as Hb.
  apply andb_true_iff in Hb as [Hb H78]. apply andb_true_iff in Hb as [Hpos H14].
  apply Z.leb_le in Hpos.
  change (dash_len_of (byte_value b) d)
    with (fl_mul (dash_base (byte_value b)) (dash_sway (math_sin (fl_mul d c_0_1)))).
  split.
  - apply (fl_leb_trans _ _ _ H14).
    apply fl_mul_mono_l; [exact Hpos | apply dash_sway_mono; exact Hlo].
  - refine (fl_leb_trans _ _ _ _ H78).
    apply fl_mul_mono_l; [exact Hpos | apply dash_sway_mono; exact Hhi].
Qed.

(** X18. With a sine between -1 and 1, every dash of the border is between
    14 and 78 pixels long before it is cut at the end of its side, every gap
    between 12 and 22 pixels, and every line thickness between 6 and 9
    pixels, whatever the key and the distance travelled. *)
Theorem dash_parameter_ranges (key : list byte) (seg : Z) (d : float64) :
  sin_bounded ->
  length key = 16%nat ->
  exists (dash_len gap_len : float64) (thickness : Z),
    dash_len_at (byte_params key) seg d = Ok dash_len
    /\ gap_len_at (byte_params key) seg = Ok gap_len
    /\ thickness_at (byte_params key) seg = Ok thickness
    /\ fl_leb (Float 14 0) dash_len = true /\ fl_leb dash_len (Float 78 0) = true
    /\ fl_leb (Float 12 0) gap_len = true /\ fl_leb gap_len (Float 22 0) = true
    /\ 6 <= thickness <= 9.
Proof.
  intros Hsin Hlen.
  destruct (key_byte key (seg mod 16) Hlen) as (b & _ & Hpb);
    [apply Z.mod_pos_bound; lia|].
  destruct (key_byte key ((seg mod 16 + 5) mod 16) Hlen) as (bg & _ & Hpbg);
    [apply Z.mod_pos_bound; lia|].
  exists (dash_len_of (byte_value b) d), (gap_len_of (byte_value bg)),
    (thickness_of (byte_value b)).
  unfold dash_len_at, gap_len_at, thickness_at. rewrite Hpb, Hpbg.
  destruct (dash_len_of_range b d Hsin) as [H14 H78].
  pose proof (gap_len_of_range bg) as Hg. apply andb_true_iff in Hg as [H12 H22].
  pose proof (thickness_of_range b) as Ht. apply andb_true_iff in Ht as [H6 H9].
  apply Z.leb_le in H6, H9.
  repeat split; try assumption; try reflexivity.
Qed.

(** One pass through the loop body, entered with [0 <= n <= dist < length]:
    it raises nothing, advances the segment index, and moves [dist] to at
    least [n + 26]. *)
Lemma dash_iteration_progress (key : list byte) (side : (Z * Z) * (Z * Z))
    (len : float64) (st : WalkState) (n : Z) :
  sin_bounded ->
  length key = 16%nat ->
  0 <= n -> n + 26 < 2 ^ 53 ->
  fl_leb (Float n 0) (dist st) = true ->
  fl_ltb (dist st) len = true ->
  exists st' : WalkState,
    dash_iteration (byte_params key) side len st = Ok st'
    /\ segment st' = segment st + 1
    /\ fl_leb (Float (n + 26) 0) (dist st') = true.
Proof.
  intros Hsin Hlen Hn Hn26 Hdist Hlt.
  destruct side as [[x1 y1] [x2 y2]].
  destruct (key_byte key (segment st mod 16) Hlen) as (b & _ & Hpb);
    [apply Z.mod_pos_bound; lia|].
  destruct (key_byte key ((segment st mod 16 + 5) mod 16) Hlen) as (bg & _ & Hpbg);
    [apply Z.mod_pos_bound; lia|].
  assert (Hzero : fl_leb zero (dist st) = true).
  { refine (fl_leb_trans zero (Float n 0) _ _ Hdist).
    unfold fl_leb, align, zero; cbn [mant expo]. apply Z.leb_le.
    change (Z.min 0 0) with 0. change (2 ^ (0 - 0)) with 1. lia. }
  pose proof (fl_above_nonneg _ _ Hzero Hlt) as Hlen0.
  assert (Halong : forall x1 dx t, exists v, along x1 dx t len = Ok v).
  { intros x dx t. unfold along, fl_div.
    rewrite (proj2 (Z.eqb_neq _ _) Hlen0). eexists. reflexivity. }
  unfold dash_iteration, dash_len_at, gap_len_at, thickness_at.
  rewrite Hpb, Hpbg. cbn [mbind result_bind mret result_ret].
  set (dash_len := dash_len_of (byte_value b) (dist st)).
  set (gap_len := gap_len_of (byte_value bg)).
  set (end_ := fl_min (fl_add (dist st) dash_len) len).
  assert (Hmove : fl_leb (Float (n + 26) 0) (fl_add (dist st) (fl_add dash_len gap_len))
                  = true).
  { destruct (dash_len_of_range b (dist st) Hsin) as [H14 _].
    pose proof (gap_len_of_range bg) as Hg. apply andb_true_iff in Hg as [H12 _].
    rewrite <- (fl_add_ints n 26) by lia.
    apply fl_add_mono; [exact Hdist|].
    change (Float 26 0) with (Float (14 + 12) 0).
    rewrite <- (fl_add_ints 14 12) by lia.
    apply fl_add_mono; assumption. }
  destruct (fl_ltb (dist st) end_).
  - destruct (Halong x1 (x2 - x1) (dist st)) as (sx & ->).
    destruct (Halong y1 (y2 - y1) (dist st)) as (sy & ->).
    destruct (Halong x1 (x2 - x1) end_) as (ex & ->).
    destruct (Halong y1 (y2 - y1) end_) as (ey & ->).
    cbn [mbind result_bind mret result_ret].
    eexists. split; [reflexivity|]. cbn [segment dist]. split; [reflexivity | exact Hmove].
  - cbn [mbind result_bind mret result_ret].
    eexists. split; [reflexivity|]. cbn [segment dist]. split; [reflexivity | exact Hmove].
Qed.

(** The [while] loop of one side ends within the passes its fuel allows when
    26 pixels per pass cover the length of the side. *)
Lemma walk_side_total (fuel : nat) (key : list byte) (side : (Z * Z) * (Z * Z))
    (len : float64) (L : Z) (st : WalkState) (n : Z) :
  sin_bounded ->
  length key = 16%nat ->
  0 <= n -> L < 2 ^ 52 ->
  fl_leb (Float n 0) (dist st) = true ->
  fl_leb len (Float L 0) = true ->
  L - n <= 26 * Z.of_nat fuel ->
  exists st' : WalkState,
    walk_side fuel (byte_params key) side len st = Ok (Some st')
    /\ fl_ltb (dist st') len = false
    /\ segment st <= segment st'
    /\ 26 * (segment st' - segment st) <= Z.max 0 (L - n) + 25.
Proof.
  intros Hsin Hlen. revert st n.
  induction fuel as [|fuel IH]; intros st n Hn HL Hdist HlenL Hfuel.
  - cbn [walk_side]. destruct (fl_ltb (dist st) len) eqn:Hlt.
    + pose proof (fl_between_ints n L _ _ Hdist Hlt HlenL). lia.
    + exists st. split; [reflexivity|]. split; [exact Hlt | lia].
  - cbn [walk_side]. destruct (fl_ltb (dist st) len) eqn:Hlt.
    + pose proof (fl_between_ints n L _ _ Hdist Hlt HlenL) as HnL.
      destruct (dash_iteration_progress key side len st n Hsin Hlen Hn
                  ltac:(lia) Hdist Hlt) as (st1 & Hst1 & Hseg1 & Hdist1).
      rewrite Hst1. cbn [mbind result_bind].
      destruct (IH st1 (n + 26) ltac:(lia) HL Hdist1 HlenL ltac:(lia))
        as (st' & Hrun & Hstop & Hseg & Hcount).
      exists st'. split; [exact Hrun|]. split; [exact Hstop|]. lia.
    + exists st. split; [reflexivity|]. split; [exact Hlt | lia].
Qed.

Lemma walk_sides_total (fuel : nat) (key : list byte)
    (sides : list ((Z * Z) * (Z * Z))) (L seg : Z) (lines : list Dash) :
  sin_bounded ->
  length key = 16%nat ->
  0 <= L < 2 ^ 52 ->
  L <= 26 * Z.of_nat fuel ->
  Forall (fun side => fl_leb (side_length side) (Float L 0) = true) sides ->
  exists (final : Z) (lines' : list Dash),
    walk_sides fuel (byte_params key) sides seg lines = Ok (Some (final, lines'))
    /\ seg <= final
    /\ final - seg <= Z.of_nat (length sides) * ((L + 25) / 26).
Proof.
  intros Hsin Hlen HL Hfuel Hsides. revert seg lines.
  induction Hsides as [|side rest Hside _ IH]; intros seg lines.
  - exists seg, lines. split; [reflexivity|]. cbn [length]. lia.
  - cbn [walk_sides].
    destruct (walk_side_total fuel key side (side_length side) L
                {| dist := zero; segment := seg; drawn := lines |} 0 Hsin Hlen
                ltac:(lia) ltac:(lia) (fl_leb_refl zero) Hside ltac:(lia))
      as (st & Hrun & _ & Hseg & Hcount).
    rewrite Hrun. cbn [mbind result_bind]. cbn [segment] in Hseg, Hcount.
    destruct (IH (segment st) (drawn st)) as (final & lines' & Hrest & Hle & Hcnt).
    exists final, lines'. split; [exact Hrest|]. split; [lia|].
    assert (Hside_count : segment st - seg <= (L + 25) / 26).
    { apply Z.div_le_lower_bound; lia. }
    cbn [length]. lia.
Qed.

(** X19. With a sine between -1 and 1 and sides no longer than [L] pixels,
    the dash walk of a 16-byte key raises nothing and ends: given fuel for
    [L / 26] passes per side it returns the final segment index and the
    lines, and no more than [(L + 25) / 26] dashes are started per side. *)
Theorem border_dashes_terminate (fuel : nat) (key : list byte)
    (canvas_size L : Z) :
  sin_bounded ->
  length key = 16%nat ->
  0 <= L < 2 ^ 31 ->
  L <= 26 * Z.of_nat fuel ->
  Forall (fun side => fl_leb (side_length side) (Float L 0) = true)
         (border_sides canvas_size) ->
  exists (final : Z) (lines : list Dash),
    border_dashes fuel key canvas_size = Ok (Some (final, lines))
    /\ 0 <= final <= 4 * ((L + 25) / 26).
Proof.
  intros Hsin Hlen HL Hfuel Hsides.
  assert (HL52 : 0 <= L < 2 ^ 52).
  { split; [lia|]. apply Z.lt_trans with (2 ^ 31); [lia | reflexivity]. }
  destruct (walk_sides_total fuel key (border_sides canvas_size) L 0 []
              Hsin Hlen HL52 Hfuel Hsides) as (final & lines & Hrun & Hle & Hcnt).
  exists final, lines. split; [exact Hrun|].
  split; [lia|].
  unfold border_sides in Hcnt. cbn [length] in Hcnt. lia.
Qed.

End BorderTermination.

(* ===================================================================== *)
(** ** The further theorems at concrete inputs *)
(* ===================================================================== *)

Section MoreInstances.

Local Open Scope Z_scope.

(** The registry after one store holds the record under the bundle's key. *)
Lemma issued_registry_records_sample :
  rec_cert_id (registry_record first_bundle "B26A001" "2026-01-01T00:00:00")
  = cert_id first_bundle
  /\ rec_authentic (registry_record first_bundle "B26A001" "2026-01-01T00:00:00") = true
  /\ exists (bundle : SecretBundle) (batch_code now : string),
       cert_id bundle = cert_id first_bundle
       /\ registry_record first_bundle "B26A001" "2026-01-01T00:00:00"
          = registry_record bundle batch_code now.
Proof.
  apply (issued_registry_records
           (store_tag_in_db first_bundle "B26A001" "2026-01-01T00:00:00" ∅)).
  - constructor. constructor.
  - apply store_tag_in_db_lookup.
Defined.

Lemma registry_record_determines_bundle_sample :
  first_bundle = first_bundle
  /\ "B26A001"%string = "B26A001"%string
  /\ "2026-01-01T00:00:00"%string = "2026-01-01T00:00:00"%string.
Proof.
  apply (registry_record_determines_bundle first_bundle first_bundle
           "B26A001" "2026-01-01T00:00:00" "B26A001" "2026-01-01T00:00:00").
  reflexivity.
Defined.

(** The foreign code is passed over and the text between the two markers is
    returned. *)
Lemma detect_qr_code_first_marker_sample :
  detect_qr_code (H := sample_imaging) two_codes_image = Ok (Some "A&"%string).
Proof.
  destruct (detect_qr_code_first_marker (H := sample_imaging)
              two_codes_image two_codes_image
              [list_byte_of_string "https://example.org/"]
              (list_byte_of_string "https://skern.com/verify?id=A&id=B") []
              "https://skern.com/verify?id=A&id=B") as (x & Hx & Hd).
  - reflexivity.
  - reflexivity.
  - constructor; [|constructor]. eexists. split; reflexivity.
  - reflexivity.
  - reflexivity.
  - vm_compute in Hx. injection Hx as <-. exact Hd.
Defined.

(** The garbled code hides the genuine one behind it. *)
Lemma detect_qr_code_decode_failure_sample :
  detect_qr_code (H := rich_imaging) garbled_then_genuine_image = Ok None
  /\ exists a : AnalysisResult,
       analyze_tag_image (H := rich_imaging) garbled_then_genuine_image = Ok a
       /\ qr_detected a = false
       /\ overall_valid a = false
       /\ forall db : gmap string RegistryRecord, tab2_verdict a db = SCAN_FAILED.
Proof.
  apply (detect_qr_code_decode_failure (H := rich_imaging)
           garbled_then_genuine_image garbled_then_genuine_image []
           (list_byte_of_string (String (ascii_of_nat 255) EmptyString))
           [list_byte_of_string (qr_url (cert_id first_bundle))]
           UnicodeDecodeError).
  - reflexivity.
  - reflexivity.
  - constructor.
  - reflexivity.
Defined.

Lemma unreadable_image_scan_failed_sample :
  analyze_tag_image (H := broken_imaging) tt = Ok blank_analysis
  /\ forall (db : gmap string RegistryRecord) (now : string),
       tab2_verdict blank_analysis db = SCAN_FAILED
       /\ tab2_report blank_analysis db now = None.
Proof.
  apply (unreadable_image_scan_failed (H := broken_imaging) tt
           (LibError "cannot identify image file")).
  reflexivity.
Defined.

(** The genuine image against a registry that holds its record. *)
Lemma authentic_needs_every_layer_sample :
  (exists (c : string) (r : RegistryRecord),
     detect_qr_code (H := rich_imaging) genuine_image = Ok (Some c)
     /\ c <> EmptyString
     /\ verify_tag_in_db c
          (store_tag_in_db first_bundle "B26A001" "2026-01-01T00:00:00" ∅) = Some r)
  /\ detect_guilloche_pattern (H := rich_imaging) genuine_image = Ok true
  /\ detect_grid_pattern (H := rich_imaging) genuine_image = Ok true
  /\ detect_corner_markers (H := rich_imaging) genuine_image = Ok true.
Proof.
  apply (authentic_needs_every_layer (H := rich_imaging) genuine_image complete_analysis).
  - vm_compute. reflexivity.
  - vm_compute. reflexivity.
Defined.

Lemma sample_secrets_contract : secrets_contract (H := sample_secrets).
Proof.
  split.
  - intros n g. cbn [token_bytes sample_secrets fst].
    rewrite length_firstn, length_app, repeat_length. lia.
  - intros bs. cbn [sha256_digest sample_secrets].
    rewrite length_firstn, length_app, repeat_length. lia.
Defined.

Lemma generate_secret_bundle_format_sample :
  exists cert_hex serial_hex : string,
    cert_id (fst (generate_secret_bundle (H := sample_secrets) "B26A001" sample_rng))
    = ("CERT-" ++ "B26A001" ++ "-" ++ cert_hex)%string
    /\ String.length cert_hex = 12%nat
    /\ str_all is_upper_hex cert_hex = true
    /\ serial_number (fst (generate_secret_bundle (H := sample_secrets) "B26A001" sample_rng))
       = ("SK-" ++ serial_hex)%string
    /\ String.length serial_hex = 12%nat
    /\ str_all is_upper_hex serial_hex = true
    /\ length (guilloche_id (fst (generate_secret_bundle (H := sample_secrets)
                                    "B26A001" sample_rng))) = 16%nat
    /\ length (border_id (fst (generate_secret_bundle (H := sample_secrets)
                                 "B26A001" sample_rng))) = 16%nat
    /\ String.length (cert_id (fst (generate_secret_bundle (H := sample_secrets)
                                      "B26A001" sample_rng)))
       = (String.length "B26A001" + 18)%nat.
Proof.
  apply (generate_secret_bundle_format (H := sample_secrets) "B26A001" sample_rng).
  exact sample_secrets_contract.
Defined.

(** A tag issued for batch [B26A001] and scanned with every layer found. *)
Lemma issued_tag_is_recognised_sample :
  exists a : AnalysisResult,
    analyze_tag_image (H := rich_imaging) (issued_image "B26A001") = Ok a
    /\ overall_valid a = true
    /\ tab2_verdict a
         (snd (tab1_generate (H := sample_secrets) "B26A001" "2026-01-01T00:00:00"
                 sample_rng ∅))
       = AUTHENTIC.
Proof.
  destruct (issued_tag_is_recognised (H := sample_secrets) (H0 := rich_imaging)
              "B26A001" "2026-01-01T00:00:00" sample_rng
              (snd (fst (tab1_generate (H := sample_secrets) "B26A001"
                           "2026-01-01T00:00:00" sample_rng ∅)))
              ∅
              (snd (tab1_generate (H := sample_secrets) "B26A001"
                      "2026-01-01T00:00:00" sample_rng ∅))
              (fst (generate_secret_bundle (H := sample_secrets) "B26A001" sample_rng))
              (issued_image "B26A001") (issued_image "B26A001") []
              (list_byte_of_string
                 (qr_url (cert_id (fst (generate_secret_bundle (H := sample_secrets)
                                          "B26A001" sample_rng)))))
              []) as (a & Ha & _ & _ & Hv).
  - reflexivity.
  - reflexivity.
  - reflexivity.
  - reflexivity.
  - constructor.
  - vm_compute. reflexivity.
  - exists a. split; [exact Ha|].
    assert (Hvalid : overall_valid a = true).
    { vm_compute in Ha. injection Ha as <-. reflexivity. }
    split; [exact Hvalid|]. rewrite Hv, Hvalid. reflexivity.
Defined.

(** A tag issued for batch [Bid=001] in a fresh session. *)
Lemma marker_in_batch_code_is_counterfeit_sample :
  exists (a : AnalysisResult) (x : string),
    analyze_tag_image (H := rich_imaging) (issued_image "Bid=001") = Ok a
    /\ qr_cert_id a = Some x
    /\ x <> cert_id (fst (generate_secret_bundle (H := sample_secrets) "Bid=001" sample_rng))
    /\ tab2_verdict a
         (snd (tab1_generate (H := sample_secrets) "Bid=001" "2026-01-01T00:00:00"
                 sample_rng ∅))
       = COUNTERFEIT.
Proof.
  apply (marker_in_batch_code_is_counterfeit (H := sample_secrets) (H0 := rich_imaging)
           "Bid=001" "2026-01-01T00:00:00" sample_rng
           (snd (fst (tab1_generate (H := sample_secrets) "Bid=001"
                        "2026-01-01T00:00:00" sample_rng ∅)))
           (snd (tab1_generate (H := sample_secrets) "Bid=001"
                   "2026-01-01T00:00:00" sample_rng ∅))
           (fst (generate_secret_bundle (H := sample_secrets) "Bid=001" sample_rng))
           (issued_image "Bid=001") (issued_image "Bid=001") []
           (list_byte_of_string
              (qr_url (cert_id (fst (generate_secret_bundle (H := sample_secrets)
                                       "Bid=001" sample_rng)))))
           []).
  - reflexivity.
  - reflexivity.
  - reflexivity.
  - reflexivity.
  - constructor.
  - vm_compute. reflexivity.
Defined.

Lemma qr_layer_placement_sample :
  0 <= target_size 1200 75 <= 1200
  /\ 0 <= paste_x 1200 75
  /\ paste_x 1200 75 + target_size 1200 75 <= 1200
  /\ 0 <= (1200 - target_size 1200 75 - paste_x 1200 75) - paste_x 1200 75 <= 1.
Proof. apply (qr_layer_placement 1200 75); lia. Defined.

Lemma target_size_on_sliders_sample :
  1200 * 82 / 100 - 1 <= target_size 1200 82 <= 1200 * 82 / 100
  /\ target_size 1200 82 = 1200 * 82 / 100 - 1
  /\ target_size 1200 75 = 1200 * 75 / 100.
Proof. apply (target_size_on_sliders 1200 82); lia. Defined.

Lemma flat_libm_sin_bounded : sin_bounded (H := flat_libm).
Proof. intros x. split; reflexivity. Defined.

Lemma dash_parameter_ranges_sample :
  exists (dash_len gap_len : float64) (thickness : Z),
    dash_len_at (H := flat_libm) (byte_params ff_first_key) 0 zero = Ok dash_len
    /\ gap_len_at (byte_params ff_first_key) 0 = Ok gap_len
    /\ thickness_at (byte_params ff_first_key) 0 = Ok thickness
    /\ fl_leb (Float 14 0) dash_len = true /\ fl_leb dash_len (Float 78 0) = true
    /\ fl_leb (Float 12 0) gap_len = true /\ fl_leb gap_len (Float 22 0) = true
    /\ 6 <= thickness <= 9.
Proof.
  apply (dash_parameter_ranges (H := flat_libm) ff_first_key 0 zero).
  - exact flat_libm_sin_bounded.
  - reflexivity.
Defined.

(** The walk around a 200 pixel canvas: sides of 192 pixels, at most eight
    dashes each. *)
Lemma border_dashes_terminate_sample :
  exists (final : Z) (lines : list Dash),
    border_dashes (H := flat_libm) 8 zero_key 200 = Ok (Some (final, lines))
    /\ 0 <= final <= 4 * ((192 + 25) / 26).
Proof.
  apply (border_dashes_terminate (H := flat_libm) 8 zero_key 200 192).
  - exact flat_libm_sin_bounded.
  - reflexivity.
  - lia.
  - lia.
  - repeat (constructor; [vm_compute; reflexivity|]). constructor.
Defined.

End MoreInstances.
